(** * Obsidian Cursor Manager: the cursor cache and its lifecycle handlers

    A shallow embedding of the plugin class [CursorTrackerPlugin] in the
    variants the repository holds: [main.ts] (module [MainTs]); the
    JavaScript variant with JSDoc types whose 'file-open' callback calls
    [onOpen] and keeps [initialCursorHasBeenSet], the file [part_000]
    (module [Part000]); and the later [src/main.js] (module [SrcMainJs]),
    which has the same [loadSettings], [save], [saveSettings], [renameFile]
    and [deleteFile] as [part_000] and defers the restoration of the caret
    to a debounced [restoreCursorPosition], with [initialZeroZeroReceived].

    The plugin is a record of its fields, the handlers are functions on it,
    and what it asks of the editor and of the storage is kept in a list of
    effects.  The host delivers events one at a time; a move notification
    is an event of its own, processed after the handler that caused it has
    returned, unless said otherwise ([Part000.onOpenNotified]).  Timers are
    the host's: time passing and a timer firing are events too.

    Layout: the data model, the recency cache, the host's debouncer, the
    plugin state with the handlers of the variants, the vocabulary of the
    statements; then the lemmas. *)

From Stdlib Require Import String.
From Stdlib Require Import List ZArith Bool Arith Lia Permutation.
Import ListNotations.
Local Open Scope string_scope.
Local Open Scope nat_scope.
Local Open Scope list_scope.

(* ================================================================== *)
(** ** Data model *)

(** [EditorPosition] of the host API: [{ line, ch }], two JS numbers that
    hold integers. *)
Record EditorPosition : Type := Pos { line : Z; ch : Z }.

(** [a.ch === b.ch && a.line === b.line] *)
Definition samePosition (a b : EditorPosition) : bool :=
  (ch a =? ch b)%Z && (line a =? line b)%Z.

(** [a.ch !== b.ch || a.line !== b.line] *)
Definition differentPosition (a b : EditorPosition) : bool :=
  negb (ch a =? ch b)%Z || negb (line a =? line b)%Z.

(** [p.ch === 0 && p.line === 0] *)
Definition atOrigin (p : EditorPosition) : bool :=
  (ch p =? 0)%Z && (line p =? 0)%Z.

(** A JS string in a condition: the empty string is falsy. *)
Definition truthy (s : string) : bool := negb (String.eqb s "").

(** [type CursorInfo = { file: string, cursor: EditorPosition }] *)
Record CursorInfo : Type := Info { file : string; cursor : EditorPosition }.

(* ================================================================== *)
(** ** The recency cache *)

Module QuickLRU.

(** Modelled from the spec: the class [QuickLRU] comes from the package
    [quick-lru], which the plugin imports and whose code is not among the
    repository's files.  The definitions below follow the contract of the
    design document (section 4.1, Bounded Recency Cache): an ordered
    collection of entries from least- to most-recently used; [get] and
    [set] move the entry to the most-recent end; an insertion that makes the
    size exceed the capacity drops the single oldest entry; [has] and
    [entriesAscending] do not touch the order. *)
Record t (V : Type) : Type := mk { maxSize : nat; entries : list (string * V) }.
Arguments mk {V} _ _.
Arguments maxSize {V} _.
Arguments entries {V} _.

(** [new QuickLRU({ maxSize })] *)
Definition new {V : Type} (n : nat) : t V := mk n [].

Definition lookup {V : Type} (k : string) (l : list (string * V)) : option V :=
  option_map snd (find (fun e => String.eqb (fst e) k) l).

Definition remove {V : Type} (k : string) (l : list (string * V)) : list (string * V) :=
  filter (fun e => negb (String.eqb (fst e) k)) l.

(** Drop the oldest entry when the size exceeds the capacity. *)
Definition evict {V : Type} (n : nat) (l : list (string * V)) : list (string * V) :=
  if n <? length l then tl l else l.

Definition has {V : Type} (k : string) (c : t V) : bool :=
  match lookup k (entries c) with Some _ => true | None => false end.

(** [get] returns the value ([None] stands for [undefined]) and the cache
    with the key promoted. *)
Definition get {V : Type} (k : string) (c : t V) : option V * t V :=
  match lookup k (entries c) with
  | Some v => (Some v, mk (maxSize c) (remove k (entries c) ++ [(k, v)]))
  | None => (None, c)
  end.

Definition set {V : Type} (k : string) (v : V) (c : t V) : t V :=
  mk (maxSize c) (evict (maxSize c) (remove k (entries c) ++ [(k, v)])).

Definition delete {V : Type} (k : string) (c : t V) : t V :=
  mk (maxSize c) (remove k (entries c)).

Definition entriesAscending {V : Type} (c : t V) : list (string * V) := entries c.

Definition size {V : Type} (c : t V) : nat := length (entries c).

(** A run of [set] calls, first element first. *)
Definition setAll {V : Type} (kvs : list (string * V)) (c : t V) : t V :=
  fold_left (fun acc kv => set (fst kv) (snd kv) acc) kvs c.

(** The operations of the interface, for statements over arbitrary runs. *)
Inductive op (V : Type) : Type :=
| OpSet (k : string) (v : V)
| OpGet (k : string)
| OpDelete (k : string).
Arguments OpSet {V} _ _.
Arguments OpGet {V} _.
Arguments OpDelete {V} _.

Definition apply_op {V : Type} (o : op V) (c : t V) : t V :=
  match o with
  | OpSet k v => set k v c
  | OpGet k => snd (get k c)
  | OpDelete k => delete k c
  end.

Definition run {V : Type} (ops : list (op V)) (c : t V) : t V :=
  fold_left (fun acc o => apply_op o acc) ops c.

(** Keys are pairwise distinct and the size is within the capacity. *)
Definition wf {V : Type} (c : t V) : Prop :=
  NoDup (map fst (entries c)) /\ length (entries c) <= maxSize c.

(** A boolean test of pairwise distinct keys, to run on concrete lists. *)
Fixpoint distinctb (ks : list string) : bool :=
  match ks with
  | [] => true
  | k :: ks' => negb (existsb (String.eqb k) ks') && distinctb ks'
  end.

End QuickLRU.

(* ================================================================== *)
(** ** The host's debouncer *)

Module Debouncer.

(** Modelled from the spec: [debounce(cb, timeout, resetTimer)] is a function
    of the host API (package [obsidian]) whose code is not among the
    repository's files.  The design document (sections 4.2 and 9) describes
    it as a timer plus a flag: a call with no timer pending starts one for
    the window, a call while one is pending is taken up by that timer, and
    the callback runs when the timer fires.  The third argument is kept as
    the caller passes it: with [resetTimer] a call while a timer is pending
    restarts the window, without it the pending deadline stays.  The
    callback is the caller's; the plugin runs it when the timer is due. *)
Record t : Type := mk { timeout : N; resetTimer : bool; fireAt : option N }.

Definition debounce (timeout : N) (resetTimer : bool) : t :=
  mk timeout resetTimer None.

(** A call of the debounced function at time [now]. *)
Definition call (now : N) (d : t) : t :=
  match fireAt d with
  | None => mk (timeout d) (resetTimer d) (Some (now + timeout d)%N)
  | Some _ =>
      if resetTimer d
      then mk (timeout d) (resetTimer d) (Some (now + timeout d)%N)
      else d
  end.

Definition pending (d : t) : bool :=
  match fireAt d with Some _ => true | None => false end.

Definition due (now : N) (d : t) : bool :=
  match fireAt d with Some f => (f <=? now)%N | None => false end.

End Debouncer.

(* ================================================================== *)
(** ** The plugin state and what is shared by the variants *)

(** [type ActiveFileInfo = { path: string, initialCursorHasBeenSet: boolean }] *)
Record ActiveFileInfo : Type :=
  Active { path : string; initialCursorHasBeenSet : bool }.

(** What the plugin asks of its collaborators, in the order it asks. *)
Inductive Effect : Type :=
| SetCursor (p : EditorPosition)        (* view.editor.setCursor(p) *)
| ScrollIntoView (p : EditorPosition)   (* view.editor.scrollIntoView({to: p, from: p}, true) *)
| SaveSettings                          (* a call of this.saveSettings(): a save request *)
| SaveData (fileCursors : list CursorInfo). (* this.saveData(settings): the durable write *)

(** The fields of [CursorTrackerPlugin], the host's clock and the record of
    the effects so far (latest first). *)
Record Plugin : Type := mkPlugin {
  settings : list CursorInfo;               (* settings.fileCursors *)
  lru : QuickLRU.t EditorPosition;
  debounceSaveFn : option Debouncer.t;      (* a debouncer or null *)
  layoutReady : bool;
  activeFile : ActiveFileInfo;
  clock : N;
  effects : list Effect
}.

(** The field initialisers of the class. *)
Definition init : Plugin :=
  mkPlugin [] (QuickLRU.new 50) None false (Active "" false) 0%N [].

Definition set_settings (x : list CursorInfo) (p : Plugin) : Plugin :=
  mkPlugin x (lru p) (debounceSaveFn p) (layoutReady p) (activeFile p) (clock p) (effects p).
Definition set_lru (x : QuickLRU.t EditorPosition) (p : Plugin) : Plugin :=
  mkPlugin (settings p) x (debounceSaveFn p) (layoutReady p) (activeFile p) (clock p) (effects p).
Definition set_debounceSaveFn (x : option Debouncer.t) (p : Plugin) : Plugin :=
  mkPlugin (settings p) (lru p) x (layoutReady p) (activeFile p) (clock p) (effects p).
Definition set_layoutReady (x : bool) (p : Plugin) : Plugin :=
  mkPlugin (settings p) (lru p) (debounceSaveFn p) x (activeFile p) (clock p) (effects p).
Definition set_activeFile (x : ActiveFileInfo) (p : Plugin) : Plugin :=
  mkPlugin (settings p) (lru p) (debounceSaveFn p) (layoutReady p) x (clock p) (effects p).
Definition set_clock (x : N) (p : Plugin) : Plugin :=
  mkPlugin (settings p) (lru p) (debounceSaveFn p) (layoutReady p) (activeFile p) x (effects p).
Definition emit (e : Effect) (p : Plugin) : Plugin :=
  mkPlugin (settings p) (lru p) (debounceSaveFn p) (layoutReady p) (activeFile p) (clock p)
           (e :: effects p).

(** What [this.app.workspace.getActiveViewOfType(MarkdownView)] returns when
    it is not null: [view.file] (a path, or null) and
    [view.editor.getCursor()], which the host types as a position. *)
Record MarkdownView : Type := View { view_file : option string; view_cursor : EditorPosition }.

Definition countSaveSettings (es : list Effect) : nat :=
  length (filter (fun e => match e with SaveSettings => true | _ => false end) es).

Definition countSaveData (es : list Effect) : nat :=
  length (filter (fun e => match e with SaveData _ => true | _ => false end) es).

Definition toCursorInfo (entry : string * EditorPosition) : CursorInfo :=
  Info (fst entry) (snd entry).

(** The serialization built by the first loop of [save]. *)
Definition serialize (p : Plugin) : list CursorInfo :=
  map toCursorInfo (QuickLRU.entriesAscending (lru p)).

(** The comparison loop of [save], for two arrays of the same length: true
    as soon as an index differs in [file], [cursor.ch] or [cursor.line]. *)
Fixpoint differs (old new : list CursorInfo) : bool :=
  match old, new with
  | o :: old', n :: new' =>
      if negb (String.eqb (file o) (file n))
         || negb (ch (cursor o) =? ch (cursor n))%Z
         || negb (line (cursor o) =? line (cursor n))%Z
      then true
      else differs old' new'
  | _, _ => false
  end.

(** [save()], the same text in every variant. *)
Definition save (p : Plugin) : Plugin :=
  let fileCursors := serialize p in
  let updateSettings :=
    if length (settings p) =? length fileCursors
    then differs (settings p) fileCursors
    else true in
  if updateSettings
  then emit (SaveData fileCursors) (set_settings fileCursors p)
  else p.

(** The loop of [loadSettings()] over [settings.fileCursors]. *)
Definition fillCache (p : Plugin) : Plugin :=
  set_lru (QuickLRU.setAll (map (fun ci => (file ci, cursor ci)) (settings p)) (lru p)) p.

(** The callback handed to [debounce] in [saveSettings]. *)
Definition debouncedSave (p : Plugin) : Plugin :=
  save (set_debounceSaveFn None p).

(** Time passes to [t]; the timer of the debouncer, when due, runs its
    callback. *)
Definition elapse (t : N) (p : Plugin) : Plugin :=
  let p := set_clock (N.max (clock p) t) p in
  match debounceSaveFn p with
  | Some d => if Debouncer.due (clock p) d then debouncedSave p else p
  | None => p
  end.

(** [onLayoutReady] callback. *)
Definition onLayoutReady (p : Plugin) : Plugin := set_layoutReady true p.

(** The handlers whose text is the same in both variants, over the
    variant's [saveSettings]. *)
Section SharedHandlers.
Variable saveSettings : Plugin -> Plugin.

Definition renameFile (newPath oldPath : string) (p : Plugin) : Plugin :=
  if QuickLRU.has oldPath (lru p) then
    let (cursorPosition, c) := QuickLRU.get oldPath (lru p) in
    let c := QuickLRU.delete oldPath c in
    let c := match cursorPosition with
             | Some v => QuickLRU.set newPath v c
             | None => c
             end in
    saveSettings (set_lru c p)
  else p.

Definition deleteFile (path : string) (p : Plugin) : Plugin :=
  saveSettings (set_lru (QuickLRU.delete path (lru p)) p).
End SharedHandlers.

(** The events the host delivers to the plugin.  [view] is what
    [getActiveViewOfType(MarkdownView)] returns while the handler runs. *)
Inductive Event : Type :=
| FileOpen (file : option string) (view : option MarkdownView)  (* workspace 'file-open' *)
| SelectionSet (view : option MarkdownView)  (* the editor extension's reportCursor *)
| Rename (newPath oldPath : string)          (* vault 'rename' *)
| Delete (path : string)                     (* vault 'delete' *)
| LayoutReady
| Quit                                       (* workspace 'quit', and onunload *)
| Elapse (t : N).

(* ================================================================== *)
(** ** The TypeScript variant, [main.ts] *)

Module MainTs.

(** [loadSettings()]: [data] is what [loadData()] gave, null when nothing
    was stored; [Object.assign({}, { fileCursors: [] }, data)]. *)
Definition loadSettings (data : option (list CursorInfo)) (p : Plugin) : Plugin :=
  fillCache (set_settings (match data with Some fc => fc | None => [] end) p).

(** The first call creates the debouncer and returns; later calls call
    it. *)
Definition saveSettings (p : Plugin) : Plugin :=
  let p := emit SaveSettings p in
  match debounceSaveFn p with
  | Some d => set_debounceSaveFn (Some (Debouncer.call (clock p) d)) p
  | None => set_debounceSaveFn (Some (Debouncer.debounce 10000%N true)) p
  end.

Definition onOpen (view : option MarkdownView) (p : Plugin) : Plugin :=
  match view with
  | None => p
  | Some v =>
    match view_file v with
    | None => p
    | Some currentActiveFile =>
      if truthy currentActiveFile && QuickLRU.has currentActiveFile (lru p) then
        let (got, c) := QuickLRU.get currentActiveFile (lru p) in
        let desiredCursorPosition :=
          match got with Some d => d | None => Pos 0 0 end in
        let p := set_lru c p in
        let currentCursorPosition := view_cursor v in
        (* desired && !current || (current.ch === 0 && current.line === 0):
           both objects are truthy *)
        if atOrigin currentCursorPosition
        then emit (ScrollIntoView desiredCursorPosition)
               (emit (SetCursor desiredCursorPosition) p)
        else p
      else p
    end
  end.

Definition updateCursorPosition (view : option MarkdownView) (p : Plugin) : Plugin :=
  if negb (layoutReady p) then p else
  match view with
  | None => p
  | Some activeLeaf =>
    match view_file activeLeaf with
    | None => p
    | Some f =>
      if negb (String.eqb f (path (activeFile p))) then p
      else
        (* the branch on !initialCursorHasBeenSet only logs *)
        let (oldCursorPosition, c) :=
          if QuickLRU.has f (lru p) then QuickLRU.get f (lru p) else (None, lru p) in
        let p := set_lru c p in
        let currentCursorPosition := view_cursor activeLeaf in
        match oldCursorPosition with
        | Some old =>
            if samePosition currentCursorPosition old
            then saveSettings (set_lru (QuickLRU.set f currentCursorPosition (lru p)) p)
            else p
        | None => p
        end
    end
  end.

Definition renameFile := renameFile saveSettings.
Definition deleteFile := deleteFile saveSettings.

(** The 'file-open' callback registered in [onload]. *)
Definition fileOpen (file : option string) (view : option MarkdownView) (p : Plugin) : Plugin :=
  let p := set_activeFile (Active (match file with Some f => f | None => "" end) false) p in
  let p := onOpen view p in
  set_activeFile (Active (path (activeFile p)) true) p.

(** [onOpen] with an editor that reports the programmatic move at once:
    [setCursor] runs the editor extension's [reportCursor], hence
    [updateCursorPosition], before it returns, and the view then shows the
    position just set. *)
Definition onOpenNotified (view : option MarkdownView) (p : Plugin) : Plugin :=
  match view with
  | None => p
  | Some v =>
    match view_file v with
    | None => p
    | Some currentActiveFile =>
      if truthy currentActiveFile && QuickLRU.has currentActiveFile (lru p) then
        let (got, c) := QuickLRU.get currentActiveFile (lru p) in
        let desiredCursorPosition :=
          match got with Some d => d | None => Pos 0 0 end in
        let p := set_lru c p in
        let currentCursorPosition := view_cursor v in
        if atOrigin currentCursorPosition
        then
          let p := emit (SetCursor desiredCursorPosition) p in
          let p := updateCursorPosition
                     (Some (View (Some currentActiveFile) desiredCursorPosition)) p in
          emit (ScrollIntoView desiredCursorPosition) p
        else p
      else p
    end
  end.

Definition fileOpenNotified (file : option string) (view : option MarkdownView)
    (p : Plugin) : Plugin :=
  let p := set_activeFile (Active (match file with Some f => f | None => "" end) false) p in
  let p := onOpenNotified view p in
  set_activeFile (Active (path (activeFile p)) true) p.

Definition step (e : Event) (p : Plugin) : Plugin :=
  match e with
  | FileOpen file view => fileOpen file view p
  | SelectionSet view => updateCursorPosition view p
  | Rename newPath oldPath => renameFile newPath oldPath p
  | Delete path => deleteFile path p
  | LayoutReady => onLayoutReady p
  | Quit => save p
  | Elapse t => elapse t p
  end.

Definition steps (es : list Event) (p : Plugin) : Plugin :=
  fold_left (fun acc e => step e acc) es p.

End MainTs.

(* ================================================================== *)
(** ** The JavaScript variant [part_000] (JSDoc types, [onOpen],
    [initialCursorHasBeenSet]) *)

Module Part000.

(** [loadSettings()]: [Object.assign({}, this.settings, data)]. *)
Definition loadSettings (data : option (list CursorInfo)) (p : Plugin) : Plugin :=
  fillCache (match data with Some fc => set_settings fc p | None => p end).

(** The first call creates the debouncer and calls it; later calls call
    it. *)
Definition saveSettings (p : Plugin) : Plugin :=
  let p := emit SaveSettings p in
  match debounceSaveFn p with
  | Some d => set_debounceSaveFn (Some (Debouncer.call (clock p) d)) p
  | None =>
      set_debounceSaveFn
        (Some (Debouncer.call (clock p) (Debouncer.debounce 10000%N true))) p
  end.

Definition onOpen (view : option MarkdownView) (p : Plugin) : Plugin :=
  match view with
  | None => p
  | Some v =>
    match view_file v with
    | None => p
    | Some currentActiveFile =>
      if truthy currentActiveFile && QuickLRU.has currentActiveFile (lru p) then
        let (got, c) := QuickLRU.get currentActiveFile (lru p) in
        let desiredCursorPosition :=
          match got with Some d => d | None => Pos 0 0 end in
        let p := set_lru c p in
        let currentCursorPosition := view_cursor v in
        (* desired && (!current || (current.ch === 0 && current.line === 0)):
           both objects are truthy *)
        if atOrigin currentCursorPosition
        then emit (ScrollIntoView desiredCursorPosition)
               (emit (SetCursor desiredCursorPosition) p)
        else saveSettings
               (set_lru (QuickLRU.set currentActiveFile currentCursorPosition (lru p)) p)
      else p
    end
  end.

Definition updateCursorPosition (view : option MarkdownView) (p : Plugin) : Plugin :=
  if negb (layoutReady p) then p else
  match view with
  | None => p
  | Some activeLeaf =>
    match view_file activeLeaf with
    | None => p
    | Some f =>
      if negb (String.eqb f (path (activeFile p))) then p
      else if negb (initialCursorHasBeenSet (activeFile p)) then p
      else
        let (oldCursorPosition, c) :=
          if QuickLRU.has f (lru p) then QuickLRU.get f (lru p) else (None, lru p) in
        let p := set_lru c p in
        let currentCursorPosition := view_cursor activeLeaf in
        if match oldCursorPosition with
           | None => true
           | Some old => differentPosition currentCursorPosition old
           end
        then saveSettings (set_lru (QuickLRU.set f currentCursorPosition (lru p)) p)
        else p
    end
  end.

Definition renameFile := renameFile saveSettings.
Definition deleteFile := deleteFile saveSettings.

(** The 'file-open' callback registered in [onload]. *)
Definition fileOpen (file : option string) (view : option MarkdownView) (p : Plugin) : Plugin :=
  let p := set_activeFile (Active (match file with Some f => f | None => "" end) false) p in
  let p := onOpen view p in
  set_activeFile (Active (path (activeFile p)) true) p.

(** [onOpen] with an editor that reports the programmatic move at once:
    [setCursor] runs the editor extension's [reportCursor], hence
    [updateCursorPosition], before it returns, and the view then shows the
    position just set. *)
Definition onOpenNotified (view : option MarkdownView) (p : Plugin) : Plugin :=
  match view with
  | None => p
  | Some v =>
    match view_file v with
    | None => p
    | Some currentActiveFile =>
      if truthy currentActiveFile && QuickLRU.has currentActiveFile (lru p) then
        let (got, c) := QuickLRU.get currentActiveFile (lru p) in
        let desiredCursorPosition :=
          match got with Some d => d | None => Pos 0 0 end in
        let p := set_lru c p in
        let currentCursorPosition := view_cursor v in
        if atOrigin currentCursorPosition
        then
          let p := emit (SetCursor desiredCursorPosition) p in
          let p := updateCursorPosition
                     (Some (View (Some currentActiveFile) desiredCursorPosition)) p in
          emit (ScrollIntoView desiredCursorPosition) p
        else saveSettings
               (set_lru (QuickLRU.set currentActiveFile currentCursorPosition (lru p)) p)
      else p
    end
  end.

Definition fileOpenNotified (file : option string) (view : option MarkdownView)
    (p : Plugin) : Plugin :=
  let p := set_activeFile (Active (match file with Some f => f | None => "" end) false) p in
  let p := onOpenNotified view p in
  set_activeFile (Active (path (activeFile p)) true) p.

Definition step (e : Event) (p : Plugin) : Plugin :=
  match e with
  | FileOpen file view => fileOpen file view p
  | SelectionSet view => updateCursorPosition view p
  | Rename newPath oldPath => renameFile newPath oldPath p
  | Delete path => deleteFile path p
  | LayoutReady => onLayoutReady p
  | Quit => save p
  | Elapse t => elapse t p
  end.

Definition steps (es : list Event) (p : Plugin) : Plugin :=
  fold_left (fun acc e => step e acc) es p.

End Part000.

(* ================================================================== *)
(** ** Vocabulary of the statements *)

(** The snapshot comparison of [save], in the words of the design: the two
    sequences differ in length, or at some index in key, line or column. *)
Definition snapshotDiffers (old new : list CursorInfo) : Prop :=
  length old <> length new \/
  exists i o n, nth_error old i = Some o /\ nth_error new i = Some n /\
    (file o <> file n \/ line (cursor o) <> line (cursor n) \/ ch (cursor o) <> ch (cursor n)).

(** The order after a [get] of key [k]: its entry moved to the end. *)
Definition promote (k : string) (l : list (string * EditorPosition)) :
    list (string * EditorPosition) :=
  match QuickLRU.lookup k l with
  | Some v => QuickLRU.remove k l ++ [(k, v)]
  | None => l
  end.

Definition promoteAll (ks : list string) (l : list (string * EditorPosition)) :
    list (string * EditorPosition) :=
  fold_left (fun acc k => promote k acc) ks l.

(** The 'file-open' event for document [k] with the caret at the origin. *)
Definition openAtOrigin (k : string) : Event :=
  FileOpen (Some k) (Some (View (Some k) (Pos 0 0))).

(** What one restoring open of [k] leaves: [k] is the most recent entry,
    the oldest-first order has changed, the editor was moved, and nothing
    was written or scheduled; a snapshot that agreed with the cache no
    longer does. *)
Definition restoredQuietly (p : Plugin) (k : string) (v : EditorPosition)
    (older newer : list (string * EditorPosition)) (p1 : Plugin) : Prop :=
  QuickLRU.entriesAscending (lru p1) = older ++ newer ++ [(k, v)] /\
  QuickLRU.entriesAscending (lru p1) <> QuickLRU.entriesAscending (lru p) /\
  effects p1 = ScrollIntoView v :: SetCursor v :: effects p /\
  debounceSaveFn p1 = debounceSaveFn p /\
  settings p1 = settings p /\
  (settings p = serialize p -> settings p1 <> serialize p1).

(** What a run of restoring opens of [ks] leaves: the snapshot, the
    debouncer and the numbers of save requests and of durable writes are
    as before; the cache holds the same entries in the promoted order. *)
Definition reorderedQuietly (p : Plugin) (ks : list string) (p' : Plugin) : Prop :=
  settings p' = settings p /\
  debounceSaveFn p' = debounceSaveFn p /\
  countSaveSettings (effects p') = countSaveSettings (effects p) /\
  countSaveData (effects p') = countSaveData (effects p) /\
  QuickLRU.entriesAscending (lru p') = promoteAll ks (QuickLRU.entriesAscending (lru p)).






Definition EditorPosition_eq_dec (a b : EditorPosition) : {a = b} + {a <> b}.
Proof. repeat decide equality. Defined.

Definition CursorInfo_list_eq_dec (a b : list CursorInfo) : {a = b} + {a <> b}.
Proof. repeat decide equality. Defined.

(* ================================================================== *)
(** ** Sample states *)

(** 51 keys, one character each, for concrete runs. *)
Definition sampleKey (n : nat) : string :=
  String (Ascii.ascii_of_nat (48 + n)) EmptyString.

Definition sampleEntries (from count : nat) : list (string * EditorPosition) :=
  map (fun n => (sampleKey n, Pos (Z.of_nat n) 0)) (seq from count).

(** A plugin that has just loaded one persisted entry: the cache and the
    last-persisted snapshot agree. *)
Definition loadedOne : Plugin :=
  Part000.loadSettings (Some [Info "a.md" (Pos 2 2)]) init.

(** A plugin that has just loaded two persisted entries. *)
Definition loadedTwo : Plugin :=
  Part000.loadSettings (Some [Info "x.md" (Pos 1 1); Info "y.md" (Pos 4 2)]) init.

(** The plugin after the layout is ready, with "y.md" active and a cached
    position for "x.md" and for "y.md". *)
Definition readyOnY : Plugin :=
  Part000.steps
    [LayoutReady; FileOpen (Some "y.md") (Some (View (Some "y.md") (Pos 0 0)))]
    (Part000.loadSettings (Some [Info "x.md" (Pos 1 1); Info "y.md" (Pos 4 2)]) init).

(** The JavaScript variant with the layout ready and (5, 10) stored for
    "a.md". *)
Definition jsReadyCached : Plugin :=
  Part000.steps [LayoutReady] (Part000.loadSettings (Some [Info "a.md" (Pos 5 10)]) init).

(** The TypeScript variant with (5, 10) stored for "a.md". *)
Definition tsLoaded : Plugin :=
  MainTs.loadSettings (Some [Info "a.md" (Pos 5 10)]) init.

(** The TypeScript variant after the layout is ready, with "a.md" open and
    active: once with an empty cache, once with (5, 10) cached for it. *)
Definition tsReadyEmpty : Plugin :=
  MainTs.steps
    [LayoutReady; FileOpen (Some "a.md") (Some (View (Some "a.md") (Pos 0 0)))]
    (MainTs.loadSettings None init).

Definition tsReadyCached : Plugin :=
  MainTs.steps
    [LayoutReady; FileOpen (Some "a.md") (Some (View (Some "a.md") (Pos 0 0)))]
    (MainTs.loadSettings (Some [Info "a.md" (Pos 5 10)]) init).

(* ================================================================== *)
(** ** Vocabulary of the further statements *)

Definition isFileOpen (e : Event) : bool :=
  match e with FileOpen _ _ => true | _ => false end.

Definition isSelectionSet (e : Event) : bool :=
  match e with SelectionSet _ => true | _ => false end.

(** The trace without its move notifications. *)
Definition withoutNotifications (es : list Event) : list Event :=
  filter (fun e => negb (isSelectionSet e)) es.

(** The argument of the latest [saveData] call in a record of effects. *)
Fixpoint lastWritten (es : list Effect) : option (list CursorInfo) :=
  match es with
  | [] => None
  | SaveData fc :: _ => Some fc
  | _ :: es' => lastWritten es'
  end.

(** What the plugin knows about the storage: its snapshot, the latest
    write and the number of writes. *)
Definition written (p : Plugin) : list CursorInfo * option (list CursorInfo) * nat :=
  (settings p, lastWritten (effects p), countSaveData (effects p)).

(** The entries of persisted data as the cache takes them. *)
Definition asEntries (fc : list CursorInfo) : list (string * EditorPosition) :=
  map (fun ci => (file ci, cursor ci)) fc.

(** A step either leaves the snapshot and the record of writes alone, or
    writes and takes what it wrote as the snapshot. *)
Definition quietOrWrote (p p' : Plugin) : Prop :=
  written p' = written p \/
  exists fc, written p' = (fc, Some fc, S (countSaveData (effects p))).

(** The states in which no change of the cache can go unsaved: the cache is
    well formed, a debouncer that is held has its timer running, and when
    none is held the snapshot has the records of the cache. *)
Definition nothingLost (p : Plugin) : Prop :=
  QuickLRU.wf (lru p) /\
  (forall d, debounceSaveFn p = Some d -> Debouncer.pending d = true) /\
  (debounceSaveFn p = None -> Permutation (settings p) (serialize p)).

(* ================================================================== *)
(** ** The JavaScript variant [src/main.js] ([restoreCursorPosition],
    [initialZeroZeroReceived]) *)

Module SrcMainJs.

(** The fields of [CursorTrackerPlugin] in [src/main.js]: those of
    [Plugin], where the boolean of [activeFile] is here named
    [initialZeroZeroReceived]; [initialFileRestoreFn]; and of the host, the
    timers not held in a field whose callback is [restoreCursorPosition()]
    (the times they are due, in the order they were started) and the number
    of calls of [view.editor.focus()]. *)
Record State : Type := mkState {
  plugin : Plugin;
  initialFileRestoreFn : option Debouncer.t;   (* a debouncer or null *)
  timers : list N;
  focusCalls : nat
}.

(** The field initialisers of the class. *)
Definition init : State := mkState init None [] 0.

Definition onPlugin (f : Plugin -> Plugin) (s : State) : State :=
  mkState (f (plugin s)) (initialFileRestoreFn s) (timers s) (focusCalls s).
Definition set_initialFileRestoreFn (x : option Debouncer.t) (s : State) : State :=
  mkState (plugin s) x (timers s) (focusCalls s).
Definition set_timers (x : list N) (s : State) : State :=
  mkState (plugin s) (initialFileRestoreFn s) x (focusCalls s).
Definition focus (s : State) : State :=
  mkState (plugin s) (initialFileRestoreFn s) (timers s) (S (focusCalls s)).

Definition initialZeroZeroReceived (s : State) : bool :=
  initialCursorHasBeenSet (activeFile (plugin s)).
Definition set_initialZeroZeroReceived (b : bool) (s : State) : State :=
  onPlugin (fun p => set_activeFile (Active (path (activeFile p)) b) p) s.

(** Modelled from the spec: the debouncer of the host API (see
    [Debouncer]) once its timer has fired: no timer is pending, and a later
    call starts a new window. *)
Definition fired (d : Debouncer.t) : Debouncer.t :=
  Debouncer.mk (Debouncer.timeout d) (Debouncer.resetTimer d) None.

(** An assignment to [initialFileRestoreFn].  The debouncer that the field
    held is a closure of the host: a timer it has running stays with the
    host and still runs [restoreCursorPosition()] when due. *)
Definition assign_initialFileRestoreFn (x : option Debouncer.t) (s : State) : State :=
  let s :=
    match initialFileRestoreFn s with
    | Some d =>
        match Debouncer.fireAt d with
        | Some f => set_timers (timers s ++ [f]) s
        | None => s
        end
    | None => s
    end in
  set_initialFileRestoreFn x s.

(** The call [this.initialFileRestoreFn()]. *)
Definition call_initialFileRestoreFn (s : State) : State :=
  match initialFileRestoreFn s with
  | Some d =>
      set_initialFileRestoreFn (Some (Debouncer.call (clock (plugin s)) d)) s
  | None => s
  end.

(** [loadSettings], [saveSettings], [save], [renameFile] and [deleteFile]
    have the text they have in [part_000]. *)
Definition loadSettings (data : option (list CursorInfo)) (s : State) : State :=
  onPlugin (Part000.loadSettings data) s.
Definition saveSettings : Plugin -> Plugin := Part000.saveSettings.
Definition renameFile (newPath oldPath : string) (s : State) : State :=
  onPlugin (renameFile saveSettings newPath oldPath) s.
Definition deleteFile (path : string) (s : State) : State :=
  onPlugin (deleteFile saveSettings path) s.

(** [onExternalSettingsChange()] *)
Definition onExternalSettingsChange (data : option (list CursorInfo)) (s : State) : State :=
  loadSettings data s.

(** The 'file-open' callback registered in [onload].  [hasFocus] is
    [view.editor.hasFocus()] of the active view, [None] when there is no
    view or no editor. *)
Definition fileOpen (file : option string) (isMobile : bool) (hasFocus : option bool)
    (s : State) : State :=
  let s := onPlugin
             (set_activeFile (Active (match file with Some f => f | None => "" end) false))
             s in
  let s := if isMobile
           then match hasFocus with
                | Some false => focus s
                | _ => s
                end
           else s in
  let s := assign_initialFileRestoreFn (Some (Debouncer.debounce 100%N true)) s in
  call_initialFileRestoreFn s.

(** The [onLayoutReady] callback. *)
Definition onLayoutReady (view : option MarkdownView) (s : State) : State :=
  let s := onPlugin (set_layoutReady true) s in
  if negb (String.eqb (path (activeFile (plugin s))) "") then s
  else
    match view with
    | None => s
    | Some v =>
      match view_file v with
      | None => s
      | Some f => onPlugin (set_activeFile (Active f true)) s
      end
    end.

Definition restoreCursorPosition (view : option MarkdownView) (s : State) : State :=
  match view with
  | None => s
  | Some v =>
    match view_file v with
    | None => s
    | Some currentActiveFile =>
      let p := plugin s in
      let p :=
        if truthy currentActiveFile && QuickLRU.has currentActiveFile (lru p) then
          let (got, c) := QuickLRU.get currentActiveFile (lru p) in
          let desiredCursorPosition :=
            match got with Some d => d | None => Pos 0 0 end in
          let p := set_lru c p in
          let currentCursorPosition := view_cursor v in
          (* desired && (!current || (current.ch === 0 && current.line === 0)):
             both objects are truthy *)
          if atOrigin currentCursorPosition
          then emit (ScrollIntoView desiredCursorPosition)
                 (emit (SetCursor desiredCursorPosition) p)
          else saveSettings
                 (set_lru (QuickLRU.set currentActiveFile currentCursorPosition (lru p)) p)
        else p in
      assign_initialFileRestoreFn None (onPlugin (fun _ => p) s)
    end
  end.

Definition updateCursorPosition (view : option MarkdownView) (s : State) : State :=
  if negb (layoutReady (plugin s)) then set_initialZeroZeroReceived true s else
  match view with
  | None => s
  | Some activeLeaf =>
    match view_file activeLeaf with
    | None => s
    | Some f =>
      if negb (String.eqb f (path (activeFile (plugin s)))) then s
      else
        match initialFileRestoreFn s with
        | Some _ => call_initialFileRestoreFn (set_initialZeroZeroReceived true s)
        | None =>
          let (oldCursorPosition, c) :=
            if QuickLRU.has f (lru (plugin s))
            then QuickLRU.get f (lru (plugin s))
            else (None, lru (plugin s)) in
          let s := onPlugin (set_lru c) s in
          let currentCursorPosition := view_cursor activeLeaf in
          if negb (initialZeroZeroReceived s) && atOrigin currentCursorPosition
          then (* setTimeout(() => this.restoreCursorPosition(), 200) *)
               set_timers (timers s ++ [(clock (plugin s) + 200)%N]) s
          else
            let s := set_initialZeroZeroReceived true s in
            if match oldCursorPosition with
               | None => true
               | Some old => differentPosition currentCursorPosition old
               end
            then onPlugin
                   (fun p => saveSettings (set_lru (QuickLRU.set f currentCursorPosition (lru p)) p))
                   s
            else s
        end
    end
  end.

(** The timer of the debouncer held in [initialFileRestoreFn] fires, when
    it is due: its callback runs [restoreCursorPosition()]. *)
Definition restoreTimer (view : option MarkdownView) (s : State) : State :=
  match initialFileRestoreFn s with
  | Some d =>
      if Debouncer.due (clock (plugin s)) d
      then restoreCursorPosition view (set_initialFileRestoreFn (Some (fired d)) s)
      else s
  | None => s
  end.

(** The list without its [n]-th element. *)
Fixpoint without (n : nat) (l : list N) : list N :=
  match n, l with
  | _, [] => []
  | O, _ :: l' => l'
  | S n', x :: l' => x :: without n' l'
  end.

(** The [n]-th of the host's other timers fires, when it is due. *)
Definition timerFires (n : nat) (view : option MarkdownView) (s : State) : State :=
  match nth_error (timers s) n with
  | Some f =>
      if (f <=? clock (plugin s))%N
      then restoreCursorPosition view (set_timers (without n (timers s)) s)
      else s
  | None => s
  end.

(** The events the host delivers to this variant.  A [view] is what
    [getActiveViewOfType(MarkdownView)] returns while the handler runs. *)
Inductive Event : Type :=
| FileOpen (file : option string) (isMobile : bool) (hasFocus : option bool)
| SelectionSet (view : option MarkdownView)
| Rename (newPath oldPath : string)
| Delete (path : string)
| LayoutReady (view : option MarkdownView)
| Quit                                       (* workspace 'quit', and onunload *)
| Elapse (t : N)                             (* time passes; the save timer fires when due *)
| RestoreTimer (view : option MarkdownView)
| TimerFires (n : nat) (view : option MarkdownView).

Definition step (e : Event) (s : State) : State :=
  match e with
  | FileOpen file isMobile hasFocus => fileOpen file isMobile hasFocus s
  | SelectionSet view => updateCursorPosition view s
  | Rename newPath oldPath => renameFile newPath oldPath s
  | Delete path => deleteFile path s
  | LayoutReady view => onLayoutReady view s
  | Quit => onPlugin save s
  | Elapse t => onPlugin (elapse t) s
  | RestoreTimer view => restoreTimer view s
  | TimerFires n view => timerFires n view s
  end.

Definition steps (es : list Event) (s : State) : State :=
  fold_left (fun acc e => step e acc) es s.

End SrcMainJs.

(* ================================================================== *)
(** * Lemmas *)

(** ** Positions *)

Lemma samePosition_eq (a b : EditorPosition) :
  samePosition a b = true <-> a = b.
Proof.
  destruct a as [la ca], b as [lb cb]; unfold samePosition; cbn.
  rewrite andb_true_iff, !Z.eqb_eq. split.
  - intros [-> ->]; reflexivity.
  - intros [= -> ->]; split; reflexivity.
Qed.

Lemma samePosition_refl (a : EditorPosition) : samePosition a a = true.
Proof. apply samePosition_eq; reflexivity. Qed.

Lemma differentPosition_negb (a b : EditorPosition) :
  differentPosition a b = negb (samePosition a b).
Proof. unfold differentPosition, samePosition. now rewrite negb_andb. Qed.

Lemma differentPosition_neq (a b : EditorPosition) :
  differentPosition a b = true <-> a <> b.
Proof.
  rewrite differentPosition_negb, negb_true_iff, <- samePosition_eq.
  destruct (samePosition a b); split; congruence.
Qed.

Lemma differentPosition_refl (a : EditorPosition) : differentPosition a a = false.
Proof. rewrite differentPosition_negb, samePosition_refl; reflexivity. Qed.

Lemma atOrigin_eq (p : EditorPosition) : atOrigin p = true <-> p = Pos 0 0.
Proof.
  destruct p as [l c]; unfold atOrigin; cbn.
  rewrite andb_true_iff, !Z.eqb_eq. split.
  - intros [-> ->]; reflexivity.
  - intros [= -> ->]; split; reflexivity.
Qed.

Lemma truthy_neq (s : string) : truthy s = true <-> s <> "".
Proof.
  unfold truthy. rewrite negb_true_iff. apply String.eqb_neq.
Qed.

(** ** The recency cache: lookups, removal, well-formedness *)

Section CacheFacts.
Context {V : Type}.
Implicit Types (l : list (string * V)) (c : QuickLRU.t V) (k : string) (v : V).

Lemma lookup_cons k k' v l :
  QuickLRU.lookup k ((k', v) :: l) =
  if String.eqb k' k then Some v else QuickLRU.lookup k l.
Proof. unfold QuickLRU.lookup; cbn. destruct (String.eqb k' k); reflexivity. Qed.

Lemma remove_cons k k' v l :
  QuickLRU.remove k ((k', v) :: l) =
  if String.eqb k' k then QuickLRU.remove k l else (k', v) :: QuickLRU.remove k l.
Proof. unfold QuickLRU.remove; cbn. destruct (String.eqb k' k); reflexivity. Qed.

Lemma lookup_app k l1 l2 :
  QuickLRU.lookup k (l1 ++ l2) =
  match QuickLRU.lookup k l1 with
  | Some v => Some v
  | None => QuickLRU.lookup k l2
  end.
Proof.
  induction l1 as [|[k' v'] l1 IH]; [reflexivity|].
  cbn [app]. rewrite !lookup_cons. destruct (String.eqb k' k); auto.
Qed.

Lemma lookup_None k l :
  QuickLRU.lookup k l = None <-> ~ In k (map fst l).
Proof.
  induction l as [|[k' v'] l IH]; cbn [map fst In].
  - split; auto.
  - rewrite lookup_cons. destruct (String.eqb_spec k' k) as [->|Hne].
    + split; [discriminate | intros H; exfalso; apply H; now left].
    + rewrite IH. split; [intros H [E|HI]; auto | intros H HI; apply H; now right].
Qed.

Lemma lookup_Some_In k v l : QuickLRU.lookup k l = Some v -> In (k, v) l.
Proof.
  induction l as [|[k' v'] l IH]; [discriminate|].
  rewrite lookup_cons. destruct (String.eqb_spec k' k) as [->|Hne].
  - intros [= ->]; now left.
  - intros H; right; auto.
Qed.

Lemma lookup_In k v l :
  NoDup (map fst l) -> In (k, v) l -> QuickLRU.lookup k l = Some v.
Proof.
  induction l as [|[k' v'] l IH]; cbn [map fst]; [intros _ []|].
  intros Hnd [E|HI]; inversion Hnd as [|? ? Hnotin Hnd']; subst.
  - injection E as -> ->. rewrite lookup_cons, String.eqb_refl; reflexivity.
  - rewrite lookup_cons. destruct (String.eqb_spec k' k) as [->|Hne]; auto.
    exfalso; apply Hnotin. change k with (fst (k, v)). now apply in_map.
Qed.

Lemma remove_keys k k' l :
  In k' (map fst (QuickLRU.remove k l)) <-> In k' (map fst l) /\ k' <> k.
Proof.
  induction l as [|[k0 v0] l IH]; cbn [map fst In QuickLRU.remove filter].
  - tauto.
  - fold (QuickLRU.remove k l).
    destruct (String.eqb_spec k0 k) as [->|Hne]; cbn [negb map fst In].
    + rewrite IH. split; [tauto | intros [[E|HI] Hk]; [congruence | tauto]].
    + rewrite IH. split.
      * intros [E|[HI Hk]]; [subst; tauto | tauto].
      * tauto.
Qed.

Lemma lookup_remove_same k l : QuickLRU.lookup k (QuickLRU.remove k l) = None.
Proof. apply lookup_None. rewrite remove_keys. tauto. Qed.

Lemma lookup_remove_other k k' l :
  k <> k' -> QuickLRU.lookup k (QuickLRU.remove k' l) = QuickLRU.lookup k l.
Proof.
  intros Hne. induction l as [|[k0 v0] l IH]; [reflexivity|].
  rewrite remove_cons, lookup_cons.
  destruct (String.eqb_spec k0 k') as [->|H0].
  - destruct (String.eqb_spec k' k); [congruence | exact IH].
  - rewrite lookup_cons, IH; reflexivity.
Qed.

Lemma remove_notin k l : ~ In k (map fst l) -> QuickLRU.remove k l = l.
Proof.
  induction l as [|[k0 v0] l IH]; [reflexivity|]. cbn [map fst In].
  intros H. rewrite remove_cons.
  destruct (String.eqb_spec k0 k) as [->|Hne]; [tauto|].
  f_equal. apply IH. tauto.
Qed.

Lemma remove_app k l1 l2 :
  QuickLRU.remove k (l1 ++ l2) = QuickLRU.remove k l1 ++ QuickLRU.remove k l2.
Proof. unfold QuickLRU.remove. apply filter_app. Qed.

Lemma length_remove k l : length (QuickLRU.remove k l) <= length l.
Proof. unfold QuickLRU.remove. apply filter_length_le. Qed.

Lemma length_remove_present k l :
  In k (map fst l) -> length (QuickLRU.remove k l) < length l.
Proof.
  induction l as [|[k0 v0] l IH]; cbn [map fst In]; [tauto|].
  intros H. rewrite remove_cons. pose proof (length_remove k l).
  destruct (String.eqb_spec k0 k) as [->|Hne]; cbn [length]; [lia|].
  destruct H as [E|H]; [congruence|]. specialize (IH H). lia.
Qed.

Lemma NoDup_remove_keys k l :
  NoDup (map fst l) -> NoDup (map fst (QuickLRU.remove k l)).
Proof.
  induction l as [|[k0 v0] l IH]; cbn [map fst]; [intros; constructor|].
  intros Hnd; inversion Hnd as [|? ? Hnotin Hnd']; subst.
  rewrite remove_cons. destruct (String.eqb k0 k); auto.
  cbn [map fst]. constructor; auto. rewrite remove_keys. tauto.
Qed.

Lemma NoDup_keys_snoc k v l :
  NoDup (map fst l) -> ~ In k (map fst l) -> NoDup (map fst (l ++ [(k, v)])).
Proof.
  intros Hnd Hnotin. rewrite map_app. cbn [map fst].
  apply NoDup_app; [assumption | repeat constructor; intros [] |].
  intros a Ha [<-|[]]; auto.
Qed.

Lemma NoDup_tl (A : Type) (l : list A) : NoDup l -> NoDup (tl l).
Proof. destruct l; cbn; [auto | intros H; now inversion H]. Qed.

Lemma evict_length n l :
  length l <= S n -> length (QuickLRU.evict n l) <= n.
Proof.
  unfold QuickLRU.evict. destruct (Nat.ltb_spec n (length l)).
  - destruct l; cbn [tl length] in *; lia.
  - lia.
Qed.

Lemma evict_keep n l : length l <= n -> QuickLRU.evict n l = l.
Proof.
  unfold QuickLRU.evict. destruct (Nat.ltb_spec n (length l)); [lia | reflexivity].
Qed.

Lemma evict_NoDup_keys n l :
  NoDup (map fst l) -> NoDup (map fst (QuickLRU.evict n l)).
Proof.
  unfold QuickLRU.evict. destruct (n <? length l); auto.
  destruct l as [|e l]; cbn [tl map]; [auto | intros H; now inversion H].
Qed.

(** The last entry survives an eviction when the capacity is positive. *)
Lemma lookup_evict_snoc n k v l :
  1 <= n -> ~ In k (map fst l) ->
  QuickLRU.lookup k (QuickLRU.evict n (l ++ [(k, v)])) = Some v.
Proof.
  intros Hn Hnotin. unfold QuickLRU.evict.
  assert (Hl : QuickLRU.lookup k (l ++ [(k, v)]) = Some v).
  { rewrite lookup_app. apply lookup_None in Hnotin. rewrite Hnotin.
    rewrite lookup_cons, String.eqb_refl; reflexivity. }
  destruct (Nat.ltb_spec n (length (l ++ [(k, v)]))) as [Hlt|]; [|exact Hl].
  destruct l as [|[k0 v0] l]; cbn [app tl length] in *.
  - lia.
  - rewrite lookup_cons in Hl. cbn [map fst In] in Hnotin.
    destruct (String.eqb_spec k0 k); [tauto | exact Hl].
Qed.

Lemma maxSize_set k v c : QuickLRU.maxSize (QuickLRU.set k v c) = QuickLRU.maxSize c.
Proof. reflexivity. Qed.

Lemma maxSize_get k c : QuickLRU.maxSize (snd (QuickLRU.get k c)) = QuickLRU.maxSize c.
Proof. unfold QuickLRU.get. destruct (QuickLRU.lookup k _); reflexivity. Qed.

Lemma maxSize_delete k c : QuickLRU.maxSize (QuickLRU.delete k c) = QuickLRU.maxSize c.
Proof. reflexivity. Qed.

Lemma wf_new n : QuickLRU.wf (@QuickLRU.new V n).
Proof. split; cbn; [constructor | lia]. Qed.

Lemma wf_set k v c : QuickLRU.wf c -> QuickLRU.wf (QuickLRU.set k v c).
Proof.
  intros [Hnd Hlen]. split; cbn [QuickLRU.set QuickLRU.entries QuickLRU.maxSize].
  - apply evict_NoDup_keys, NoDup_keys_snoc.
    + now apply NoDup_remove_keys.
    + rewrite remove_keys. tauto.
  - apply evict_length. rewrite length_app. cbn [length].
    pose proof (length_remove k (QuickLRU.entries c)). lia.
Qed.

Lemma wf_get k c : QuickLRU.wf c -> QuickLRU.wf (snd (QuickLRU.get k c)).
Proof.
  intros [Hnd Hlen]. unfold QuickLRU.get.
  destruct (QuickLRU.lookup k (QuickLRU.entries c)) as [v|] eqn:E; [|split; assumption].
  split; cbn [snd QuickLRU.entries QuickLRU.maxSize].
  - apply NoDup_keys_snoc; [now apply NoDup_remove_keys | rewrite remove_keys; tauto].
  - rewrite length_app. cbn [length].
    assert (In k (map fst (QuickLRU.entries c))).
    { apply lookup_Some_In in E. change k with (fst (k, v)). now apply in_map. }
    pose proof (length_remove_present k _ H). lia.
Qed.

Lemma wf_delete k c : QuickLRU.wf c -> QuickLRU.wf (QuickLRU.delete k c).
Proof.
  intros [Hnd Hlen]. split; cbn [QuickLRU.delete QuickLRU.entries QuickLRU.maxSize].
  - now apply NoDup_remove_keys.
  - pose proof (length_remove k (QuickLRU.entries c)). lia.
Qed.

Lemma wf_apply_op (o : QuickLRU.op V) c :
  QuickLRU.wf c -> QuickLRU.wf (QuickLRU.apply_op o c).
Proof. destruct o; cbn; auto using wf_set, wf_get, wf_delete. Qed.

Lemma maxSize_apply_op (o : QuickLRU.op V) c :
  QuickLRU.maxSize (QuickLRU.apply_op o c) = QuickLRU.maxSize c.
Proof. destruct o; cbn; auto using maxSize_get. Qed.

Lemma wf_run (ops : list (QuickLRU.op V)) c :
  QuickLRU.wf c ->
  QuickLRU.wf (QuickLRU.run ops c) /\
  QuickLRU.maxSize (QuickLRU.run ops c) = QuickLRU.maxSize c.
Proof.
  revert c. induction ops as [|o ops IH]; intros c Hwf; [cbn; auto|].
  change (QuickLRU.run (o :: ops) c) with (QuickLRU.run ops (QuickLRU.apply_op o c)).
  destruct (IH (QuickLRU.apply_op o c) (wf_apply_op o c Hwf)) as [H1 H2].
  split; [exact H1 | now rewrite H2, maxSize_apply_op].
Qed.

Lemma wf_setAll (kvs : list (string * V)) c :
  QuickLRU.wf c ->
  QuickLRU.wf (QuickLRU.setAll kvs c) /\
  QuickLRU.maxSize (QuickLRU.setAll kvs c) = QuickLRU.maxSize c.
Proof.
  revert c. induction kvs as [|[k v] kvs IH]; intros c Hwf; [cbn; auto|].
  change (QuickLRU.setAll ((k, v) :: kvs) c)
    with (QuickLRU.setAll kvs (QuickLRU.set k v c)).
  destruct (IH (QuickLRU.set k v c) (wf_set k v c Hwf)) as [H1 H2].
  split; [exact H1 | now rewrite H2].
Qed.

Lemma setAll_app (l1 l2 : list (string * V)) c :
  QuickLRU.setAll (l1 ++ l2) c = QuickLRU.setAll l2 (QuickLRU.setAll l1 c).
Proof. unfold QuickLRU.setAll. apply fold_left_app. Qed.

Lemma has_lookup k c :
  QuickLRU.has k c = true <-> exists v, QuickLRU.lookup k (QuickLRU.entries c) = Some v.
Proof.
  unfold QuickLRU.has. destruct (QuickLRU.lookup k _) as [v|].
  - split; eauto.
  - split; [discriminate | intros [v [=]]].
Qed.

Lemma has_false_lookup k c :
  QuickLRU.has k c = false <-> QuickLRU.lookup k (QuickLRU.entries c) = None.
Proof.
  unfold QuickLRU.has. destruct (QuickLRU.lookup k _) as [v|]; split; congruence.
Qed.

Lemma get_fst k c : fst (QuickLRU.get k c) = QuickLRU.lookup k (QuickLRU.entries c).
Proof. unfold QuickLRU.get. destruct (QuickLRU.lookup k _); reflexivity. Qed.

End CacheFacts.

(** ** The recency cache: what a run of insertions leaves *)

Section CacheRuns.
Context {V : Type}.
Implicit Types (l : list (string * V)) (c : QuickLRU.t V) (k : string) (v : V).

Lemma set_entries k v n l :
  QuickLRU.set k v (QuickLRU.mk n l) =
  QuickLRU.mk n (QuickLRU.evict n (QuickLRU.remove k l ++ [(k, v)])).
Proof. reflexivity. Qed.

(** Inserting a key that is not among the latest entries [done] keeps
    them, in order, right before the new entry: only older entries are
    dropped, as long as [done] and the new entry fit the capacity. *)
Lemma set_keeps_recent k v n (pre done : list (string * V)) :
  ~ In k (map fst done) -> length done < n ->
  exists pre',
    QuickLRU.evict n (QuickLRU.remove k (pre ++ done) ++ [(k, v)])
    = pre' ++ (done ++ [(k, v)]).
Proof.
  intros Hk Hlen. rewrite remove_app, (remove_notin k done Hk), <- app_assoc.
  unfold QuickLRU.evict.
  destruct (Nat.ltb_spec n (length (QuickLRU.remove k pre ++ done ++ [(k, v)]))) as [Hlt|Hge].
  - destruct (QuickLRU.remove k pre) as [|x X].
    + cbn [app] in Hlt. rewrite length_app in Hlt. cbn [length] in Hlt. lia.
    + exists X. reflexivity.
  - eexists; reflexivity.
Qed.

Lemma setAll_keeps_recent (rest : list (string * V)) :
  forall n (pre done : list (string * V)),
    QuickLRU.wf (QuickLRU.mk n (pre ++ done)) ->
    NoDup (map fst (done ++ rest)) -> length (done ++ rest) <= n ->
    exists pre',
      QuickLRU.entries (QuickLRU.setAll rest (QuickLRU.mk n (pre ++ done)))
      = pre' ++ done ++ rest.
Proof.
  induction rest as [|[k v] rest IH]; intros n pre done Hwf Hnd Hlen.
  - exists pre. cbn. now rewrite app_nil_r.
  - change (QuickLRU.setAll ((k, v) :: rest) (QuickLRU.mk n (pre ++ done)))
      with (QuickLRU.setAll rest (QuickLRU.set k v (QuickLRU.mk n (pre ++ done)))).
    assert (Hk : ~ In k (map fst done)).
    { rewrite map_app in Hnd. cbn [map fst] in Hnd.
      apply NoDup_remove_2 in Hnd. rewrite in_app_iff in Hnd. tauto. }
    assert (Hd : length done < n).
    { rewrite length_app in Hlen. cbn [length] in Hlen. lia. }
    pose proof (wf_set k v _ Hwf) as Hwf'. rewrite set_entries in Hwf' |- *.
    destruct (set_keeps_recent k v n pre done Hk Hd) as [X HX].
    rewrite HX in Hwf' |- *.
    destruct (IH n X (done ++ [(k, v)]) Hwf') as [pre' Hpre'].
    + now rewrite <- app_assoc.
    + now rewrite <- app_assoc.
    + exists pre'. rewrite Hpre', <- !app_assoc. reflexivity.
Qed.

(** As many distinct insertions as the capacity leave exactly the
    inserted entries, oldest first. *)
Lemma setAll_fill (kvs : list (string * V)) c :
  QuickLRU.wf c -> NoDup (map fst kvs) -> length kvs = QuickLRU.maxSize c ->
  QuickLRU.entries (QuickLRU.setAll kvs c) = kvs.
Proof.
  intros Hwf Hnd Hlen. destruct c as [n l]. cbn [QuickLRU.maxSize] in Hlen.
  assert (Hwf0 : QuickLRU.wf (QuickLRU.mk n (l ++ []))) by now rewrite app_nil_r.
  destruct (setAll_keeps_recent kvs n l [] Hwf0) as [pre' Hpre']; cbn [app]; [auto | lia |].
  rewrite app_nil_r in Hpre'. cbn [app] in Hpre'.
  destruct (wf_setAll kvs _ Hwf) as [[_ Hle] Hmax].
  rewrite Hmax, Hpre', length_app in Hle. cbn [QuickLRU.maxSize] in Hle.
  destruct pre'; cbn [length app] in *; [exact Hpre' | lia].
Qed.

Lemma setAll_cons k v (kvs : list (string * V)) c :
  QuickLRU.setAll ((k, v) :: kvs) c = QuickLRU.setAll kvs (QuickLRU.set k v c).
Proof. reflexivity. Qed.

Lemma distinctb_sound (ks : list string) : QuickLRU.distinctb ks = true -> NoDup ks.
Proof.
  induction ks as [|k ks IH]; cbn; [constructor|].
  rewrite andb_true_iff, negb_true_iff. intros [Hk Hks].
  constructor; auto. intros HI.
  assert (existsb (String.eqb k) ks = true); [|congruence].
  apply existsb_exists. exists k. split; [exact HI | apply String.eqb_refl].
Qed.

End CacheRuns.

Section CacheOverflow.
Context {V : Type}.
Implicit Types (l : list (string * V)) (c : QuickLRU.t V) (k : string) (v : V).

(** One insertion more than the capacity: the first of the run is gone
    and the others are the whole content, oldest first. *)
Lemma setAll_overflow k1 v1 (others : list (string * V)) c :
  QuickLRU.wf c -> 1 <= QuickLRU.maxSize c ->
  NoDup (k1 :: map fst others) -> length others = QuickLRU.maxSize c ->
  QuickLRU.entries (QuickLRU.setAll ((k1, v1) :: others) c) = others.
Proof.
  intros Hwf Hpos Hnd Hlen.
  destruct (exists_last (l := others)) as [init [[kx vx] ->]].
  { intros ->. cbn in Hlen. lia. }
  rewrite length_app in Hlen. cbn [length] in Hlen.
  rewrite app_comm_cons, setAll_app.
  assert (Hnd' : NoDup (map fst ((k1, v1) :: init) ++ [kx])).
  { cbn [map fst app]. rewrite map_app in Hnd. exact Hnd. }
  assert (Hfill : QuickLRU.entries (QuickLRU.setAll ((k1, v1) :: init) c)
                  = (k1, v1) :: init).
  { apply setAll_fill; [exact Hwf | | cbn [length]; lia].
    apply NoDup_app_remove_r in Hnd'. exact Hnd'. }
  destruct (wf_setAll ((k1, v1) :: init) c Hwf) as [_ Hmax].
  destruct (QuickLRU.setAll ((k1, v1) :: init) c) as [n l].
  cbn [QuickLRU.entries QuickLRU.maxSize] in Hfill, Hmax. subst l n.
  cbn [QuickLRU.setAll fold_left fst snd]. rewrite set_entries.
  cbn [QuickLRU.entries].
  rewrite remove_notin.
  - unfold QuickLRU.evict.
    destruct (Nat.ltb_spec (QuickLRU.maxSize c)
                           (length (((k1, v1) :: init) ++ [(kx, vx)]))) as [_|Hge].
    + reflexivity.
    + rewrite length_app in Hge. cbn [length] in Hge. lia.
  - intros HI. apply NoDup_remove_2 with (l' := []) in Hnd'.
    rewrite app_nil_r in Hnd'. exact (Hnd' HI).
Qed.

End CacheOverflow.

(** C1. The cache never holds more than 50 entries, whatever the sequence
    of [set] calls; and after 51 insertions with pairwise distinct keys
    (no [get] in between), whatever the cache held before, the key inserted
    first is absent and each of the other 50 is present and [get] returns
    its value. *)
Theorem cache_capacity_invariant
    (V : Type) (ops history : list (string * V))
    (k1 : string) (v1 : V) (others : list (string * V)) :
  length others = 50 ->
  NoDup (k1 :: map fst others) ->
  QuickLRU.size (QuickLRU.setAll ops (QuickLRU.new 50)) <= 50 /\
  let c := QuickLRU.setAll ((k1, v1) :: others)
             (QuickLRU.setAll history (QuickLRU.new 50)) in
  QuickLRU.has k1 c = false /\
  QuickLRU.size c = 50 /\
  forall k v, In (k, v) others ->
    QuickLRU.has k c = true /\ fst (QuickLRU.get k c) = Some v.
Proof.
  intros Hlen Hnd. split.
  - destruct (wf_setAll ops (QuickLRU.new 50) (wf_new 50)) as [[_ Hle] Hmax].
    unfold QuickLRU.size. rewrite Hmax in Hle. exact Hle.
  - destruct (wf_setAll history (@QuickLRU.new V 50) (wf_new 50)) as [Hwf Hmax].
    cbn [QuickLRU.new QuickLRU.maxSize] in Hmax.
    assert (He : QuickLRU.entries
                   (QuickLRU.setAll ((k1, v1) :: others)
                      (QuickLRU.setAll history (QuickLRU.new 50))) = others).
    { apply setAll_overflow; rewrite ?Hmax; auto; lia. }
    cbv zeta. unfold QuickLRU.size. rewrite He.
    inversion Hnd as [|? ? Hk1 Hnd']; subst.
    split; [|split; [exact Hlen|]].
    + apply has_false_lookup. rewrite He. now apply lookup_None.
    + intros k v HI.
      assert (Hl : QuickLRU.lookup k others = Some v) by now apply lookup_In.
      split.
      * apply has_lookup. rewrite He. eauto.
      * rewrite get_fst, He. exact Hl.
Qed.

Lemma cache_capacity_invariant_witness :
  QuickLRU.size (QuickLRU.setAll (sampleEntries 0 60) (QuickLRU.new 50)) <= 50 /\
  let c := QuickLRU.setAll ((sampleKey 0, Pos 0 0) :: sampleEntries 1 50)
             (QuickLRU.setAll (sampleEntries 30 5) (QuickLRU.new 50)) in
  QuickLRU.has (sampleKey 0) c = false /\
  QuickLRU.size c = 50 /\
  forall k v, In (k, v) (sampleEntries 1 50) ->
    QuickLRU.has k c = true /\ fst (QuickLRU.get k c) = Some v.
Proof.
  apply (cache_capacity_invariant EditorPosition (sampleEntries 0 60)
           (sampleEntries 30 5) (sampleKey 0) (Pos 0 0) (sampleEntries 1 50)).
  - reflexivity.
  - apply distinctb_sound. vm_compute. reflexivity.
Defined.

(** C7. With A, B, C inserted in that order and 47 further distinct keys
    after them (the capacity is full), [get A] promotes A: inserting a 51st
    distinct key then drops B, the oldest entry, and A stays, with its
    value. *)
Theorem get_promotes_before_eviction
    (V : Type) (history : list (string * V))
    (a b c : string) (va vb vc : V) (more : list (string * V))
    (k51 : string) (v51 : V) :
  length more = 47 ->
  NoDup (a :: b :: c :: map fst more ++ [k51]) ->
  let full := QuickLRU.setAll ((a, va) :: (b, vb) :: (c, vc) :: more)
                (QuickLRU.setAll history (QuickLRU.new 50)) in
  let after := QuickLRU.set k51 v51 (snd (QuickLRU.get a full)) in
  QuickLRU.size full = 50 /\
  fst (QuickLRU.get a full) = Some va /\
  QuickLRU.has b after = false /\
  QuickLRU.has a after = true /\
  fst (QuickLRU.get a after) = Some va /\
  QuickLRU.entriesAscending after = (c, vc) :: more ++ [(a, va); (k51, v51)].
Proof.
  intros Hlen Hnd.
  destruct (wf_setAll history (@QuickLRU.new V 50) (wf_new 50)) as [Hwf Hmax].
  cbn [QuickLRU.new QuickLRU.maxSize] in Hmax.
  set (kvs := (a, va) :: (b, vb) :: (c, vc) :: more).
  assert (Hkeys : NoDup (map fst kvs ++ [k51])).
  { unfold kvs. cbn [map fst app]. exact Hnd. }
  assert (Hfill : QuickLRU.entries
                    (QuickLRU.setAll kvs (QuickLRU.setAll history (QuickLRU.new 50)))
                  = kvs).
  { apply setAll_fill; [exact Hwf | | rewrite Hmax; unfold kvs; cbn [length]; lia].
    now apply NoDup_app_remove_r in Hkeys. }
  destruct (wf_setAll kvs _ Hwf) as [_ Hmax'].
  cbv zeta.
  destruct (QuickLRU.setAll kvs (QuickLRU.setAll history (QuickLRU.new 50))) as [n l].
  cbn [QuickLRU.entries QuickLRU.maxSize] in Hfill, Hmax'. subst l. rewrite Hmax in Hmax'. subst n.
  inversion Hnd as [|? ? Ha Hnd1]; subst.
  inversion Hnd1 as [|? ? Hb Hnd2]; subst.
  assert (Hk : ~ In k51 (c :: map fst more)).
  { apply NoDup_remove_2 with (l := c :: map fst more) (l' := []) in Hnd2.
    now rewrite app_nil_r in Hnd2. }
  cbn [In] in Ha, Hb, Hk. rewrite in_app_iff in Ha, Hb. cbn [In] in Ha, Hb.
  assert (Hget : QuickLRU.get a (QuickLRU.mk 50 kvs)
                 = (Some va, QuickLRU.mk 50 (((b, vb) :: (c, vc) :: more) ++ [(a, va)]))).
  { unfold QuickLRU.get, kvs. cbn [QuickLRU.entries QuickLRU.maxSize].
    rewrite lookup_cons, String.eqb_refl, remove_cons, String.eqb_refl.
    rewrite remove_notin; [reflexivity|].
    cbn [map fst In]. intuition congruence. }
  assert (Hafter : QuickLRU.entries
                     (QuickLRU.set k51 v51 (snd (QuickLRU.get a (QuickLRU.mk 50 kvs))))
                   = (c, vc) :: more ++ [(a, va); (k51, v51)]).
  { rewrite Hget. cbn [snd]. rewrite set_entries. cbn [QuickLRU.entries].
    rewrite remove_notin.
    - unfold QuickLRU.evict. rewrite !length_app. cbn [length]. rewrite Hlen.
      cbn [Nat.add Nat.ltb Nat.leb tl app]. rewrite <- app_assoc. reflexivity.
    - rewrite map_app. cbn [map fst]. rewrite in_app_iff. cbn [In].
      intuition congruence. }
  assert (Hwf2 : NoDup (map fst ((c, vc) :: more ++ [(a, va); (k51, v51)]))).
  { rewrite <- Hafter. apply wf_set, wf_get.
    split; [|unfold kvs; cbn [QuickLRU.entries QuickLRU.maxSize length]; lia].
    cbn [QuickLRU.entries]. now apply NoDup_app_remove_r in Hkeys. }
  unfold QuickLRU.entriesAscending, QuickLRU.size.
  cbn [QuickLRU.entries]. rewrite Hafter.
  split; [unfold kvs; cbn [length]; lia|].
  split; [rewrite Hget; reflexivity|].
  assert (Hla : QuickLRU.lookup a ((c, vc) :: more ++ [(a, va); (k51, v51)]) = Some va).
  { apply lookup_In; [exact Hwf2|]. right. apply in_or_app. right. now left. }
  split; [|split; [|split; [|reflexivity]]].
  - apply has_false_lookup. rewrite Hafter. apply lookup_None.
    cbn [map fst]. rewrite map_app. cbn [map fst In]. rewrite in_app_iff. cbn [In].
    intuition congruence.
  - apply has_lookup. rewrite Hafter. eauto.
  - rewrite get_fst, Hafter. exact Hla.
Qed.

Lemma get_promotes_before_eviction_witness :
  let full := QuickLRU.setAll
                ((sampleKey 0, Pos 0 0) :: (sampleKey 1, Pos 1 0) :: (sampleKey 2, Pos 2 0)
                 :: sampleEntries 3 47)
                (QuickLRU.setAll (sampleEntries 20 4) (QuickLRU.new 50)) in
  let after := QuickLRU.set (sampleKey 50) (Pos 50 0) (snd (QuickLRU.get (sampleKey 0) full)) in
  QuickLRU.size full = 50 /\
  fst (QuickLRU.get (sampleKey 0) full) = Some (Pos 0 0) /\
  QuickLRU.has (sampleKey 1) after = false /\
  QuickLRU.has (sampleKey 0) after = true /\
  fst (QuickLRU.get (sampleKey 0) after) = Some (Pos 0 0) /\
  QuickLRU.entriesAscending after
  = (sampleKey 2, Pos 2 0) :: sampleEntries 3 47 ++ [(sampleKey 0, Pos 0 0); (sampleKey 50, Pos 50 0)].
Proof.
  apply (get_promotes_before_eviction EditorPosition (sampleEntries 20 4)
           (sampleKey 0) (sampleKey 1) (sampleKey 2) (Pos 0 0) (Pos 1 0) (Pos 2 0)
           (sampleEntries 3 47) (sampleKey 50) (Pos 50 0)).
  - reflexivity.
  - apply distinctb_sound. vm_compute. reflexivity.
Defined.

(** ** More on single cache operations *)

Section CacheSingle.
Context {V : Type}.
Implicit Types (l : list (string * V)) (c : QuickLRU.t V) (k : string) (v : V).

Lemma lookup_set_same k v c :
  1 <= QuickLRU.maxSize c ->
  QuickLRU.lookup k (QuickLRU.entries (QuickLRU.set k v c)) = Some v.
Proof.
  intros Hn. cbn [QuickLRU.set QuickLRU.entries].
  apply lookup_evict_snoc; [exact Hn | rewrite remove_keys; tauto].
Qed.

Lemma entries_get_present k v c :
  QuickLRU.lookup k (QuickLRU.entries c) = Some v ->
  QuickLRU.get k c
  = (Some v, QuickLRU.mk (QuickLRU.maxSize c) (QuickLRU.remove k (QuickLRU.entries c) ++ [(k, v)])).
Proof. intros H. unfold QuickLRU.get. now rewrite H. Qed.

Lemma entries_get_absent k c :
  QuickLRU.lookup k (QuickLRU.entries c) = None -> QuickLRU.get k c = (None, c).
Proof. intros H. unfold QuickLRU.get. now rewrite H. Qed.

Lemma lookup_snoc_same k v l :
  QuickLRU.lookup k (QuickLRU.remove k l ++ [(k, v)]) = Some v.
Proof.
  rewrite lookup_app, lookup_remove_same, lookup_cons, String.eqb_refl. reflexivity.
Qed.

Lemma lookup_get_same k v c :
  QuickLRU.lookup k (QuickLRU.entries c) = Some v ->
  QuickLRU.lookup k (QuickLRU.entries (snd (QuickLRU.get k c))) = Some v.
Proof.
  intros H. rewrite (entries_get_present k v c H). cbn [snd QuickLRU.entries].
  apply lookup_snoc_same.
Qed.

Lemma lookup_delete_same k c :
  QuickLRU.lookup k (QuickLRU.entries (QuickLRU.delete k c)) = None.
Proof. cbn [QuickLRU.delete QuickLRU.entries]. apply lookup_remove_same. Qed.

(** A [set] of another key never brings a removed key back. *)
Lemma lookup_set_absent k k' v c :
  k <> k' -> QuickLRU.lookup k (QuickLRU.entries c) = None ->
  QuickLRU.lookup k (QuickLRU.entries (QuickLRU.set k' v c)) = None.
Proof.
  intros Hne Habs. cbn [QuickLRU.set QuickLRU.entries].
  assert (H : QuickLRU.lookup k (QuickLRU.remove k' (QuickLRU.entries c) ++ [(k', v)]) = None).
  { rewrite lookup_app, lookup_remove_other, Habs, lookup_cons by exact Hne.
    destruct (String.eqb_spec k' k); [congruence | reflexivity]. }
  unfold QuickLRU.evict. destruct (_ <? _); [|exact H].
  destruct (QuickLRU.remove k' (QuickLRU.entries c) ++ [(k', v)]) as [|[k0 v0] l0]; [exact H|].
  cbn [tl]. rewrite lookup_cons in H. destruct (String.eqb k0 k); [discriminate | exact H].
Qed.

End CacheSingle.

(** ** The shared parts of the plugin *)

Lemma differs_false_iff (old new : list CursorInfo) :
  length old = length new -> (differs old new = false <-> old = new).
Proof.
  revert new. induction old as [|[fo [lo co]] old IH]; intros [|[fn [ln cn]] new] Hlen;
    cbn [length] in Hlen; try discriminate.
  - split; reflexivity.
  - cbn [differs file cursor line ch].
    destruct (String.eqb_spec fo fn) as [->|Hf]; cbn [negb orb].
    + destruct (Z.eqb_spec co cn) as [->|Hc]; cbn [negb orb].
      * destruct (Z.eqb_spec lo ln) as [->|Hl]; cbn [negb].
        -- rewrite IH by lia. split; [intros ->; reflexivity | intros [= ->]; reflexivity].
        -- split; [discriminate | intros [= E]; congruence].
      * split; [discriminate | intros [= E]; congruence].
    + split; [discriminate | intros [= E]; congruence].
Qed.

(** [save] writes exactly when the serialization is not the snapshot. *)
Lemma save_unchanged (p : Plugin) : settings p = serialize p -> save p = p.
Proof.
  intros H. unfold save. rewrite <- H, Nat.eqb_refl.
  assert (Hd : differs (settings p) (settings p) = false)
    by now apply differs_false_iff.
  now rewrite Hd.
Qed.

Lemma save_changed (p : Plugin) :
  settings p <> serialize p ->
  save p = emit (SaveData (serialize p)) (set_settings (serialize p) p).
Proof.
  intros H. unfold save.
  destruct (Nat.eqb_spec (length (settings p)) (length (serialize p))) as [Hlen|Hlen];
    [|reflexivity].
  destruct (differs (settings p) (serialize p)) eqn:Hd; [reflexivity|].
  apply differs_false_iff in Hd; [contradiction | exact Hlen].
Qed.

Lemma save_cases (p : Plugin) :
  (settings p = serialize p /\ save p = p) \/
  (settings p <> serialize p /\
   save p = emit (SaveData (serialize p)) (set_settings (serialize p) p)).
Proof.
  destruct (CursorInfo_list_eq_dec (settings p) (serialize p)) as [E|N].
  - left. split; [exact E | now apply save_unchanged].
  - right. split; [exact N | now apply save_changed].
Qed.

Lemma save_settled (p : Plugin) : settings (save p) = serialize (save p).
Proof.
  destruct (save_cases p) as [[E ->]|[N ->]]; [exact E | reflexivity].
Qed.

Lemma save_lru (p : Plugin) : lru (save p) = lru p.
Proof. destruct (save_cases p) as [[_ ->]|[_ ->]]; reflexivity. Qed.

Lemma snapshotDiffers_iff (old new : list CursorInfo) :
  snapshotDiffers old new <-> old <> new.
Proof.
  split.
  - intros [Hlen|(i & o & n & Ho & Hn & Hd)] E; subst new.
    + now apply Hlen.
    + rewrite Ho in Hn. injection Hn as ->. tauto.
  - revert new. induction old as [|o old IH]; intros [|n new] Hne.
    + congruence.
    + left. discriminate.
    + left. discriminate.
    + destruct o as [fo [lo co]], n as [fn [ln cn]].
      destruct (string_dec fo fn) as [->|Hf];
        [|right; exists 0, (Info fo (Pos lo co)), (Info fn (Pos ln cn)); cbn; auto].
      destruct (Z.eq_dec lo ln) as [->|Hl];
        [|right; exists 0, (Info fn (Pos lo co)), (Info fn (Pos ln cn)); cbn; auto].
      destruct (Z.eq_dec co cn) as [->|Hc];
        [|right; exists 0, (Info fn (Pos ln co)), (Info fn (Pos ln cn)); cbn; auto].
      destruct (IH new) as [Hlen|(i & o & n & Ho & Hn & Hd)]; [congruence | |].
      * left. cbn [length]. congruence.
      * right. exists (S i), o, n. cbn [nth_error]. auto.
Qed.

Lemma countSaveData_emit_SaveData (fc : list CursorInfo) (p : Plugin) :
  countSaveData (effects (emit (SaveData fc) p)) = S (countSaveData (effects p)).
Proof. reflexivity. Qed.

(** ** The variants' [saveSettings] *)

Lemma MainTs_saveSettings_frame (p : Plugin) :
  effects (MainTs.saveSettings p) = SaveSettings :: effects p /\
  lru (MainTs.saveSettings p) = lru p /\
  settings (MainTs.saveSettings p) = settings p /\
  layoutReady (MainTs.saveSettings p) = layoutReady p /\
  activeFile (MainTs.saveSettings p) = activeFile p /\
  clock (MainTs.saveSettings p) = clock p.
Proof.
  unfold MainTs.saveSettings. cbn. destruct (debounceSaveFn p); cbn; auto 10.
Qed.

Lemma Part000_saveSettings_frame (p : Plugin) :
  effects (Part000.saveSettings p) = SaveSettings :: effects p /\
  lru (Part000.saveSettings p) = lru p /\
  settings (Part000.saveSettings p) = settings p /\
  layoutReady (Part000.saveSettings p) = layoutReady p /\
  activeFile (Part000.saveSettings p) = activeFile p /\
  clock (Part000.saveSettings p) = clock p.
Proof.
  unfold Part000.saveSettings. cbn. destruct (debounceSaveFn p); cbn; auto 10.
Qed.

Lemma call_pending (now : N) (d : Debouncer.t) :
  Debouncer.pending (Debouncer.call now d) = true.
Proof.
  unfold Debouncer.call, Debouncer.pending.
  destruct (Debouncer.fireAt d) eqn:E;
    [destruct (Debouncer.resetTimer d); cbn; now rewrite ?E | reflexivity].
Qed.

(** In the JavaScript variant a timer is pending after every request. *)
Lemma Part000_saveSettings_pending (p : Plugin) :
  exists d, debounceSaveFn (Part000.saveSettings p) = Some d /\ Debouncer.pending d = true.
Proof.
  unfold Part000.saveSettings. cbn. destruct (debounceSaveFn p) as [d|]; cbn.
  - exists (Debouncer.call (clock p) d). split; [reflexivity | apply call_pending].
  - eexists; split; reflexivity.
Qed.

(** ** C6: the save operation *)

(** C6, as stated, fails: two calls of [save] in a row on a plugin whose
    cache already agrees with the last-persisted snapshot (here: right
    after loading) perform no durable write at all, not exactly one. *)
Lemma save_twice_may_write_nothing :
  settings loadedOne = serialize loadedOne /\
  effects (save (save loadedOne)) = effects loadedOne /\
  countSaveData (effects (save (save loadedOne))) <> S (countSaveData (effects loadedOne)).
Proof. vm_compute. repeat split; discriminate. Qed.

(** C6 (amended). [save] serializes the cache oldest first and writes to
    storage exactly when that serialization differs from the last-persisted
    snapshot in length or in some element's key, line or column; a second
    call right after changes nothing and writes nothing, so two calls in a
    row perform at most one durable write, and exactly one precisely when
    the serialization differed before the first call. *)
Theorem save_writes_iff_changed (p : Plugin) :
  (snapshotDiffers (settings p) (serialize p) ->
   save p = emit (SaveData (serialize p)) (set_settings (serialize p) p)) /\
  (~ snapshotDiffers (settings p) (serialize p) -> save p = p) /\
  save (save p) = save p /\
  countSaveData (effects (save (save p))) <= S (countSaveData (effects p)) /\
  (countSaveData (effects (save (save p))) = S (countSaveData (effects p)) <->
   snapshotDiffers (settings p) (serialize p)).
Proof.
  assert (Hidem : save (save p) = save p) by apply save_unchanged, save_settled.
  rewrite Hidem, snapshotDiffers_iff.
  split; [intros H; now apply save_changed|].
  split.
  { intros H. apply save_unchanged.
    destruct (CursorInfo_list_eq_dec (settings p) (serialize p)); tauto. }
  split; [reflexivity|].
  destruct (save_cases p) as [[E ->]|[N ->]].
  - split; [lia|]. split; [lia | intros H; contradiction].
  - rewrite countSaveData_emit_SaveData. cbn [set_settings effects].
    split; [lia|]. split; [intros _; exact N | reflexivity].
Qed.

(** ** C9: notifications before readiness, or for another document *)

(** C9. A move notification that arrives before the layout-ready signal,
    or for a document whose key is not the active document's, leaves the
    plugin as it was: the cache with its recency order, the pending save and
    everything else (both variants). *)
Theorem early_or_stale_move_ignored (p : Plugin) (view : option MarkdownView) :
  layoutReady p = false \/
  (exists k pos, view = Some (View (Some k) pos) /\ k <> path (activeFile p)) ->
  MainTs.updateCursorPosition view p = p /\
  Part000.updateCursorPosition view p = p.
Proof.
  intros [Hearly|(k & pos & -> & Hstale)];
    unfold MainTs.updateCursorPosition, Part000.updateCursorPosition.
  - rewrite Hearly. cbn. auto.
  - destruct (layoutReady p); cbn [negb view_file]; [|auto].
    apply String.eqb_neq in Hstale. rewrite Hstale. cbn. auto.
Qed.

Lemma early_or_stale_move_ignored_witness :
  MainTs.updateCursorPosition (Some (View (Some "x.md") (Pos 9 9))) readyOnY = readyOnY /\
  Part000.updateCursorPosition (Some (View (Some "x.md") (Pos 9 9))) readyOnY = readyOnY.
Proof.
  apply (early_or_stale_move_ignored readyOnY (Some (View (Some "x.md") (Pos 9 9)))).
  right. exists "x.md", (Pos 9 9). split; [reflexivity | vm_compute; discriminate].
Defined.

(** ** C8: rename *)

Lemma renameFile_present (saveSettings : Plugin -> Plugin)
    (p : Plugin) (newPath oldPath : string) (v : EditorPosition) :
  QuickLRU.lookup oldPath (QuickLRU.entries (lru p)) = Some v ->
  renameFile saveSettings newPath oldPath p =
  saveSettings
    (set_lru (QuickLRU.set newPath v
                (QuickLRU.delete oldPath (snd (QuickLRU.get oldPath (lru p))))) p).
Proof.
  intros H. unfold renameFile.
  assert (Hhas : QuickLRU.has oldPath (lru p) = true) by (apply has_lookup; eauto).
  rewrite Hhas, (entries_get_present oldPath v (lru p) H). reflexivity.
Qed.

Lemma renameFile_absent (saveSettings : Plugin -> Plugin)
    (p : Plugin) (newPath oldPath : string) :
  QuickLRU.lookup oldPath (QuickLRU.entries (lru p)) = None ->
  renameFile saveSettings newPath oldPath p = p.
Proof.
  intros H. unfold renameFile. apply has_false_lookup in H. now rewrite H.
Qed.

Lemma renamed_cache (c : QuickLRU.t EditorPosition) (newPath oldPath : string)
    (v : EditorPosition) :
  1 <= QuickLRU.maxSize c ->
  let c' := QuickLRU.set newPath v (QuickLRU.delete oldPath (snd (QuickLRU.get oldPath c))) in
  (oldPath <> newPath -> QuickLRU.has oldPath c' = false) /\
  fst (QuickLRU.get newPath c') = Some v.
Proof.
  intros Hn c'. split.
  - intros Hne. apply has_false_lookup. unfold c'.
    apply lookup_set_absent; [exact Hne | apply lookup_delete_same].
  - rewrite get_fst. unfold c'. apply lookup_set_same.
    now rewrite maxSize_delete, maxSize_get.
Qed.

(** C8. A rename (oldKey, newKey): when the cache holds v for oldKey, then
    afterwards [get newKey] returns v, a save has been requested, and
    [has oldKey] is false (the two keys of a rename differ); when the cache
    holds nothing for oldKey, nothing changes and no save is requested
    (both variants; the cache is the plugin's, of capacity 50). *)
Theorem rename_moves_position (p : Plugin) (newPath oldPath : string) :
  QuickLRU.maxSize (lru p) = 50 ->
  match QuickLRU.lookup oldPath (QuickLRU.entries (lru p)) with
  | Some v =>
      ((oldPath <> newPath ->
        QuickLRU.has oldPath (lru (MainTs.renameFile newPath oldPath p)) = false) /\
       fst (QuickLRU.get newPath (lru (MainTs.renameFile newPath oldPath p))) = Some v /\
       effects (MainTs.renameFile newPath oldPath p) = SaveSettings :: effects p) /\
      ((oldPath <> newPath ->
        QuickLRU.has oldPath (lru (Part000.renameFile newPath oldPath p)) = false) /\
       fst (QuickLRU.get newPath (lru (Part000.renameFile newPath oldPath p))) = Some v /\
       effects (Part000.renameFile newPath oldPath p) = SaveSettings :: effects p)
  | None =>
      MainTs.renameFile newPath oldPath p = p /\
      Part000.renameFile newPath oldPath p = p
  end.
Proof.
  intros Hmax.
  destruct (QuickLRU.lookup oldPath (QuickLRU.entries (lru p))) as [v|] eqn:E.
  - assert (Hn : 1 <= QuickLRU.maxSize (lru p)) by lia.
    destruct (renamed_cache (lru p) newPath oldPath v Hn) as [Hold Hnew].
    unfold MainTs.renameFile, Part000.renameFile.
    rewrite !(renameFile_present _ p newPath oldPath v E).
    destruct (MainTs_saveSettings_frame
                (set_lru (QuickLRU.set newPath v
                   (QuickLRU.delete oldPath (snd (QuickLRU.get oldPath (lru p))))) p))
      as (He1 & Hl1 & _).
    destruct (Part000_saveSettings_frame
                (set_lru (QuickLRU.set newPath v
                   (QuickLRU.delete oldPath (snd (QuickLRU.get oldPath (lru p))))) p))
      as (He2 & Hl2 & _).
    rewrite He1, Hl1, He2, Hl2. cbn [set_lru lru effects]. auto.
  - unfold MainTs.renameFile, Part000.renameFile.
    rewrite !(renameFile_absent _ p newPath oldPath E). auto.
Qed.

Lemma rename_moves_position_witness :
  (("a.md" <> "b.md" ->
    QuickLRU.has "a.md" (lru (MainTs.renameFile "b.md" "a.md" loadedOne)) = false) /\
   fst (QuickLRU.get "b.md" (lru (MainTs.renameFile "b.md" "a.md" loadedOne))) = Some (Pos 2 2) /\
   effects (MainTs.renameFile "b.md" "a.md" loadedOne) = SaveSettings :: effects loadedOne) /\
  (("a.md" <> "b.md" ->
    QuickLRU.has "a.md" (lru (Part000.renameFile "b.md" "a.md" loadedOne)) = false) /\
   fst (QuickLRU.get "b.md" (lru (Part000.renameFile "b.md" "a.md" loadedOne))) = Some (Pos 2 2) /\
   effects (Part000.renameFile "b.md" "a.md" loadedOne) = SaveSettings :: effects loadedOne).
Proof.
  exact (rename_moves_position loadedOne "b.md" "a.md" eq_refl).
Defined.

(** ** C3: a move notification in the settled session *)

(** The JavaScript variant compares the way its log line says: with the
    layout ready, the notification for the active document and the session
    settled, a position that is not the cached one is written to the cache
    and a save is requested (a timer is pending afterwards); the cached
    position itself changes neither the cached value nor the effects nor
    the debouncer. *)
Lemma Part000_move_recorded_iff_changed (p : Plugin) (k : string) (pos : EditorPosition) :
  layoutReady p = true ->
  path (activeFile p) = k ->
  initialCursorHasBeenSet (activeFile p) = true ->
  QuickLRU.maxSize (lru p) = 50 ->
  let p' := Part000.updateCursorPosition (Some (View (Some k) pos)) p in
  QuickLRU.lookup k (QuickLRU.entries (lru p')) = Some pos /\
  (QuickLRU.lookup k (QuickLRU.entries (lru p)) <> Some pos ->
   effects p' = SaveSettings :: effects p /\
   exists d, debounceSaveFn p' = Some d /\ Debouncer.pending d = true) /\
  (QuickLRU.lookup k (QuickLRU.entries (lru p)) = Some pos ->
   effects p' = effects p /\ debounceSaveFn p' = debounceSaveFn p /\
   settings p' = settings p).
Proof.
  intros Hready Hpath Hset Hmax p'. subst p'.
  unfold Part000.updateCursorPosition.
  rewrite Hready. cbn [negb view_file view_cursor].
  rewrite Hpath, String.eqb_refl, Hset. cbn [negb].
  unfold QuickLRU.has.
  destruct (QuickLRU.lookup k (QuickLRU.entries (lru p))) as [old|] eqn:E.
  - rewrite (entries_get_present k old (lru p) E).
    destruct (differentPosition pos old) eqn:Hd.
    + apply differentPosition_neq in Hd.
      match goal with |- context [Part000.saveSettings ?q] =>
        destruct (Part000_saveSettings_frame q) as (He & Hl & _);
        destruct (Part000_saveSettings_pending q) as (d & Hd1 & Hd2)
      end.
      rewrite He, Hl. cbn [set_lru lru effects].
      split; [apply lookup_set_same; cbn; lia|].
      split; [intros _; split; [reflexivity | eauto] | intros [= ->]; contradiction].
    + assert (pos = old) as <-.
      { destruct (EditorPosition_eq_dec pos old) as [e|n]; [exact e|].
        apply differentPosition_neq in n. congruence. }
      cbn [set_lru lru effects debounceSaveFn settings QuickLRU.entries].
      split; [apply lookup_snoc_same|].
      split; [intros H; contradiction | auto].
  - match goal with |- context [Part000.saveSettings ?q] =>
      destruct (Part000_saveSettings_frame q) as (He & Hl & _);
      destruct (Part000_saveSettings_pending q) as (d & Hd1 & Hd2)
    end.
    rewrite He, Hl. cbn [set_lru lru effects].
    split; [apply lookup_set_same; lia|].
    split; [intros _; split; [reflexivity | eauto] | discriminate].
Qed.

(** C3 on the TypeScript variant, whose test of the two positions is the
    other way round: a first position for a document is not recorded, a
    changed position is not recorded, and only an unchanged one is written
    (to the same value) with a save request. *)
Theorem MainTs_move_not_recorded :
  (layoutReady tsReadyEmpty = true /\
   activeFile tsReadyEmpty = Active "a.md" true /\
   QuickLRU.has "a.md" (lru tsReadyEmpty) = false /\
   MainTs.updateCursorPosition (Some (View (Some "a.md") (Pos 3 4))) tsReadyEmpty
   = tsReadyEmpty) /\
  (layoutReady tsReadyCached = true /\
   activeFile tsReadyCached = Active "a.md" true /\
   QuickLRU.lookup "a.md" (QuickLRU.entries (lru tsReadyCached)) = Some (Pos 5 10) /\
   MainTs.updateCursorPosition (Some (View (Some "a.md") (Pos 3 4))) tsReadyCached
   = tsReadyCached) /\
  effects (MainTs.updateCursorPosition (Some (View (Some "a.md") (Pos 5 10))) tsReadyCached)
  = SaveSettings :: effects tsReadyCached.
Proof. vm_compute. repeat split. Qed.

(** The same three notifications in the JavaScript variant: the first
    position and the changed position are recorded with a save request, the
    unchanged one is not. *)
Lemma Part000_move_example :
  let empty :=
    Part000.steps [LayoutReady; openAtOrigin "a.md"] (Part000.loadSettings None init) in
  let cached := Part000.step (openAtOrigin "a.md") jsReadyCached in
  let first := Part000.step (SelectionSet (Some (View (Some "a.md") (Pos 3 4)))) empty in
  let changed := Part000.step (SelectionSet (Some (View (Some "a.md") (Pos 3 4)))) cached in
  let same := Part000.step (SelectionSet (Some (View (Some "a.md") (Pos 5 10)))) cached in
  (QuickLRU.lookup "a.md" (QuickLRU.entries (lru first)) = Some (Pos 3 4) /\
   effects first = SaveSettings :: effects empty) /\
  (QuickLRU.lookup "a.md" (QuickLRU.entries (lru changed)) = Some (Pos 3 4) /\
   effects changed = SaveSettings :: effects cached) /\
  (QuickLRU.lookup "a.md" (QuickLRU.entries (lru same)) = Some (Pos 5 10) /\
   effects same = effects cached).
Proof. vm_compute. repeat split. Qed.

(** ** C4: opening a document whose caret is not at the origin *)

(** The JavaScript variant writes the caret back: the caret found on
    opening replaces the stored position, a save is requested, the editor
    is not moved (the request is the only effect), and the session is
    settled. *)
Lemma Part000_open_nonorigin_overrides
    (p : Plugin) (k : string) (stored caret : EditorPosition) :
  k <> "" ->
  QuickLRU.lookup k (QuickLRU.entries (lru p)) = Some stored ->
  caret <> Pos 0 0 ->
  QuickLRU.maxSize (lru p) = 50 ->
  let p' := Part000.fileOpen (Some k) (Some (View (Some k) caret)) p in
  QuickLRU.lookup k (QuickLRU.entries (lru p')) = Some caret /\
  effects p' = SaveSettings :: effects p /\
  (exists d, debounceSaveFn p' = Some d /\ Debouncer.pending d = true) /\
  activeFile p' = Active k true.
Proof.
  intros Hk Hstored Hcaret Hmax p'. subst p'.
  unfold Part000.fileOpen, Part000.onOpen.
  cbn [view_file view_cursor set_activeFile lru].
  apply truthy_neq in Hk. rewrite Hk.
  assert (Hhas : QuickLRU.has k (lru p) = true) by (apply has_lookup; eauto).
  rewrite Hhas, (entries_get_present k stored (lru p) Hstored). cbn [andb].
  assert (Ho : atOrigin caret = false).
  { destruct (atOrigin caret) eqn:E; [apply atOrigin_eq in E; contradiction | reflexivity]. }
  rewrite Ho.
  match goal with |- context [Part000.saveSettings ?q] =>
    destruct (Part000_saveSettings_frame q) as (He & Hl & _ & _ & Ha & _);
    destruct (Part000_saveSettings_pending q) as (d & Hd1 & Hd2)
  end.
  cbn [set_activeFile lru effects debounceSaveFn activeFile].
  rewrite He, Hl, Ha. cbn [set_lru set_activeFile lru effects activeFile path].
  split; [apply lookup_set_same; cbn; lia|].
  split; [reflexivity|]. split; [eauto | reflexivity].
Qed.

(** C4 on the TypeScript variant, whose [onOpen] only logs in this case:
    opening "a.md" with the caret at (3, 4) leaves (5, 10) in the cache and
    requests no save. *)
Theorem MainTs_open_nonorigin_keeps_stored :
  QuickLRU.lookup "a.md" (QuickLRU.entries (lru tsLoaded)) = Some (Pos 5 10) /\
  QuickLRU.lookup "a.md"
    (QuickLRU.entries
       (lru (MainTs.fileOpen (Some "a.md") (Some (View (Some "a.md") (Pos 3 4))) tsLoaded)))
  = Some (Pos 5 10) /\
  effects (MainTs.fileOpen (Some "a.md") (Some (View (Some "a.md") (Pos 3 4))) tsLoaded) = [] /\
  debounceSaveFn (MainTs.fileOpen (Some "a.md") (Some (View (Some "a.md") (Pos 3 4))) tsLoaded)
  = None.
Proof. vm_compute. repeat split. Qed.

(** The design's example on the JavaScript variant: stored (5, 10), caret
    (3, 4), the cache then holds (3, 4). *)
Lemma Part000_open_nonorigin_example :
  let p := Part000.loadSettings (Some [Info "a.md" (Pos 5 10)]) init in
  let p' := Part000.fileOpen (Some "a.md") (Some (View (Some "a.md") (Pos 3 4))) p in
  QuickLRU.lookup "a.md" (QuickLRU.entries (lru p')) = Some (Pos 3 4) /\
  effects p' = [SaveSettings].
Proof. vm_compute. split; reflexivity. Qed.

(** ** Opening a cached document whose caret is at the origin *)

Lemma lookup_promote (k k' : string) (l : list (string * EditorPosition)) :
  QuickLRU.lookup k' (promote k l) = QuickLRU.lookup k' l.
Proof.
  unfold promote. destruct (QuickLRU.lookup k l) as [v|] eqn:E; [|reflexivity].
  destruct (String.eqb_spec k k') as [<-|Hne].
  - now rewrite lookup_snoc_same.
  - rewrite lookup_app, lookup_remove_other by congruence.
    destruct (QuickLRU.lookup k' l); [reflexivity|].
    rewrite lookup_cons. destruct (String.eqb_spec k k'); [contradiction | reflexivity].
Qed.

Lemma entries_get_promote (k : string) (c : QuickLRU.t EditorPosition) :
  QuickLRU.entries (snd (QuickLRU.get k c)) = promote k (QuickLRU.entries c).
Proof.
  unfold QuickLRU.get, promote.
  destruct (QuickLRU.lookup k (QuickLRU.entries c)); reflexivity.
Qed.

(** Both variants restore the same way: the stored position is read with
    [get], the editor is moved and scrolled, the session is marked settled,
    and nothing else changes. *)
Lemma fileOpen_restores (p : Plugin) (k : string) (v : EditorPosition) :
  k <> "" ->
  QuickLRU.lookup k (QuickLRU.entries (lru p)) = Some v ->
  MainTs.step (openAtOrigin k) p
  = mkPlugin (settings p) (snd (QuickLRU.get k (lru p))) (debounceSaveFn p)
      (layoutReady p) (Active k true) (clock p)
      (ScrollIntoView v :: SetCursor v :: effects p) /\
  Part000.step (openAtOrigin k) p
  = mkPlugin (settings p) (snd (QuickLRU.get k (lru p))) (debounceSaveFn p)
      (layoutReady p) (Active k true) (clock p)
      (ScrollIntoView v :: SetCursor v :: effects p).
Proof.
  intros Hk Hv. apply truthy_neq in Hk.
  assert (Hhas : QuickLRU.has k (lru p) = true) by (apply has_lookup; eauto).
  unfold openAtOrigin, MainTs.step, Part000.step, MainTs.fileOpen, Part000.fileOpen,
    MainTs.onOpen, Part000.onOpen.
  cbn [view_file view_cursor set_activeFile lru].
  rewrite Hk, Hhas, (entries_get_present k v (lru p) Hv). cbn. auto.
Qed.

(** A run of such openings changes the recency order only. *)
Lemma opens_quiet (step : Event -> Plugin -> Plugin) (ks : list string) :
  (forall p k v, k <> "" ->
     QuickLRU.lookup k (QuickLRU.entries (lru p)) = Some v ->
     step (openAtOrigin k) p
     = mkPlugin (settings p) (snd (QuickLRU.get k (lru p))) (debounceSaveFn p)
         (layoutReady p) (Active k true) (clock p)
         (ScrollIntoView v :: SetCursor v :: effects p)) ->
  forall p,
    Forall (fun k => k <> "" /\ QuickLRU.has k (lru p) = true) ks ->
    let p' := fold_left (fun acc e => step e acc) (map openAtOrigin ks) p in
    settings p' = settings p /\
    debounceSaveFn p' = debounceSaveFn p /\
    countSaveSettings (effects p') = countSaveSettings (effects p) /\
    countSaveData (effects p') = countSaveData (effects p) /\
    QuickLRU.entries (lru p') = promoteAll ks (QuickLRU.entries (lru p)).
Proof.
  intros Hstep. induction ks as [|k ks IH]; intros p Hall; [cbn; auto 10|].
  inversion Hall as [|? ? [Hk Hhas] Hall']; subst.
  apply has_lookup in Hhas. destruct Hhas as [v Hv].
  cbn [map fold_left]. rewrite (Hstep p k v Hk Hv).
  match goal with |- context [fold_left _ _ ?q] => specialize (IH q) end.
  cbn zeta in IH |- *.
  destruct IH as (H1 & H2 & H3 & H4 & H5).
  - cbn [lru]. apply Forall_forall. intros k' Hin.
    rewrite Forall_forall in Hall'. destruct (Hall' k' Hin) as [Hk' Hhas'].
    split; [exact Hk'|]. apply has_lookup. apply has_lookup in Hhas'.
    rewrite entries_get_promote, lookup_promote. exact Hhas'.
  - rewrite H1, H2, H3, H4, H5. cbn [settings debounceSaveFn effects lru].
    rewrite entries_get_promote. auto 10.
Qed.

(** Promoting an entry that is not the most recent one changes the order. *)
Lemma promote_moves (k : string) (v : EditorPosition)
    (older newer : list (string * EditorPosition)) :
  NoDup (map fst (older ++ (k, v) :: newer)) -> newer <> [] ->
  promote k (older ++ (k, v) :: newer) = older ++ newer ++ [(k, v)] /\
  promote k (older ++ (k, v) :: newer) <> older ++ (k, v) :: newer.
Proof.
  intros Hnd Hne.
  assert (Hnotin : ~ In k (map fst (older ++ newer))).
  { rewrite map_app in Hnd. cbn [map fst] in Hnd. apply NoDup_remove_2 in Hnd.
    now rewrite map_app. }
  rewrite map_app, in_app_iff in Hnotin.
  assert (Hl : QuickLRU.lookup k (older ++ (k, v) :: newer) = Some v).
  { apply lookup_In; [exact Hnd | apply in_or_app; right; now left]. }
  assert (Hp : promote k (older ++ (k, v) :: newer) = older ++ newer ++ [(k, v)]).
  { unfold promote. rewrite Hl, remove_app, remove_cons, String.eqb_refl.
    rewrite !remove_notin by tauto. now rewrite <- app_assoc. }
  split; [exact Hp|]. rewrite Hp. intros E. apply app_inv_head in E.
  destruct newer as [|[k0 v0] newer]; [contradiction|].
  cbn [app] in E. injection E as -> -> _. apply Hnotin. right. now left.
Qed.

(** ** Notifications while the session is not settled *)

Lemma Part000_update_unsettled (q : Plugin) (view : option MarkdownView) :
  initialCursorHasBeenSet (activeFile q) = false ->
  Part000.updateCursorPosition view q = q.
Proof.
  intros H. unfold Part000.updateCursorPosition.
  destruct (layoutReady q); cbn [negb]; [|reflexivity].
  destruct view as [[[f|] c]|]; cbn [view_file]; try reflexivity.
  destruct (String.eqb f (path (activeFile q))); cbn [negb]; [|reflexivity].
  now rewrite H.
Qed.

Lemma Part000_update_activeFile (p : Plugin) (view : option MarkdownView) :
  activeFile (Part000.updateCursorPosition view p) = activeFile p.
Proof.
  unfold Part000.updateCursorPosition.
  destruct (layoutReady p); cbn [negb]; [|reflexivity].
  destruct view as [[[f|] c]|]; cbn [view_file view_cursor]; try reflexivity.
  destruct (String.eqb f (path (activeFile p))); cbn [negb]; [|reflexivity].
  destruct (initialCursorHasBeenSet (activeFile p)); cbn [negb]; [|reflexivity].
  destruct (if QuickLRU.has f (lru p) then QuickLRU.get f (lru p) else (None, lru p))
    as [old c'].
  destruct (match old with None => true | Some o => differentPosition c o end);
    [|reflexivity].
  match goal with |- context [Part000.saveSettings ?q] =>
    destruct (Part000_saveSettings_frame q) as (_ & _ & _ & _ & Ha & _)
  end.
  rewrite Ha. reflexivity.
Qed.

(** A notification that the editor delivers while the open handler runs
    changes nothing: the handler comes out the same. *)
Lemma Part000_fileOpenNotified_same
    (file : option string) (view : option MarkdownView) (p : Plugin) :
  Part000.fileOpenNotified file view p = Part000.fileOpen file view p.
Proof.
  unfold Part000.fileOpenNotified, Part000.fileOpen, Part000.onOpenNotified, Part000.onOpen.
  destruct view as [[[f|] c]|]; cbn [view_file view_cursor]; try reflexivity.
  destruct (truthy f && QuickLRU.has f _); [|reflexivity].
  destruct (QuickLRU.get f _) as [got c'].
  destruct (atOrigin c); [|reflexivity].
  now rewrite Part000_update_unsettled by reflexivity.
Qed.

(** In the TypeScript variant the branch on the unset flag only logs, so
    a notification that the editor delivers while the open handler runs
    goes on to the comparison: the restored position equals the cached one
    and a save is requested. *)
Lemma MainTs_fileOpenNotified_requests_save :
  let p := MainTs.steps [LayoutReady] tsLoaded in
  effects (MainTs.fileOpen (Some "a.md") (Some (View (Some "a.md") (Pos 0 0))) p)
  = [ScrollIntoView (Pos 5 10); SetCursor (Pos 5 10)] /\
  effects (MainTs.fileOpenNotified (Some "a.md") (Some (View (Some "a.md") (Pos 0 0))) p)
  = [ScrollIntoView (Pos 5 10); SaveSettings; SetCursor (Pos 5 10)].
Proof. vm_compute. split; reflexivity. Qed.

(** ** C10: opening cached documents reorders the cache without a save *)

Lemma toCursorInfo_injective (l1 l2 : list (string * EditorPosition)) :
  map toCursorInfo l1 = map toCursorInfo l2 -> l1 = l2.
Proof.
  revert l2. induction l1 as [|[k1 v1] l1 IH]; intros [|[k2 v2] l2]; cbn; try discriminate.
  - reflexivity.
  - intros [= -> -> E]. f_equal. now apply IH.
Qed.

(** C10. Opening a cached document whose caret is at the origin reads the
    stored position with [get], which makes the document the most recent
    entry and so changes the oldest-first order whenever it was not already
    the most recent; the restore path requests no save.  Hence any run of
    such openings changes the recency order only: no save is requested or
    written, the debouncer is untouched, and a snapshot that agreed with the
    cache is behind it afterwards (both variants; in the JavaScript variant
    also when the editor reports the programmatic move while the handler
    runs). *)
Theorem opens_reorder_without_save
    (p : Plugin) (ks : list string) (k : string) (v : EditorPosition)
    (older newer : list (string * EditorPosition)) :
  Forall (fun k' => k' <> "" /\ QuickLRU.has k' (lru p) = true) ks ->
  QuickLRU.wf (lru p) ->
  QuickLRU.entriesAscending (lru p) = older ++ (k, v) :: newer ->
  newer <> [] ->
  k <> "" ->
  restoredQuietly p k v older newer (MainTs.step (openAtOrigin k) p) /\
  restoredQuietly p k v older newer (Part000.step (openAtOrigin k) p) /\
  restoredQuietly p k v older newer
    (Part000.fileOpenNotified (Some k) (Some (View (Some k) (Pos 0 0))) p) /\
  reorderedQuietly p ks (MainTs.steps (map openAtOrigin ks) p) /\
  reorderedQuietly p ks (Part000.steps (map openAtOrigin ks) p).
Proof.
  intros Hall [Hnd _] Hentries Hnewer Hk.
  unfold QuickLRU.entriesAscending in Hentries.
  rewrite Hentries in Hnd.
  destruct (promote_moves k v older newer Hnd Hnewer) as [Hp Hneq].
  assert (Hl : QuickLRU.lookup k (QuickLRU.entries (lru p)) = Some v).
  { rewrite Hentries. apply lookup_In; [exact Hnd | apply in_or_app; right; now left]. }
  destruct (fileOpen_restores p k v Hk Hl) as [Hts Hjs].
  assert (Hone : restoredQuietly p k v older newer
                   (mkPlugin (settings p) (snd (QuickLRU.get k (lru p))) (debounceSaveFn p)
                      (layoutReady p) (Active k true) (clock p)
                      (ScrollIntoView v :: SetCursor v :: effects p))).
  { unfold restoredQuietly, serialize, QuickLRU.entriesAscending.
    cbn [lru effects debounceSaveFn settings].
    rewrite entries_get_promote, Hentries, Hp.
    repeat split; try reflexivity.
    - rewrite <- Hp. exact Hneq.
    - intros Hsync Hsync'. rewrite Hsync in Hsync'.
      apply toCursorInfo_injective in Hsync'. symmetry in Hsync'.
      rewrite <- Hp in Hsync'. exact (Hneq Hsync'). }
  rewrite Part000_fileOpenNotified_same.
  change (Part000.fileOpen (Some k) (Some (View (Some k) (Pos 0 0))) p)
    with (Part000.step (openAtOrigin k) p).
  rewrite Hts, Hjs.
  split; [exact Hone|]. split; [exact Hone|]. split; [exact Hone|].
  unfold reorderedQuietly, QuickLRU.entriesAscending, MainTs.steps, Part000.steps.
  split.
  - apply (opens_quiet MainTs.step ks); [|exact Hall].
    intros q k' v' Hk' Hv'. now destruct (fileOpen_restores q k' v' Hk' Hv').
  - apply (opens_quiet Part000.step ks); [|exact Hall].
    intros q k' v' Hk' Hv'. now destruct (fileOpen_restores q k' v' Hk' Hv').
Qed.

Lemma opens_reorder_without_save_witness :
  restoredQuietly loadedTwo "x.md" (Pos 1 1) [] [("y.md", Pos 4 2)]
    (MainTs.step (openAtOrigin "x.md") loadedTwo) /\
  restoredQuietly loadedTwo "x.md" (Pos 1 1) [] [("y.md", Pos 4 2)]
    (Part000.step (openAtOrigin "x.md") loadedTwo) /\
  restoredQuietly loadedTwo "x.md" (Pos 1 1) [] [("y.md", Pos 4 2)]
    (Part000.fileOpenNotified (Some "x.md") (Some (View (Some "x.md") (Pos 0 0))) loadedTwo) /\
  reorderedQuietly loadedTwo ["x.md"; "y.md"; "x.md"]
    (MainTs.steps (map openAtOrigin ["x.md"; "y.md"; "x.md"]) loadedTwo) /\
  reorderedQuietly loadedTwo ["x.md"; "y.md"; "x.md"]
    (Part000.steps (map openAtOrigin ["x.md"; "y.md"; "x.md"]) loadedTwo).
Proof.
  apply (opens_reorder_without_save loadedTwo ["x.md"; "y.md"; "x.md"]
           "x.md" (Pos 1 1) [] [("y.md", Pos 4 2)]).
  - repeat constructor; discriminate.
  - split; [apply distinctb_sound; reflexivity | vm_compute; lia].
  - reflexivity.
  - discriminate.
  - discriminate.
Defined.

(** ** C2: the first move notification after a restoration *)

(** C2, as stated, fails: "a.md" is opened with the caret at the origin
    and the editor is moved to the stored (5, 10).  A move notification
    processed after the handler, reporting (7, 7), is recorded: the cache
    holds (7, 7) and a save has been requested.  A notification processed
    while the handler runs ([during]: right after [setCursor]) is dropped,
    but it does not mark the session settled: the flag is still unset
    after it. *)
Lemma first_move_after_restore_recorded :
  let opened := Part000.step (openAtOrigin "a.md") jsReadyCached in
  let moved := Part000.step (SelectionSet (Some (View (Some "a.md") (Pos 7 7)))) opened in
  let during :=
    emit (SetCursor (Pos 5 10))
      (set_lru (snd (QuickLRU.get "a.md" (lru jsReadyCached)))
         (set_activeFile (Active "a.md" false) jsReadyCached)) in
  effects opened = [ScrollIntoView (Pos 5 10); SetCursor (Pos 5 10)] /\
  activeFile opened = Active "a.md" true /\
  QuickLRU.lookup "a.md" (QuickLRU.entries (lru opened)) = Some (Pos 5 10) /\
  QuickLRU.lookup "a.md" (QuickLRU.entries (lru moved)) = Some (Pos 7 7) /\
  effects moved = SaveSettings :: effects opened /\
  initialCursorHasBeenSet
    (activeFile (Part000.updateCursorPosition (Some (View (Some "a.md") (Pos 5 10))) during))
  = false.
Proof. vm_compute. repeat split. Qed.

(** C2 (amended).  When opening a document with a stored position triggers
    a programmatic restoration, the open handler itself marks the session
    settled when it returns; a move notification processed while the
    session is not settled is discarded with no change at all, so the
    handler comes out the same when the editor reports the programmatic
    move at once.  The first move notification processed after the handler
    leaves the cached position unchanged and requests no save when it
    reports the restored position; when it reports another position, that
    position is recorded and a save is requested (the JavaScript variant,
    layout ready). *)
Theorem restoration_then_first_move
    (p : Plugin) (k : string) (v pos : EditorPosition) :
  k <> "" ->
  QuickLRU.lookup k (QuickLRU.entries (lru p)) = Some v ->
  layoutReady p = true ->
  QuickLRU.maxSize (lru p) = 50 ->
  let opened := Part000.step (openAtOrigin k) p in
  let moved := Part000.step (SelectionSet (Some (View (Some k) pos))) opened in
  effects opened = ScrollIntoView v :: SetCursor v :: effects p /\
  activeFile opened = Active k true /\
  (forall q view, initialCursorHasBeenSet (activeFile q) = false ->
     Part000.updateCursorPosition view q = q) /\
  Part000.fileOpenNotified (Some k) (Some (View (Some k) (Pos 0 0))) p = opened /\
  activeFile moved = Active k true /\
  (pos = v ->
   QuickLRU.lookup k (QuickLRU.entries (lru moved)) = Some v /\
   effects moved = effects opened /\
   debounceSaveFn moved = debounceSaveFn p) /\
  (pos <> v ->
   QuickLRU.lookup k (QuickLRU.entries (lru moved)) = Some pos /\
   effects moved = SaveSettings :: effects opened).
Proof.
  intros Hk Hv Hready Hmax opened moved.
  destruct (fileOpen_restores p k v Hk Hv) as [_ Hopen].
  assert (Hl : QuickLRU.lookup k (QuickLRU.entries (lru opened)) = Some v).
  { unfold opened. rewrite Hopen. cbn [lru]. now apply lookup_get_same. }
  assert (Hs : layoutReady opened = true /\ path (activeFile opened) = k /\
               initialCursorHasBeenSet (activeFile opened) = true /\
               QuickLRU.maxSize (lru opened) = 50 /\
               debounceSaveFn opened = debounceSaveFn p).
  { unfold opened. rewrite Hopen. cbn. rewrite maxSize_get. auto. }
  destruct Hs as (H1 & H2 & H3 & H4 & H5).
  destruct (Part000_move_recorded_iff_changed opened k pos H1 H2 H3 H4)
    as (Hnew & Hchanged & Hsame).
  fold (Part000.step (SelectionSet (Some (View (Some k) pos))) opened) in Hnew, Hchanged, Hsame.
  fold moved in Hnew, Hchanged, Hsame.
  split; [unfold opened; now rewrite Hopen|].
  split; [unfold opened; now rewrite Hopen|].
  split; [exact Part000_update_unsettled|].
  split; [apply Part000_fileOpenNotified_same|].
  split.
  { unfold moved. cbn [Part000.step]. rewrite Part000_update_activeFile.
    unfold opened. now rewrite Hopen. }
  split.
  - intros ->. destruct (Hsame Hl) as (He & Hd & _).
    rewrite Hd, H5. auto.
  - intros Hne. split; [exact Hnew|].
    apply Hchanged. rewrite Hl. congruence.
Qed.

Lemma restoration_then_first_move_witness :
  let opened := Part000.step (openAtOrigin "a.md") jsReadyCached in
  let moved := Part000.step (SelectionSet (Some (View (Some "a.md") (Pos 5 10)))) opened in
  effects opened = ScrollIntoView (Pos 5 10) :: SetCursor (Pos 5 10) :: effects jsReadyCached /\
  activeFile opened = Active "a.md" true /\
  (forall q view, initialCursorHasBeenSet (activeFile q) = false ->
     Part000.updateCursorPosition view q = q) /\
  Part000.fileOpenNotified (Some "a.md") (Some (View (Some "a.md") (Pos 0 0))) jsReadyCached
  = opened /\
  activeFile moved = Active "a.md" true /\
  (Pos 5 10 = Pos 5 10 ->
   QuickLRU.lookup "a.md" (QuickLRU.entries (lru moved)) = Some (Pos 5 10) /\
   effects moved = effects opened /\
   debounceSaveFn moved = debounceSaveFn jsReadyCached) /\
  (Pos 5 10 <> Pos 5 10 ->
   QuickLRU.lookup "a.md" (QuickLRU.entries (lru moved)) = Some (Pos 5 10) /\
   effects moved = SaveSettings :: effects opened).
Proof.
  apply (restoration_then_first_move jsReadyCached "a.md" (Pos 5 10) (Pos 5 10)).
  - discriminate.
  - reflexivity.
  - reflexivity.
  - reflexivity.
Defined.

(** ** C5: a burst of save requests *)









Lemma save_frame (p : Plugin) :
  debounceSaveFn (save p) = debounceSaveFn p /\ clock (save p) = clock p /\
  layoutReady (save p) = layoutReady p /\ activeFile (save p) = activeFile p.
Proof. destruct (save_cases p) as [[_ ->]|[_ ->]]; cbn; auto. Qed.


(** C5 on the TypeScript variant, whose first [saveSettings] creates the
    debouncer and never calls it.  A burst of one request: deleting the
    cached "a.md" empties the cache and requests a save; the snapshot then
    differs from the cache, yet no timer is pending and, however much time
    passes, nothing is written.  Only a second request would start the
    timer. *)
Theorem MainTs_single_request_lost (t : N) :
  let q := MainTs.step (Delete "a.md") tsLoaded in
  countSaveSettings (effects q) = 1 /\
  settings q <> serialize q /\
  debounceSaveFn q = Some (Debouncer.debounce 10000 true) /\
  Debouncer.pending (Debouncer.debounce 10000 true) = false /\
  MainTs.step (Elapse t) q = set_clock (N.max (clock q) t) q /\
  countSaveData (effects (MainTs.step (Elapse t) q)) = 0 /\
  (exists d, debounceSaveFn (MainTs.step (Delete "b.md") q) = Some d /\
             Debouncer.pending d = true).
Proof.
  cbv zeta. repeat split; try reflexivity.
  - discriminate.
  - eexists. split; reflexivity.
Qed.

(** The same single request in the JavaScript variant is written once the
    window has passed. *)
Lemma Part000_single_request_written :
  let q := Part000.step (Delete "a.md") loadedOne in
  countSaveSettings (effects q) = 1 /\
  effects (Part000.step (Elapse 10000) q) = [SaveData []; SaveSettings] /\
  debounceSaveFn (Part000.step (Elapse 10000) q) = None.
Proof. vm_compute. repeat split. Qed.

(* ================================================================== *)
(** * Further properties of the handlers *)

(** ** The settled session of the JavaScript variant *)

(** X1. [part_000], [updateCursorPosition]: with the layout ready, the view
    on the active document and the session settled, the cache holds the
    reported position afterwards; a save is requested (and a timer is
    pending) exactly when the cache did not already hold that position;
    the session data stay as they were. *)
Theorem Part000_settled_move_recorded
    (p : Plugin) (k : string) (pos : EditorPosition) :
  layoutReady p = true ->
  path (activeFile p) = k ->
  initialCursorHasBeenSet (activeFile p) = true ->
  QuickLRU.maxSize (lru p) = 50 ->
  let p' := Part000.updateCursorPosition (Some (View (Some k) pos)) p in
  QuickLRU.lookup k (QuickLRU.entries (lru p')) = Some pos /\
  activeFile p' = activeFile p /\
  (QuickLRU.lookup k (QuickLRU.entries (lru p)) <> Some pos ->
   effects p' = SaveSettings :: effects p /\
   exists d, debounceSaveFn p' = Some d /\ Debouncer.pending d = true) /\
  (QuickLRU.lookup k (QuickLRU.entries (lru p)) = Some pos ->
   effects p' = effects p /\ debounceSaveFn p' = debounceSaveFn p /\
   settings p' = settings p).
Proof.
  intros Hready Hpath Hset Hmax p'.
  destruct (Part000_move_recorded_iff_changed p k pos Hready Hpath Hset Hmax)
    as (H1 & H2 & H3).
  split; [exact H1|]. split; [apply Part000_update_activeFile|].
  split; [exact H2 | exact H3].
Qed.

Lemma Part000_settled_move_recorded_witness :
  let p := Part000.step (openAtOrigin "a.md") jsReadyCached in
  let p' := Part000.updateCursorPosition (Some (View (Some "a.md") (Pos 7 7))) p in
  QuickLRU.lookup "a.md" (QuickLRU.entries (lru p')) = Some (Pos 7 7) /\
  activeFile p' = activeFile p /\
  (QuickLRU.lookup "a.md" (QuickLRU.entries (lru p)) <> Some (Pos 7 7) ->
   effects p' = SaveSettings :: effects p /\
   exists d, debounceSaveFn p' = Some d /\ Debouncer.pending d = true) /\
  (QuickLRU.lookup "a.md" (QuickLRU.entries (lru p)) = Some (Pos 7 7) ->
   effects p' = effects p /\ debounceSaveFn p' = debounceSaveFn p /\
   settings p' = settings p).
Proof.
  apply (Part000_settled_move_recorded
           (Part000.step (openAtOrigin "a.md") jsReadyCached) "a.md" (Pos 7 7));
    reflexivity.
Defined.

(** X2. [part_000], the 'file-open' callback with [onOpen]: when the cache
    holds a position for the opened document and the caret is not at the
    origin, the caret replaces the stored position, the only effect is the
    save request (the editor is not moved), a timer is pending and the
    session is settled for that document. *)
Theorem Part000_open_keeps_caret
    (p : Plugin) (k : string) (stored caret : EditorPosition) :
  k <> "" ->
  QuickLRU.lookup k (QuickLRU.entries (lru p)) = Some stored ->
  caret <> Pos 0 0 ->
  QuickLRU.maxSize (lru p) = 50 ->
  let p' := Part000.fileOpen (Some k) (Some (View (Some k) caret)) p in
  QuickLRU.lookup k (QuickLRU.entries (lru p')) = Some caret /\
  effects p' = SaveSettings :: effects p /\
  (exists d, debounceSaveFn p' = Some d /\ Debouncer.pending d = true) /\
  activeFile p' = Active k true.
Proof. exact (Part000_open_nonorigin_overrides p k stored caret). Qed.

Lemma Part000_open_keeps_caret_witness :
  let p' := Part000.fileOpen (Some "a.md") (Some (View (Some "a.md") (Pos 3 4)))
              jsReadyCached in
  QuickLRU.lookup "a.md" (QuickLRU.entries (lru p')) = Some (Pos 3 4) /\
  effects p' = SaveSettings :: effects jsReadyCached /\
  (exists d, debounceSaveFn p' = Some d /\ Debouncer.pending d = true) /\
  activeFile p' = Active "a.md" true.
Proof.
  apply (Part000_open_keeps_caret jsReadyCached "a.md" (Pos 5 10) (Pos 3 4)).
  - discriminate.
  - reflexivity.
  - discriminate.
  - reflexivity.
Defined.

(** ** Bursts of save requests in the JavaScript variant *)



(** ** Delete and rename *)

Lemma delete_absent (c : QuickLRU.t EditorPosition) (k : string) :
  QuickLRU.has k c = false -> QuickLRU.delete k c = c.
Proof.
  intros H. apply has_false_lookup, lookup_None in H.
  destruct c as [n l]. unfold QuickLRU.delete. cbn [QuickLRU.entries QuickLRU.maxSize] in *.
  now rewrite remove_notin.
Qed.

(** X4. [deleteFile], both variants: afterwards the cache has no entry for
    the path, the other entries are the same in the same order, and a save
    has been requested whether or not the path was cached; when it was not,
    the cache is exactly as before. *)
Theorem deleteFile_removes_and_requests (p : Plugin) (path k : string) :
  (QuickLRU.has path (lru (MainTs.deleteFile path p)) = false /\
   QuickLRU.entriesAscending (lru (MainTs.deleteFile path p))
   = QuickLRU.remove path (QuickLRU.entriesAscending (lru p)) /\
   (k <> path ->
    QuickLRU.lookup k (QuickLRU.entries (lru (MainTs.deleteFile path p)))
    = QuickLRU.lookup k (QuickLRU.entries (lru p))) /\
   effects (MainTs.deleteFile path p) = SaveSettings :: effects p /\
   (QuickLRU.has path (lru p) = false -> lru (MainTs.deleteFile path p) = lru p)) /\
  (QuickLRU.has path (lru (Part000.deleteFile path p)) = false /\
   QuickLRU.entriesAscending (lru (Part000.deleteFile path p))
   = QuickLRU.remove path (QuickLRU.entriesAscending (lru p)) /\
   (k <> path ->
    QuickLRU.lookup k (QuickLRU.entries (lru (Part000.deleteFile path p)))
    = QuickLRU.lookup k (QuickLRU.entries (lru p))) /\
   effects (Part000.deleteFile path p) = SaveSettings :: effects p /\
   (QuickLRU.has path (lru p) = false -> lru (Part000.deleteFile path p) = lru p)).
Proof.
  unfold MainTs.deleteFile, Part000.deleteFile, deleteFile, QuickLRU.entriesAscending.
  destruct (MainTs_saveSettings_frame (set_lru (QuickLRU.delete path (lru p)) p))
    as (He1 & Hl1 & _).
  destruct (Part000_saveSettings_frame (set_lru (QuickLRU.delete path (lru p)) p))
    as (He2 & Hl2 & _).
  rewrite He1, Hl1, He2, Hl2. cbn [set_lru lru effects].
  assert (Hgone : QuickLRU.has path (QuickLRU.delete path (lru p)) = false)
    by (apply has_false_lookup, lookup_delete_same).
  assert (Hother : k <> path ->
            QuickLRU.lookup k (QuickLRU.entries (QuickLRU.delete path (lru p)))
            = QuickLRU.lookup k (QuickLRU.entries (lru p))).
  { intros Hne. cbn [QuickLRU.delete QuickLRU.entries]. now apply lookup_remove_other. }
  pose proof (delete_absent (lru p) path) as Habs.
  repeat split; auto.
Qed.

Lemma rename_there_and_back (saveSettings : Plugin -> Plugin) :
  (forall q, effects (saveSettings q) = SaveSettings :: effects q /\
             lru (saveSettings q) = lru q) ->
  forall (p : Plugin) (a b : string) (v : EditorPosition),
    a <> b ->
    QuickLRU.lookup a (QuickLRU.entries (lru p)) = Some v ->
    QuickLRU.maxSize (lru p) = 50 ->
    let moved := renameFile saveSettings b a p in
    let back := renameFile saveSettings a b moved in
    QuickLRU.lookup b (QuickLRU.entries (lru moved)) = Some v /\
    QuickLRU.has a (lru moved) = false /\
    QuickLRU.lookup a (QuickLRU.entries (lru back)) = Some v /\
    QuickLRU.has b (lru back) = false /\
    effects back = SaveSettings :: SaveSettings :: effects p.
Proof.
  intros Hss p a b v Hne Ha Hmax moved back.
  assert (Hn : 1 <= QuickLRU.maxSize (lru p)) by lia.
  destruct (renamed_cache (lru p) b a v Hn) as [Hold Hnew].
  assert (Hm : moved = saveSettings
                 (set_lru (QuickLRU.set b v
                    (QuickLRU.delete a (snd (QuickLRU.get a (lru p))))) p))
    by (unfold moved; now apply renameFile_present).
  destruct (Hss (set_lru (QuickLRU.set b v
                   (QuickLRU.delete a (snd (QuickLRU.get a (lru p))))) p)) as [He1 Hl1].
  rewrite <- Hm in He1, Hl1. cbn [set_lru lru effects] in He1, Hl1.
  assert (Hb : QuickLRU.lookup b (QuickLRU.entries (lru moved)) = Some v).
  { rewrite Hl1, <- get_fst. exact Hnew. }
  assert (Hn' : 1 <= QuickLRU.maxSize (lru moved)).
  { rewrite Hl1. cbn [QuickLRU.set QuickLRU.maxSize QuickLRU.delete].
    now rewrite maxSize_get. }
  destruct (renamed_cache (lru moved) a b v Hn') as [Hold' Hnew'].
  assert (Hbk : back = saveSettings
                  (set_lru (QuickLRU.set a v
                     (QuickLRU.delete b (snd (QuickLRU.get b (lru moved))))) moved))
    by (unfold back; now apply renameFile_present).
  destruct (Hss (set_lru (QuickLRU.set a v
                   (QuickLRU.delete b (snd (QuickLRU.get b (lru moved))))) moved))
    as [He2 Hl2].
  rewrite <- Hbk in He2, Hl2. cbn [set_lru lru effects] in He2, Hl2.
  split; [exact Hb|]. split; [rewrite Hl1; now apply Hold|].
  split; [rewrite Hl2, <- get_fst; exact Hnew'|].
  split; [rewrite Hl2; apply Hold'; congruence|].
  now rewrite He2, He1.
Qed.

(** X5. [renameFile], both variants: renaming a cached document a to b and
    back to a again leaves a with its position and b without an entry
    (whatever the cache held for b before: a rename onto a cached key
    overwrites it), and each of the two renames requests a save. *)
Theorem rename_round_trip (p : Plugin) (a b : string) (v : EditorPosition) :
  a <> b ->
  QuickLRU.lookup a (QuickLRU.entries (lru p)) = Some v ->
  QuickLRU.maxSize (lru p) = 50 ->
  (let moved := MainTs.renameFile b a p in
   let back := MainTs.renameFile a b moved in
   QuickLRU.lookup b (QuickLRU.entries (lru moved)) = Some v /\
   QuickLRU.has a (lru moved) = false /\
   QuickLRU.lookup a (QuickLRU.entries (lru back)) = Some v /\
   QuickLRU.has b (lru back) = false /\
   effects back = SaveSettings :: SaveSettings :: effects p) /\
  (let moved := Part000.renameFile b a p in
   let back := Part000.renameFile a b moved in
   QuickLRU.lookup b (QuickLRU.entries (lru moved)) = Some v /\
   QuickLRU.has a (lru moved) = false /\
   QuickLRU.lookup a (QuickLRU.entries (lru back)) = Some v /\
   QuickLRU.has b (lru back) = false /\
   effects back = SaveSettings :: SaveSettings :: effects p).
Proof.
  intros Hne Ha Hmax. split.
  - apply (rename_there_and_back MainTs.saveSettings); auto.
    intros q. destruct (MainTs_saveSettings_frame q) as (He & Hl & _). auto.
  - apply (rename_there_and_back Part000.saveSettings); auto.
    intros q. destruct (Part000_saveSettings_frame q) as (He & Hl & _). auto.
Qed.

Lemma rename_round_trip_witness :
  (let moved := MainTs.renameFile "y.md" "x.md" loadedTwo in
   let back := MainTs.renameFile "x.md" "y.md" moved in
   QuickLRU.lookup "y.md" (QuickLRU.entries (lru moved)) = Some (Pos 1 1) /\
   QuickLRU.has "x.md" (lru moved) = false /\
   QuickLRU.lookup "x.md" (QuickLRU.entries (lru back)) = Some (Pos 1 1) /\
   QuickLRU.has "y.md" (lru back) = false /\
   effects back = SaveSettings :: SaveSettings :: effects loadedTwo) /\
  (let moved := Part000.renameFile "y.md" "x.md" loadedTwo in
   let back := Part000.renameFile "x.md" "y.md" moved in
   QuickLRU.lookup "y.md" (QuickLRU.entries (lru moved)) = Some (Pos 1 1) /\
   QuickLRU.has "x.md" (lru moved) = false /\
   QuickLRU.lookup "x.md" (QuickLRU.entries (lru back)) = Some (Pos 1 1) /\
   QuickLRU.has "y.md" (lru back) = false /\
   effects back = SaveSettings :: SaveSettings :: effects loadedTwo).
Proof.
  apply (rename_round_trip loadedTwo "x.md" "y.md" (Pos 1 1)).
  - discriminate.
  - reflexivity.
  - reflexivity.
Defined.

(** ** Opening a document with nothing to restore *)

(** X6. The 'file-open' callback, both variants: when there is no view,
    the view has no file, the path is empty or the cache has no entry for
    it, the callback only sets the active path (the empty string for a null
    file) and marks the session settled: no cache access, no editor
    command, no save request. *)
Theorem open_without_stored_position
    (p : Plugin) (file : option string) (view : option MarkdownView) :
  (forall k c, view = Some (View (Some k) c) ->
     k = "" \/ QuickLRU.has k (lru p) = false) ->
  MainTs.fileOpen file view p
  = set_activeFile (Active (match file with Some f => f | None => "" end) true) p /\
  Part000.fileOpen file view p
  = set_activeFile (Active (match file with Some f => f | None => "" end) true) p.
Proof.
  intros H. unfold MainTs.fileOpen, Part000.fileOpen, MainTs.onOpen, Part000.onOpen.
  destruct view as [[[k|] c]|]; cbn [view_file view_cursor]; try (split; reflexivity).
  cbn [set_activeFile lru].
  destruct (H k c eq_refl) as [->|Hhas].
  - cbn. split; reflexivity.
  - rewrite Hhas, andb_false_r. split; reflexivity.
Qed.

Lemma open_without_stored_position_witness :
  MainTs.fileOpen (Some "new.md") (Some (View (Some "new.md") (Pos 0 0))) loadedTwo
  = set_activeFile (Active "new.md" true) loadedTwo /\
  Part000.fileOpen (Some "new.md") (Some (View (Some "new.md") (Pos 0 0))) loadedTwo
  = set_activeFile (Active "new.md" true) loadedTwo.
Proof.
  apply (open_without_stored_position loadedTwo (Some "new.md")
           (Some (View (Some "new.md") (Pos 0 0)))).
  intros k c [= <- <-]. right. reflexivity.
Defined.

(** ** What a move notification can change *)

Lemma remove_idempotent (k : string) (l : list (string * EditorPosition)) :
  QuickLRU.remove k (QuickLRU.remove k l) = QuickLRU.remove k l.
Proof. apply remove_notin. rewrite remove_keys. tauto. Qed.

(** Writing back the value just read only promotes the entry. *)
Lemma set_after_get_same (c : QuickLRU.t EditorPosition) (k : string)
    (v : EditorPosition) :
  QuickLRU.wf c ->
  QuickLRU.lookup k (QuickLRU.entries c) = Some v ->
  QuickLRU.entries (QuickLRU.set k v (snd (QuickLRU.get k c)))
  = promote k (QuickLRU.entries c).
Proof.
  intros [_ Hlen] Hv. rewrite (entries_get_present k v c Hv). cbn [snd].
  rewrite set_entries. cbn [QuickLRU.entries]. unfold promote. rewrite Hv.
  rewrite remove_app, remove_idempotent, remove_cons, String.eqb_refl.
  cbn [QuickLRU.remove filter]. rewrite app_nil_r.
  apply evict_keep. rewrite length_app. cbn [length].
  assert (In k (map fst (QuickLRU.entries c))).
  { apply lookup_Some_In in Hv. change k with (fst (k, v)). now apply in_map. }
  pose proof (length_remove_present k _ H). lia.
Qed.

(** X7. [main.ts], [updateCursorPosition]: whatever the view and the state,
    a move notification leaves every cached position as it was (it can at
    most promote the active document's entry and request a save); it never
    touches the snapshot or the session data and never moves the editor. *)
Theorem MainTs_move_keeps_positions
    (p : Plugin) (view : option MarkdownView) (k : string) :
  QuickLRU.wf (lru p) ->
  let p' := MainTs.updateCursorPosition view p in
  QuickLRU.lookup k (QuickLRU.entries (lru p'))
  = QuickLRU.lookup k (QuickLRU.entries (lru p)) /\
  settings p' = settings p /\
  activeFile p' = activeFile p /\
  (effects p' = effects p \/ effects p' = SaveSettings :: effects p).
Proof.
  intros Hwf p'. subst p'. unfold MainTs.updateCursorPosition.
  destruct (layoutReady p); cbn [negb]; [|auto].
  destruct view as [[[f|] c]|]; cbn [view_file view_cursor]; auto.
  destruct (String.eqb f (path (activeFile p))); cbn [negb]; [|auto].
  unfold QuickLRU.has.
  destruct (QuickLRU.lookup f (QuickLRU.entries (lru p))) as [old|] eqn:E; [|cbn; auto].
  rewrite (entries_get_present f old (lru p) E).
  destruct (samePosition c old) eqn:Hs.
  - apply samePosition_eq in Hs. subst c.
    match goal with |- context [MainTs.saveSettings ?q] =>
      destruct (MainTs_saveSettings_frame q) as (He & Hl & Hs & _ & Ha & _)
    end.
    rewrite He, Hl, Hs, Ha. cbn [set_lru lru effects settings activeFile].
    pose proof (set_after_get_same (lru p) f old Hwf E) as Hp.
    rewrite (entries_get_present f old (lru p) E) in Hp. cbn [snd] in Hp.
    rewrite Hp, lookup_promote. auto.
  - cbn [set_lru lru effects settings activeFile QuickLRU.entries].
    change (QuickLRU.remove f (QuickLRU.entries (lru p)) ++ [(f, old)])
      with (match Some old with
            | Some v => QuickLRU.remove f (QuickLRU.entries (lru p)) ++ [(f, v)]
            | None => QuickLRU.entries (lru p)
            end).
    rewrite <- E. fold (promote f (QuickLRU.entries (lru p))).
    rewrite lookup_promote. auto.
Qed.

Lemma MainTs_move_keeps_positions_witness :
  let p' := MainTs.updateCursorPosition (Some (View (Some "a.md") (Pos 9 9))) tsReadyCached in
  QuickLRU.lookup "a.md" (QuickLRU.entries (lru p'))
  = QuickLRU.lookup "a.md" (QuickLRU.entries (lru tsReadyCached)) /\
  settings p' = settings tsReadyCached /\
  activeFile p' = activeFile tsReadyCached /\
  (effects p' = effects tsReadyCached \/ effects p' = SaveSettings :: effects tsReadyCached).
Proof.
  apply (MainTs_move_keeps_positions tsReadyCached
           (Some (View (Some "a.md") (Pos 9 9))) "a.md").
  split; [apply distinctb_sound; reflexivity | vm_compute; lia].
Defined.

(** ** Before the first 'file-open' *)

Lemma elapse_activeFile (t : N) (p : Plugin) : activeFile (elapse t p) = activeFile p.
Proof.
  unfold elapse. cbn [set_clock debounceSaveFn clock].
  destruct (debounceSaveFn p) as [d|]; [|reflexivity].
  destruct (Debouncer.due _ d); [|reflexivity].
  unfold debouncedSave.
  match goal with |- context [save ?x] => destruct (save_frame x) as (_ & _ & _ & Ha) end.
  rewrite Ha. reflexivity.
Qed.

Lemma Part000_step_activeFile (e : Event) (p : Plugin) :
  isFileOpen e = false -> activeFile (Part000.step e p) = activeFile p.
Proof.
  destruct e as [file view|view|n o|d| | |t]; cbn [isFileOpen Part000.step]; intros H;
    try discriminate.
  - apply Part000_update_activeFile.
  - unfold Part000.renameFile, renameFile.
    destruct (QuickLRU.has o (lru p)); [|reflexivity].
    destruct (QuickLRU.get o (lru p)) as [cp c].
    match goal with |- context [Part000.saveSettings ?q] =>
      destruct (Part000_saveSettings_frame q) as (_ & _ & _ & _ & Ha & _)
    end.
    rewrite Ha. reflexivity.
  - unfold Part000.deleteFile, deleteFile.
    match goal with |- context [Part000.saveSettings ?q] =>
      destruct (Part000_saveSettings_frame q) as (_ & _ & _ & _ & Ha & _)
    end.
    rewrite Ha. reflexivity.
  - reflexivity.
  - destruct (save_frame p) as (_ & _ & _ & Ha). exact Ha.
  - apply elapse_activeFile.
Qed.

(** X8. [part_000]: as long as no 'file-open' event has been delivered
    (the session flag is still unset), move notifications have no effect at
    all: any trace without 'file-open' leaves the same state as the trace
    with its notifications taken out. *)
Theorem Part000_no_tracking_before_open (es : list Event) (p : Plugin) :
  initialCursorHasBeenSet (activeFile p) = false ->
  forallb (fun e => negb (isFileOpen e)) es = true ->
  Part000.steps es p = Part000.steps (withoutNotifications es) p.
Proof.
  revert p. induction es as [|e es IH]; intros p Hflag Hall; [reflexivity|].
  cbn [forallb] in Hall. apply andb_true_iff in Hall. destruct Hall as [He Hes].
  apply negb_true_iff in He.
  unfold Part000.steps in *. cbn [fold_left withoutNotifications filter].
  fold (withoutNotifications es).
  destruct (isSelectionSet e) eqn:Hsel; cbn [negb].
  - destruct e; try discriminate. cbn [Part000.step].
    rewrite (Part000_update_unsettled p view Hflag). now apply IH.
  - cbn [fold_left]. apply IH; [|exact Hes].
    now rewrite (Part000_step_activeFile e p He).
Qed.

Lemma Part000_no_tracking_before_open_witness :
  Part000.steps
    [LayoutReady; SelectionSet (Some (View (Some "x.md") (Pos 3 3)));
     Delete "y.md"; SelectionSet (Some (View (Some "" ) (Pos 1 0))); Elapse 20000]
    loadedTwo
  = Part000.steps
      (withoutNotifications
         [LayoutReady; SelectionSet (Some (View (Some "x.md") (Pos 3 3)));
          Delete "y.md"; SelectionSet (Some (View (Some "") (Pos 1 0))); Elapse 20000])
      loadedTwo.
Proof.
  apply (Part000_no_tracking_before_open
           [LayoutReady; SelectionSet (Some (View (Some "x.md") (Pos 3 3)));
            Delete "y.md"; SelectionSet (Some (View (Some "") (Pos 1 0))); Elapse 20000]
           loadedTwo); reflexivity.
Defined.

(** ** Loading *)

Lemma setAll_fresh (kvs : list (string * EditorPosition)) :
  forall (n : nat) (l : list (string * EditorPosition)),
    NoDup (map fst (l ++ kvs)) -> length (l ++ kvs) <= n ->
    QuickLRU.setAll kvs (QuickLRU.mk n l) = QuickLRU.mk n (l ++ kvs).
Proof.
  induction kvs as [|[k v] kvs IH]; intros n l Hnd Hlen.
  - cbn. now rewrite app_nil_r.
  - rewrite setAll_cons, set_entries.
    assert (Hk : ~ In k (map fst l)).
    { rewrite map_app in Hnd. cbn [map fst] in Hnd.
      apply NoDup_remove_2 in Hnd. rewrite in_app_iff in Hnd. tauto. }
    rewrite (remove_notin k l Hk).
    rewrite evict_keep.
    + rewrite IH; rewrite <- app_assoc; [reflexivity | exact Hnd | exact Hlen].
    + rewrite length_app in *. cbn [length] in *. lia.
Qed.

Lemma toCursorInfo_asEntries (fc : list CursorInfo) :
  map toCursorInfo (asEntries fc) = fc.
Proof.
  unfold asEntries. induction fc as [|[f c] fc IH]; cbn; [reflexivity | now rewrite IH].
Qed.

Lemma map_fst_asEntries (fc : list CursorInfo) : map fst (asEntries fc) = map file fc.
Proof. unfold asEntries. rewrite map_map. reflexivity. Qed.

(** X9. [loadSettings] on the fresh plugin, both variants: persisted data
    with pairwise distinct files and at most 50 records come back from the
    cache as they were stored (same records, same order), every record is
    found under its file, and a [save] right after loading writes nothing;
    when nothing was stored the plugin stays as constructed. *)
Theorem load_round_trip (fc : list CursorInfo) :
  NoDup (map file fc) ->
  length fc <= 50 ->
  (serialize (MainTs.loadSettings (Some fc) init) = fc /\
   settings (MainTs.loadSettings (Some fc) init) = fc /\
   save (MainTs.loadSettings (Some fc) init) = MainTs.loadSettings (Some fc) init /\
   MainTs.loadSettings None init = init) /\
  (serialize (Part000.loadSettings (Some fc) init) = fc /\
   settings (Part000.loadSettings (Some fc) init) = fc /\
   save (Part000.loadSettings (Some fc) init) = Part000.loadSettings (Some fc) init /\
   Part000.loadSettings None init = init) /\
  (forall ci, In ci fc ->
     QuickLRU.lookup (file ci)
       (QuickLRU.entries (lru (Part000.loadSettings (Some fc) init))) = Some (cursor ci)).
Proof.
  intros Hnd Hlen.
  assert (Hc : QuickLRU.setAll (asEntries fc) (QuickLRU.new 50)
               = QuickLRU.mk 50 (asEntries fc)).
  { unfold QuickLRU.new. rewrite setAll_fresh; cbn [app].
    - reflexivity.
    - now rewrite map_fst_asEntries.
    - unfold asEntries. now rewrite length_map. }
  assert (Hts : MainTs.loadSettings (Some fc) init
                = mkPlugin fc (QuickLRU.mk 50 (asEntries fc)) None false (Active "" false)
                    0%N []).
  { unfold MainTs.loadSettings, fillCache, init.
    cbn [set_settings set_lru settings lru debounceSaveFn layoutReady activeFile clock effects].
    fold (asEntries fc). now rewrite Hc. }
  assert (Hjs : Part000.loadSettings (Some fc) init
                = mkPlugin fc (QuickLRU.mk 50 (asEntries fc)) None false (Active "" false)
                    0%N []).
  { unfold Part000.loadSettings, fillCache, init.
    cbn [set_settings set_lru settings lru debounceSaveFn layoutReady activeFile clock effects].
    fold (asEntries fc). now rewrite Hc. }
  assert (Hser : serialize (mkPlugin fc (QuickLRU.mk 50 (asEntries fc)) None false
                              (Active "" false) 0%N []) = fc).
  { unfold serialize, QuickLRU.entriesAscending. cbn [lru QuickLRU.entries].
    apply toCursorInfo_asEntries. }
  rewrite Hts, Hjs, Hser. cbn [settings lru QuickLRU.entries].
  repeat split; try reflexivity.
  - apply save_unchanged. now rewrite Hser.
  - apply save_unchanged. now rewrite Hser.
  - intros ci Hin. apply lookup_In; [now rewrite map_fst_asEntries|].
    unfold asEntries. apply in_map_iff. exists ci. auto.
Qed.

Lemma load_round_trip_witness :
  (serialize (MainTs.loadSettings (Some (map toCursorInfo (sampleEntries 0 50))) init)
   = map toCursorInfo (sampleEntries 0 50) /\
   settings (MainTs.loadSettings (Some (map toCursorInfo (sampleEntries 0 50))) init)
   = map toCursorInfo (sampleEntries 0 50) /\
   save (MainTs.loadSettings (Some (map toCursorInfo (sampleEntries 0 50))) init)
   = MainTs.loadSettings (Some (map toCursorInfo (sampleEntries 0 50))) init /\
   MainTs.loadSettings None init = init) /\
  (serialize (Part000.loadSettings (Some (map toCursorInfo (sampleEntries 0 50))) init)
   = map toCursorInfo (sampleEntries 0 50) /\
   settings (Part000.loadSettings (Some (map toCursorInfo (sampleEntries 0 50))) init)
   = map toCursorInfo (sampleEntries 0 50) /\
   save (Part000.loadSettings (Some (map toCursorInfo (sampleEntries 0 50))) init)
   = Part000.loadSettings (Some (map toCursorInfo (sampleEntries 0 50))) init /\
   Part000.loadSettings None init = init) /\
  (forall ci, In ci (map toCursorInfo (sampleEntries 0 50)) ->
     QuickLRU.lookup (file ci)
       (QuickLRU.entries
          (lru (Part000.loadSettings (Some (map toCursorInfo (sampleEntries 0 50))) init)))
     = Some (cursor ci)).
Proof.
  apply (load_round_trip (map toCursorInfo (sampleEntries 0 50))).
  - apply distinctb_sound. vm_compute. reflexivity.
  - vm_compute. lia.
Defined.

(** ** The snapshot and the storage *)

Lemma written_set_lru (c : QuickLRU.t EditorPosition) (p : Plugin) :
  written (set_lru c p) = written p.
Proof. reflexivity. Qed.

Lemma written_MainTs_saveSettings (p : Plugin) :
  written (MainTs.saveSettings p) = written p.
Proof.
  unfold written. destruct (MainTs_saveSettings_frame p) as (He & _ & Hs & _).
  now rewrite He, Hs.
Qed.

Lemma written_Part000_saveSettings (p : Plugin) :
  written (Part000.saveSettings p) = written p.
Proof.
  unfold written. destruct (Part000_saveSettings_frame p) as (He & _ & Hs & _).
  now rewrite He, Hs.
Qed.

Lemma save_quietOrWrote (p : Plugin) : quietOrWrote p (save p).
Proof.
  destruct (save_cases p) as [[_ ->]|[_ ->]]; [now left | right].
  exists (serialize p). reflexivity.
Qed.

Lemma elapse_quietOrWrote (t : N) (p : Plugin) : quietOrWrote p (elapse t p).
Proof.
  unfold elapse. cbn [set_clock debounceSaveFn clock].
  destruct (debounceSaveFn p) as [d|]; [|now left].
  destruct (Debouncer.due _ d); [|now left].
  unfold debouncedSave.
  match goal with |- quietOrWrote _ (save ?x) => exact (save_quietOrWrote x) end.
Qed.

Lemma renameFile_written (saveSettings : Plugin -> Plugin) :
  (forall q, written (saveSettings q) = written q) ->
  forall n o p, written (renameFile saveSettings n o p) = written p.
Proof.
  intros Hss n o p. unfold renameFile.
  destruct (QuickLRU.has o (lru p)); [|reflexivity].
  destruct (QuickLRU.get o (lru p)) as [cp c]. now rewrite Hss.
Qed.

Lemma MainTs_step_quietOrWrote (e : Event) (p : Plugin) :
  quietOrWrote p (MainTs.step e p).
Proof.
  destruct e as [file view|view|n o|d| | |t]; cbn [MainTs.step].
  - left. unfold MainTs.fileOpen, MainTs.onOpen.
    destruct view as [[[k|] c]|]; cbn [view_file view_cursor]; try reflexivity.
    destruct (truthy k && QuickLRU.has k _); [|reflexivity].
    destruct (QuickLRU.get k _) as [got c'].
    destruct (atOrigin c); reflexivity.
  - left. unfold MainTs.updateCursorPosition.
    destruct (layoutReady p); cbn [negb]; [|reflexivity].
    destruct view as [[[f|] c]|]; cbn [view_file view_cursor]; try reflexivity.
    destruct (String.eqb f (path (activeFile p))); cbn [negb]; [|reflexivity].
    destruct (if QuickLRU.has f (lru p) then QuickLRU.get f (lru p) else (None, lru p))
      as [old c'].
    destruct old as [old|]; [|reflexivity].
    destruct (samePosition c old); [|reflexivity].
    now rewrite written_MainTs_saveSettings.
  - left. apply renameFile_written, written_MainTs_saveSettings.
  - left. unfold MainTs.deleteFile, deleteFile. now rewrite written_MainTs_saveSettings.
  - now left.
  - apply save_quietOrWrote.
  - apply elapse_quietOrWrote.
Qed.

Lemma Part000_step_quietOrWrote (e : Event) (p : Plugin) :
  quietOrWrote p (Part000.step e p).
Proof.
  destruct e as [file view|view|n o|d| | |t]; cbn [Part000.step].
  - left. unfold Part000.fileOpen, Part000.onOpen.
    destruct view as [[[k|] c]|]; cbn [view_file view_cursor]; try reflexivity.
    destruct (truthy k && QuickLRU.has k _); [|reflexivity].
    destruct (QuickLRU.get k _) as [got c'].
    destruct (atOrigin c); [reflexivity|].
    match goal with |- context [Part000.saveSettings ?q] =>
      pose proof (written_Part000_saveSettings q) as Hw
    end.
    unfold written in *. cbn [set_activeFile settings effects] in *. exact Hw.
  - left. unfold Part000.updateCursorPosition.
    destruct (layoutReady p); cbn [negb]; [|reflexivity].
    destruct view as [[[f|] c]|]; cbn [view_file view_cursor]; try reflexivity.
    destruct (String.eqb f (path (activeFile p))); cbn [negb]; [|reflexivity].
    destruct (initialCursorHasBeenSet (activeFile p)); cbn [negb]; [|reflexivity].
    destruct (if QuickLRU.has f (lru p) then QuickLRU.get f (lru p) else (None, lru p))
      as [old c'].
    destruct (match old with None => true | Some o => differentPosition c o end);
      [|reflexivity].
    now rewrite written_Part000_saveSettings.
  - left. apply renameFile_written, written_Part000_saveSettings.
  - left. unfold Part000.deleteFile, deleteFile. now rewrite written_Part000_saveSettings.
  - now left.
  - apply save_quietOrWrote.
  - apply elapse_quietOrWrote.
Qed.

Lemma steps_snapshot (step : Event -> Plugin -> Plugin) :
  (forall e p, quietOrWrote p (step e p)) ->
  forall (es : list Event) (p0 : Plugin),
    (forall fc, lastWritten (effects p0) = Some fc -> settings p0 = fc) ->
    let p := fold_left (fun acc e => step e acc) es p0 in
    (forall fc, lastWritten (effects p) = Some fc -> settings p = fc) /\
    countSaveData (effects p0) <= countSaveData (effects p) /\
    (countSaveData (effects p) = countSaveData (effects p0) -> settings p = settings p0).
Proof.
  intros Hstep es. induction es as [|e es IH]; intros p0 Hinv; cbn [fold_left].
  - cbv zeta. auto.
  - cbv zeta.
    destruct (Hstep e p0) as [Hq|[fc Hw]]; unfold written in *.
    + injection Hq as Hs Hl Hc.
      destruct (IH (step e p0)) as (H1 & H2 & H3).
      { intros fc Hfc. rewrite Hl in Hfc. rewrite Hs. now apply Hinv. }
      split; [exact H1|]. split; [lia|].
      intros Heq. rewrite H3 by lia. exact Hs.
    + injection Hw as Hs Hl Hc.
      destruct (IH (step e p0)) as (H1 & H2 & H3).
      { intros fc' Hfc. rewrite Hl in Hfc. injection Hfc as <-. exact Hs. }
      split; [exact H1|]. split; [lia|]. intros Heq. lia.
Qed.

(** X10. Both variants, any trace of events: the snapshot
    [settings.fileCursors] is always the argument of the latest [saveData]
    call (given that it was so at the start, as it is when nothing has been
    written yet), and as long as no [saveData] call has been made the
    snapshot is the one the trace started with. *)
Theorem snapshot_is_last_written (es : list Event) (p0 : Plugin) :
  (forall fc, lastWritten (effects p0) = Some fc -> settings p0 = fc) ->
  ((forall fc, lastWritten (effects (MainTs.steps es p0)) = Some fc ->
      settings (MainTs.steps es p0) = fc) /\
   (countSaveData (effects (MainTs.steps es p0)) = countSaveData (effects p0) ->
      settings (MainTs.steps es p0) = settings p0)) /\
  ((forall fc, lastWritten (effects (Part000.steps es p0)) = Some fc ->
      settings (Part000.steps es p0) = fc) /\
   (countSaveData (effects (Part000.steps es p0)) = countSaveData (effects p0) ->
      settings (Part000.steps es p0) = settings p0)).
Proof.
  intros Hinv. split.
  - destruct (steps_snapshot MainTs.step MainTs_step_quietOrWrote es p0 Hinv)
      as (H1 & _ & H3). split; assumption.
  - destruct (steps_snapshot Part000.step Part000_step_quietOrWrote es p0 Hinv)
      as (H1 & _ & H3). split; assumption.
Qed.

Lemma snapshot_is_last_written_witness :
  let es := [LayoutReady; openAtOrigin "x.md";
             SelectionSet (Some (View (Some "x.md") (Pos 8 0)));
             Elapse 12000; Rename "z.md" "y.md"; Quit] in
  ((forall fc, lastWritten (effects (MainTs.steps es loadedTwo)) = Some fc ->
      settings (MainTs.steps es loadedTwo) = fc) /\
   (countSaveData (effects (MainTs.steps es loadedTwo)) = countSaveData (effects loadedTwo) ->
      settings (MainTs.steps es loadedTwo) = settings loadedTwo)) /\
  ((forall fc, lastWritten (effects (Part000.steps es loadedTwo)) = Some fc ->
      settings (Part000.steps es loadedTwo) = fc) /\
   (countSaveData (effects (Part000.steps es loadedTwo)) = countSaveData (effects loadedTwo) ->
      settings (Part000.steps es loadedTwo) = settings loadedTwo)).
Proof.
  apply (snapshot_is_last_written
           [LayoutReady; openAtOrigin "x.md";
            SelectionSet (Some (View (Some "x.md") (Pos 8 0)));
            Elapse 12000; Rename "z.md" "y.md"; Quit] loadedTwo).
  intros fc H. discriminate H.
Defined.

(** ** No change of the cache's content goes unsaved in the JavaScript variant *)

Lemma promote_Permutation (k : string) (l : list (string * EditorPosition)) :
  NoDup (map fst l) -> Permutation (promote k l) l.
Proof.
  intros Hnd. unfold promote.
  destruct (QuickLRU.lookup k l) as [v|] eqn:E; [|apply Permutation_refl].
  destruct (in_split _ _ (lookup_Some_In k v l E)) as (l1 & l2 & ->).
  assert (Hnotin : ~ In k (map fst (l1 ++ l2))).
  { rewrite map_app in Hnd. cbn [map fst] in Hnd. apply NoDup_remove_2 in Hnd.
    now rewrite map_app. }
  rewrite map_app, in_app_iff in Hnotin.
  rewrite remove_app, remove_cons, String.eqb_refl, !remove_notin by tauto.
  rewrite <- app_assoc.
  apply Permutation_app_head. symmetry. apply Permutation_cons_append.
Qed.

Lemma serialize_lru (p q : Plugin) : lru q = lru p -> serialize q = serialize p.
Proof. unfold serialize. now intros ->. Qed.

Lemma nothingLost_same (p q : Plugin) :
  settings q = settings p -> lru q = lru p -> debounceSaveFn q = debounceSaveFn p ->
  nothingLost p -> nothingLost q.
Proof.
  intros Hs Hl Hd (Hwf & Hp & Hn). unfold nothingLost.
  rewrite Hs, Hl, Hd, (serialize_lru p q Hl). tauto.
Qed.

Lemma nothingLost_promoted (p q : Plugin) (k : string) :
  settings q = settings p -> lru q = snd (QuickLRU.get k (lru p)) ->
  debounceSaveFn q = debounceSaveFn p ->
  nothingLost p -> nothingLost q.
Proof.
  intros Hs Hl Hd (Hwf & Hp & Hn). unfold nothingLost. rewrite Hs, Hl, Hd.
  split; [now apply wf_get|]. split; [exact Hp|].
  intros Hnone. unfold serialize, QuickLRU.entriesAscending. rewrite Hl.
  rewrite entries_get_promote.
  eapply Permutation_trans; [exact (Hn Hnone)|].
  apply Permutation_map. symmetry. apply promote_Permutation. apply Hwf.
Qed.

Lemma nothingLost_requested (q : Plugin) :
  QuickLRU.wf (lru q) -> nothingLost (Part000.saveSettings q).
Proof.
  intros Hwf. destruct (Part000_saveSettings_frame q) as (_ & Hl & _).
  destruct (Part000_saveSettings_pending q) as (d & Hd & Hp).
  split; [now rewrite Hl|]. split.
  - intros d' Hd'. rewrite Hd in Hd'. now injection Hd' as <-.
  - rewrite Hd. discriminate.
Qed.

Lemma nothingLost_saved (q : Plugin) :
  QuickLRU.wf (lru q) ->
  (forall d, debounceSaveFn q = Some d -> Debouncer.pending d = true) ->
  nothingLost (save q).
Proof.
  intros Hwf Hd. destruct (save_frame q) as (Hdeb & _).
  split; [now rewrite save_lru|]. split.
  - intros d. rewrite Hdeb. apply Hd.
  - intros _. rewrite save_settled. apply Permutation_refl.
Qed.

Lemma Part000_onOpen_nothingLost (view : option MarkdownView) (p : Plugin) :
  nothingLost p -> nothingLost (Part000.onOpen view p).
Proof.
  intros HJ. pose proof HJ as (Hwf & _). unfold Part000.onOpen.
  destruct view as [[[k|] c]|]; cbn [view_file view_cursor]; try exact HJ.
  destruct (truthy k && QuickLRU.has k (lru p)); [|exact HJ].
  destruct (QuickLRU.get k (lru p)) as [got c'] eqn:Eg.
  assert (Hc' : c' = snd (QuickLRU.get k (lru p))) by now rewrite Eg.
  destruct (atOrigin c).
  - apply (nothingLost_promoted p _ k); [reflexivity|exact Hc'|reflexivity|exact HJ].
  - apply nothingLost_requested. cbn [set_lru lru]. subst c'.
    now apply wf_set, wf_get.
Qed.

Lemma Part000_update_nothingLost (view : option MarkdownView) (p : Plugin) :
  nothingLost p -> nothingLost (Part000.updateCursorPosition view p).
Proof.
  intros HJ. pose proof HJ as (Hwf & _). unfold Part000.updateCursorPosition.
  destruct (layoutReady p); cbn [negb]; [|exact HJ].
  destruct view as [[[f|] c]|]; cbn [view_file view_cursor]; try exact HJ.
  destruct (String.eqb f (path (activeFile p))); cbn [negb]; [|exact HJ].
  destruct (initialCursorHasBeenSet (activeFile p)); cbn [negb]; [|exact HJ].
  destruct (QuickLRU.has f (lru p)).
  - destruct (QuickLRU.get f (lru p)) as [old c'] eqn:Eg.
    assert (Hc' : c' = snd (QuickLRU.get f (lru p))) by now rewrite Eg.
    destruct (match old with None => true | Some o => differentPosition c o end).
    + apply nothingLost_requested. cbn [set_lru lru]. subst c'.
      now apply wf_set, wf_get.
    + apply (nothingLost_promoted p _ f); [reflexivity|exact Hc'|reflexivity|exact HJ].
  - apply nothingLost_requested. cbn [set_lru lru]. now apply wf_set.
Qed.

Lemma renameFile_nothingLost (newPath oldPath : string) (p : Plugin) :
  nothingLost p -> nothingLost (renameFile Part000.saveSettings newPath oldPath p).
Proof.
  intros HJ. pose proof HJ as (Hwf & _). unfold renameFile.
  destruct (QuickLRU.has oldPath (lru p)); [|exact HJ].
  destruct (QuickLRU.get oldPath (lru p)) as [cp c'] eqn:Eg.
  assert (Hc' : c' = snd (QuickLRU.get oldPath (lru p))) by now rewrite Eg.
  apply nothingLost_requested. cbn [set_lru lru]. subst c'.
  destruct cp; [apply wf_set|]; now apply wf_delete, wf_get.
Qed.

Lemma deleteFile_nothingLost (path : string) (p : Plugin) :
  nothingLost p -> nothingLost (deleteFile Part000.saveSettings path p).
Proof.
  intros (Hwf & _). unfold deleteFile.
  apply nothingLost_requested. cbn [set_lru lru]. now apply wf_delete.
Qed.

Lemma elapse_nothingLost (t : N) (p : Plugin) :
  nothingLost p -> nothingLost (elapse t p).
Proof.
  intros HJ. pose proof HJ as (Hwf & _).
  unfold elapse. cbn [set_clock debounceSaveFn clock].
  destruct (debounceSaveFn p) as [d'|] eqn:Ed.
  - destruct (Debouncer.due _ d').
    + unfold debouncedSave.
      apply nothingLost_saved; cbn [set_debounceSaveFn set_clock lru debounceSaveFn].
      * exact Hwf.
      * discriminate.
    + eapply nothingLost_same; [reflexivity..|exact HJ].
  - eapply nothingLost_same; [reflexivity..|exact HJ].
Qed.

Lemma quit_nothingLost (p : Plugin) : nothingLost p -> nothingLost (save p).
Proof. intros (Hwf & Hd & _). now apply nothingLost_saved. Qed.

Lemma Part000_step_nothingLost (e : Event) (p : Plugin) :
  nothingLost p -> nothingLost (Part000.step e p).
Proof.
  intros HJ.
  destruct e as [file view|view|n o|d| | |t]; cbn [Part000.step].
  - unfold Part000.fileOpen.
    eapply nothingLost_same; [reflexivity..|].
    apply Part000_onOpen_nothingLost.
    eapply nothingLost_same; [reflexivity..|exact HJ].
  - now apply Part000_update_nothingLost.
  - now apply renameFile_nothingLost.
  - now apply deleteFile_nothingLost.
  - exact HJ.
  - now apply quit_nothingLost.
  - now apply elapse_nothingLost.
Qed.

(** X11. [part_000], any trace of events: from a state where the cache is
    well formed, a held debouncer has its timer running and, with none
    held, the snapshot has the records of the cache, every state reached is
    such a state again.  So whenever no debounced write is pending, the
    snapshot (the last data written or loaded) holds exactly the records of
    the cache, up to their order. *)
Theorem Part000_nothing_lost (es : list Event) (p0 : Plugin) :
  QuickLRU.wf (lru p0) ->
  (forall d, debounceSaveFn p0 = Some d -> Debouncer.pending d = true) ->
  (debounceSaveFn p0 = None -> Permutation (settings p0) (serialize p0)) ->
  let p := Part000.steps es p0 in
  QuickLRU.wf (lru p) /\
  (forall d, debounceSaveFn p = Some d -> Debouncer.pending d = true) /\
  (debounceSaveFn p = None -> Permutation (settings p) (serialize p)).
Proof.
  intros H1 H2 H3. assert (HJ : nothingLost p0) by exact (conj H1 (conj H2 H3)).
  clear H1 H2 H3. revert p0 HJ. unfold Part000.steps.
  induction es as [|e es IH]; intros p0 HJ; cbn [fold_left]; [exact HJ|].
  apply IH. now apply Part000_step_nothingLost.
Qed.

Lemma Part000_nothing_lost_witness :
  let p := Part000.steps
             [LayoutReady; openAtOrigin "x.md";
              SelectionSet (Some (View (Some "x.md") (Pos 8 0)));
              Delete "y.md"; Elapse 12000; openAtOrigin "x.md"] loadedTwo in
  QuickLRU.wf (lru p) /\
  (forall d, debounceSaveFn p = Some d -> Debouncer.pending d = true) /\
  (debounceSaveFn p = None -> Permutation (settings p) (serialize p)).
Proof.
  apply (Part000_nothing_lost
           [LayoutReady; openAtOrigin "x.md";
            SelectionSet (Some (View (Some "x.md") (Pos 8 0)));
            Delete "y.md"; Elapse 12000; openAtOrigin "x.md"] loadedTwo).
  - split; [apply distinctb_sound; reflexivity | vm_compute; lia].
  - intros d H. discriminate H.
  - intros _. apply Permutation_refl.
Defined.

(* ------------------------------------------------------------------ *)
(** ** The variant [src/main.js]: the deferred restoration *)

Lemma elapse_lru (t : N) (p : Plugin) : lru (elapse t p) = lru p.
Proof.
  unfold elapse. cbn [set_clock debounceSaveFn clock].
  destruct (debounceSaveFn p) as [d|]; [|reflexivity].
  destruct (Debouncer.due _ d); [|reflexivity].
  unfold debouncedSave. now rewrite save_lru.
Qed.

Lemma elapse_clock (t : N) (p : Plugin) : clock (elapse t p) = N.max (clock p) t.
Proof.
  unfold elapse. cbn [set_clock debounceSaveFn clock].
  destruct (debounceSaveFn p) as [d|]; [|reflexivity].
  destruct (Debouncer.due _ d); [|reflexivity].
  unfold debouncedSave.
  match goal with |- context [save ?x] => destruct (save_frame x) as (_ & Hc & _) end.
  now rewrite Hc.
Qed.

Lemma elapse_layoutReady (t : N) (p : Plugin) : layoutReady (elapse t p) = layoutReady p.
Proof.
  unfold elapse. cbn [set_clock debounceSaveFn clock].
  destruct (debounceSaveFn p) as [d|]; [|reflexivity].
  destruct (Debouncer.due _ d); [|reflexivity].
  unfold debouncedSave.
  match goal with |- context [save ?x] => destruct (save_frame x) as (_ & _ & Hc & _) end.
  now rewrite Hc.
Qed.

(** On the plugin's fields [restoreCursorPosition] acts as [onOpen] of
    [part_000] does. *)
Lemma SrcMainJs_restore_as_onOpen (v : MarkdownView) (f : string) (s : SrcMainJs.State) :
  view_file v = Some f ->
  SrcMainJs.restoreCursorPosition (Some v) s
  = SrcMainJs.assign_initialFileRestoreFn None
      (SrcMainJs.onPlugin (Part000.onOpen (Some v)) s).
Proof.
  intros Hf. unfold SrcMainJs.restoreCursorPosition, Part000.onOpen. rewrite Hf.
  reflexivity.
Qed.

Lemma SrcMainJs_restore_plugin (view : option MarkdownView) (s : SrcMainJs.State) :
  SrcMainJs.plugin (SrcMainJs.restoreCursorPosition view s) = SrcMainJs.plugin s \/
  SrcMainJs.plugin (SrcMainJs.restoreCursorPosition view s)
  = Part000.onOpen view (SrcMainJs.plugin s).
Proof.
  destruct view as [v|]; [|now left].
  destruct (view_file v) as [f|] eqn:Hf.
  - right. rewrite (SrcMainJs_restore_as_onOpen v f s Hf).
    unfold SrcMainJs.assign_initialFileRestoreFn.
    destruct (SrcMainJs.initialFileRestoreFn _) as [d|]; [|reflexivity].
    destruct (Debouncer.fireAt d); reflexivity.
  - left. unfold SrcMainJs.restoreCursorPosition. now rewrite Hf.
Qed.

(** Restoring a stored position into a view whose caret is at the origin:
    the caret is set and scrolled to, the entry becomes the most recent
    one, nothing is requested, and the field is cleared. *)
Lemma SrcMainJs_restore_at_origin (s : SrcMainJs.State) (k : string) (v : EditorPosition) :
  k <> "" ->
  QuickLRU.lookup k (QuickLRU.entries (lru (SrcMainJs.plugin s))) = Some v ->
  SrcMainJs.restoreCursorPosition (Some (View (Some k) (Pos 0 0))) s
  = SrcMainJs.assign_initialFileRestoreFn None
      (SrcMainJs.onPlugin
         (fun p => mkPlugin (settings p) (snd (QuickLRU.get k (lru p))) (debounceSaveFn p)
                     (layoutReady p) (activeFile p) (clock p)
                     (ScrollIntoView v :: SetCursor v :: effects p)) s).
Proof.
  intros Hk Hv. apply truthy_neq in Hk.
  assert (Hhas : QuickLRU.has k (lru (SrcMainJs.plugin s)) = true)
    by (apply has_lookup; eauto).
  unfold SrcMainJs.restoreCursorPosition, SrcMainJs.onPlugin.
  cbn [view_file view_cursor SrcMainJs.plugin].
  rewrite Hk, Hhas, (entries_get_present k v _ Hv). reflexivity.
Qed.

(** Once the restoration has run, a notification for the active document
    that is not taken for the late initial one is handled as the settled
    session of [part_000] handles it. *)
Lemma SrcMainJs_update_settled (s : SrcMainJs.State) (k : string) (pos : EditorPosition) :
  layoutReady (SrcMainJs.plugin s) = true ->
  path (activeFile (SrcMainJs.plugin s)) = k ->
  SrcMainJs.initialFileRestoreFn s = None ->
  SrcMainJs.initialZeroZeroReceived s = true \/ atOrigin pos = false ->
  SrcMainJs.updateCursorPosition (Some (View (Some k) pos)) s
  = SrcMainJs.onPlugin
      (fun p => Part000.updateCursorPosition (Some (View (Some k) pos))
                  (set_activeFile (Active k true) p)) s.
Proof.
  intros Hready Hpath Hfn Hflag.
  unfold SrcMainJs.updateCursorPosition, Part000.updateCursorPosition,
    SrcMainJs.initialZeroZeroReceived in *.
  destruct s as [[st c d r [pa fl] cl es] fn tm fc].
  cbn [SrcMainJs.plugin SrcMainJs.initialFileRestoreFn layoutReady activeFile path
       initialCursorHasBeenSet lru] in *.
  subst r pa fn.
  assert (Hrace : negb fl && atOrigin pos = false)
    by (destruct Hflag as [->| ->]; [reflexivity | apply andb_false_r]).
  unfold SrcMainJs.onPlugin, SrcMainJs.set_initialZeroZeroReceived,
    SrcMainJs.initialZeroZeroReceived, SrcMainJs.saveSettings.
  cbn -[QuickLRU.has QuickLRU.get QuickLRU.set Part000.saveSettings String.eqb
        differentPosition atOrigin negb andb].
  rewrite String.eqb_refl. cbn [negb].
  destruct (QuickLRU.has k c).
  - destruct (QuickLRU.get k c) as [old c'].
    cbn -[QuickLRU.set Part000.saveSettings differentPosition atOrigin negb andb].
    rewrite Hrace.
    destruct (match old with None => true | Some o => differentPosition pos o end);
      reflexivity.
  - cbn -[QuickLRU.set Part000.saveSettings differentPosition atOrigin negb andb].
    rewrite Hrace. reflexivity.
Qed.

(** X12. [src/main.js], [updateCursorPosition] once the restoration has run
    (layout ready, notification for the active document,
    [initialFileRestoreFn] null) and the notification is not taken for the
    late initial one (the initial zero-zero was received, or the caret is
    not at the origin): afterwards the cache holds the reported position
    for the document and the zero-zero counts as received; a save is
    requested, and a timer pending, when the cache held another position
    or none, and nothing at all is requested when it held this one.  No
    timer of the restoration is started. *)
Theorem SrcMainJs_settled_move_recorded
    (s : SrcMainJs.State) (k : string) (pos : EditorPosition) :
  layoutReady (SrcMainJs.plugin s) = true ->
  path (activeFile (SrcMainJs.plugin s)) = k ->
  SrcMainJs.initialFileRestoreFn s = None ->
  SrcMainJs.initialZeroZeroReceived s = true \/ atOrigin pos = false ->
  QuickLRU.maxSize (lru (SrcMainJs.plugin s)) = 50 ->
  let s' := SrcMainJs.updateCursorPosition (Some (View (Some k) pos)) s in
  let p := SrcMainJs.plugin s in
  let p' := SrcMainJs.plugin s' in
  QuickLRU.lookup k (QuickLRU.entries (lru p')) = Some pos /\
  activeFile p' = Active k true /\
  SrcMainJs.initialFileRestoreFn s' = None /\
  SrcMainJs.timers s' = SrcMainJs.timers s /\
  (QuickLRU.lookup k (QuickLRU.entries (lru p)) <> Some pos ->
   effects p' = SaveSettings :: effects p /\
   exists d, debounceSaveFn p' = Some d /\ Debouncer.pending d = true) /\
  (QuickLRU.lookup k (QuickLRU.entries (lru p)) = Some pos ->
   effects p' = effects p /\ debounceSaveFn p' = debounceSaveFn p /\
   settings p' = settings p).
Proof.
  intros Hready Hpath Hfn Hflag Hmax s' p p'. subst s' p p'.
  rewrite (SrcMainJs_update_settled s k pos Hready Hpath Hfn Hflag).
  cbn [SrcMainJs.onPlugin SrcMainJs.plugin SrcMainJs.initialFileRestoreFn SrcMainJs.timers].
  destruct (Part000_move_recorded_iff_changed
              (set_activeFile (Active k true) (SrcMainJs.plugin s)) k pos
              Hready eq_refl eq_refl Hmax) as (H1 & H2 & H3).
  split; [exact H1|].
  split; [now rewrite Part000_update_activeFile|].
  split; [exact Hfn|]. split; [reflexivity|].
  split; [exact H2 | exact H3].
Qed.

Lemma SrcMainJs_settled_move_recorded_witness :
  let s := SrcMainJs.mkState
             (set_activeFile (Active "a.md" false) jsReadyCached) None [] 0 in
  let s' := SrcMainJs.updateCursorPosition (Some (View (Some "a.md") (Pos 7 7))) s in
  let p := SrcMainJs.plugin s in
  let p' := SrcMainJs.plugin s' in
  QuickLRU.lookup "a.md" (QuickLRU.entries (lru p')) = Some (Pos 7 7) /\
  activeFile p' = Active "a.md" true /\
  SrcMainJs.initialFileRestoreFn s' = None /\
  SrcMainJs.timers s' = SrcMainJs.timers s /\
  (QuickLRU.lookup "a.md" (QuickLRU.entries (lru p)) <> Some (Pos 7 7) ->
   effects p' = SaveSettings :: effects p /\
   exists d, debounceSaveFn p' = Some d /\ Debouncer.pending d = true) /\
  (QuickLRU.lookup "a.md" (QuickLRU.entries (lru p)) = Some (Pos 7 7) ->
   effects p' = effects p /\ debounceSaveFn p' = debounceSaveFn p /\
   settings p' = settings p).
Proof.
  apply (SrcMainJs_settled_move_recorded
           (SrcMainJs.mkState
              (set_activeFile (Active "a.md" false) jsReadyCached) None [] 0)
           "a.md" (Pos 7 7)).
  - reflexivity.
  - reflexivity.
  - reflexivity.
  - right. reflexivity.
  - reflexivity.
Defined.

Lemma SrcMainJs_call_frame (s : SrcMainJs.State) :
  SrcMainJs.plugin (SrcMainJs.call_initialFileRestoreFn s) = SrcMainJs.plugin s /\
  SrcMainJs.timers (SrcMainJs.call_initialFileRestoreFn s) = SrcMainJs.timers s /\
  (SrcMainJs.initialFileRestoreFn (SrcMainJs.call_initialFileRestoreFn s) = None <->
   SrcMainJs.initialFileRestoreFn s = None).
Proof.
  unfold SrcMainJs.call_initialFileRestoreFn.
  destruct (SrcMainJs.initialFileRestoreFn s) as [d|] eqn:E; cbn.
  - repeat split; discriminate.
  - rewrite E. tauto.
Qed.

(** X13. [src/main.js], [updateCursorPosition] before the layout is ready,
    or for a document that is not the active one, or while the restoration
    of the opened document has not run ([initialFileRestoreFn] not null):
    the cache, the snapshot, the save debouncer and the record of effects
    are as before, the active path is kept, no timer is started outside
    the debouncer, and the restoration stays pending if it was. *)
Theorem SrcMainJs_move_not_recorded (s : SrcMainJs.State) (view : option MarkdownView) :
  layoutReady (SrcMainJs.plugin s) = false \/
  (forall v f, view = Some v -> view_file v = Some f ->
               f <> path (activeFile (SrcMainJs.plugin s))) \/
  SrcMainJs.initialFileRestoreFn s <> None ->
  let s' := SrcMainJs.updateCursorPosition view s in
  let p := SrcMainJs.plugin s in
  let p' := SrcMainJs.plugin s' in
  lru p' = lru p /\ settings p' = settings p /\ effects p' = effects p /\
  debounceSaveFn p' = debounceSaveFn p /\
  path (activeFile p') = path (activeFile p) /\
  SrcMainJs.timers s' = SrcMainJs.timers s /\
  (SrcMainJs.initialFileRestoreFn s' = None <-> SrcMainJs.initialFileRestoreFn s = None).
Proof.
  intros H s' p p'. subst s' p p'. unfold SrcMainJs.updateCursorPosition.
  destruct (layoutReady (SrcMainJs.plugin s)) eqn:Hready; cbn [negb].
  2:{ cbn. tauto. }
  destruct H as [H|[H|H]]; [discriminate H| |].
  - destruct view as [v|]; [|tauto].
    destruct (view_file v) as [f|] eqn:Hf; [|tauto].
    destruct (String.eqb_spec f (path (activeFile (SrcMainJs.plugin s)))) as [He|_];
      cbn [negb]; [|tauto].
    now destruct (H v f eq_refl Hf).
  - destruct view as [v|]; [|tauto].
    destruct (view_file v) as [f|]; [|tauto].
    destruct (String.eqb f (path (activeFile (SrcMainJs.plugin s)))); cbn [negb]; [|tauto].
    destruct (SrcMainJs.initialFileRestoreFn s) as [d|] eqn:Hfn; [|contradiction].
    destruct (SrcMainJs_call_frame (SrcMainJs.set_initialZeroZeroReceived true s))
      as (Hp & Ht & Hi).
    rewrite Hp, Ht. cbn [SrcMainJs.set_initialZeroZeroReceived SrcMainJs.onPlugin
      SrcMainJs.plugin SrcMainJs.timers set_activeFile lru settings effects
      debounceSaveFn activeFile path].
    repeat (split; [reflexivity|]).
    rewrite Hi. cbn [SrcMainJs.set_initialZeroZeroReceived SrcMainJs.onPlugin
      SrcMainJs.initialFileRestoreFn]. rewrite Hfn. tauto.
Qed.

Lemma SrcMainJs_move_not_recorded_witness :
  let s := SrcMainJs.fileOpen (Some "a.md") false None
             (SrcMainJs.mkState jsReadyCached None [] 0) in
  let s' := SrcMainJs.updateCursorPosition (Some (View (Some "a.md") (Pos 7 7))) s in
  let p := SrcMainJs.plugin s in
  let p' := SrcMainJs.plugin s' in
  lru p' = lru p /\ settings p' = settings p /\ effects p' = effects p /\
  debounceSaveFn p' = debounceSaveFn p /\
  path (activeFile p') = path (activeFile p) /\
  SrcMainJs.timers s' = SrcMainJs.timers s /\
  (SrcMainJs.initialFileRestoreFn s' = None <-> SrcMainJs.initialFileRestoreFn s = None).
Proof.
  apply (SrcMainJs_move_not_recorded
           (SrcMainJs.fileOpen (Some "a.md") false None
              (SrcMainJs.mkState jsReadyCached None [] 0))
           (Some (View (Some "a.md") (Pos 7 7)))).
  right. right. discriminate.
Defined.


Lemma SrcMainJs_fileOpen_arms (file : option string) (isMobile : bool)
    (hasFocus : option bool) (s : SrcMainJs.State) :
  let s' := SrcMainJs.fileOpen file isMobile hasFocus s in
  SrcMainJs.initialFileRestoreFn s'
  = Some (Debouncer.mk 100 true (Some (clock (SrcMainJs.plugin s) + 100)%N)) /\
  SrcMainJs.plugin s'
  = set_activeFile (Active (match file with Some f => f | None => "" end) false)
      (SrcMainJs.plugin s).
Proof.
  unfold SrcMainJs.fileOpen, SrcMainJs.call_initialFileRestoreFn,
    SrcMainJs.assign_initialFileRestoreFn.
  destruct s as [p [[tm rs [f|]]|] ts fc], isMobile, hasFocus as [[|]|]; cbn; auto.
Qed.



Lemma without_last (l : list N) (x : N) : SrcMainJs.without (length l) (l ++ [x]) = l.
Proof. induction l as [|a l IH]; cbn; [reflexivity | now rewrite IH]. Qed.

(** X15. [src/main.js], the restoration has run but the initial zero-zero
    has not been received, and the editor now reports the origin for the
    active document, whose position the cache holds: the stored position
    is kept, nothing is requested or written, the zero-zero still counts
    as not received, and one timer is started for 200 ms later; when that
    timer fires with the caret at the origin, the caret is set and
    scrolled to the stored position again, still held by the cache. *)
Theorem SrcMainJs_origin_after_restore_not_recorded
    (s : SrcMainJs.State) (k : string) (v : EditorPosition) (t : N) :
  layoutReady (SrcMainJs.plugin s) = true ->
  path (activeFile (SrcMainJs.plugin s)) = k ->
  k <> "" ->
  SrcMainJs.initialFileRestoreFn s = None ->
  SrcMainJs.initialZeroZeroReceived s = false ->
  QuickLRU.lookup k (QuickLRU.entries (lru (SrcMainJs.plugin s))) = Some v ->
  (clock (SrcMainJs.plugin s) + 200 <= t)%N ->
  let origin := Some (View (Some k) (Pos 0 0)) in
  let s1 := SrcMainJs.step (SrcMainJs.SelectionSet origin) s in
  let s2 := SrcMainJs.step (SrcMainJs.Elapse t) s1 in
  let s3 := SrcMainJs.step (SrcMainJs.TimerFires (length (SrcMainJs.timers s)) origin) s2 in
  (QuickLRU.lookup k (QuickLRU.entries (lru (SrcMainJs.plugin s1))) = Some v /\
   effects (SrcMainJs.plugin s1) = effects (SrcMainJs.plugin s) /\
   settings (SrcMainJs.plugin s1) = settings (SrcMainJs.plugin s) /\
   debounceSaveFn (SrcMainJs.plugin s1) = debounceSaveFn (SrcMainJs.plugin s) /\
   SrcMainJs.initialZeroZeroReceived s1 = false /\
   SrcMainJs.timers s1
   = SrcMainJs.timers s ++ [(clock (SrcMainJs.plugin s) + 200)%N]) /\
  (effects (SrcMainJs.plugin s3)
   = ScrollIntoView v :: SetCursor v :: effects (SrcMainJs.plugin s2) /\
   QuickLRU.lookup k (QuickLRU.entries (lru (SrcMainJs.plugin s3))) = Some v /\
   SrcMainJs.timers s3 = SrcMainJs.timers s).
Proof.
  intros Hready Hpath Hk Hfn Hflag Hv Ht origin s1 s2 s3.
  assert (Hhas : QuickLRU.has k (lru (SrcMainJs.plugin s)) = true)
    by (apply has_lookup; eauto).
  assert (Hs1 : s1 = SrcMainJs.set_timers
                       (SrcMainJs.timers s ++ [(clock (SrcMainJs.plugin s) + 200)%N])
                       (SrcMainJs.onPlugin
                          (set_lru (snd (QuickLRU.get k (lru (SrcMainJs.plugin s))))) s)).
  { unfold s1, origin. cbn [SrcMainJs.step]. unfold SrcMainJs.updateCursorPosition.
    rewrite Hready, Hfn. cbn [negb view_file view_cursor].
    rewrite Hpath, String.eqb_refl, Hhas. cbn [negb].
    destruct (QuickLRU.get k (lru (SrcMainJs.plugin s))) as [old c'].
    unfold SrcMainJs.initialZeroZeroReceived in *.
    cbn [SrcMainJs.onPlugin SrcMainJs.plugin set_lru activeFile snd].
    rewrite Hflag. reflexivity. }
  assert (Hl2 : QuickLRU.lookup k (QuickLRU.entries (lru (SrcMainJs.plugin s2))) = Some v).
  { unfold s2. cbn [SrcMainJs.step SrcMainJs.onPlugin SrcMainJs.plugin].
    rewrite elapse_lru, Hs1. cbn [SrcMainJs.set_timers SrcMainJs.onPlugin SrcMainJs.plugin
      set_lru lru].
    now apply lookup_get_same. }
  assert (Hc2 : (clock (SrcMainJs.plugin s) + 200 <= clock (SrcMainJs.plugin s2))%N).
  { unfold s2. cbn [SrcMainJs.step SrcMainJs.onPlugin SrcMainJs.plugin].
    rewrite elapse_clock. lia. }
  assert (Ht2 : SrcMainJs.timers s2
                = SrcMainJs.timers s ++ [(clock (SrcMainJs.plugin s) + 200)%N]).
  { unfold s2. cbn [SrcMainJs.step SrcMainJs.onPlugin SrcMainJs.timers]. now rewrite Hs1. }
  assert (Hf2 : SrcMainJs.initialFileRestoreFn s2 = None).
  { unfold s2. cbn [SrcMainJs.step SrcMainJs.onPlugin SrcMainJs.initialFileRestoreFn].
    now rewrite Hs1. }
  split.
  - rewrite Hs1. unfold SrcMainJs.initialZeroZeroReceived in *.
    cbn [SrcMainJs.set_timers SrcMainJs.onPlugin SrcMainJs.plugin SrcMainJs.timers
         set_lru lru effects settings debounceSaveFn activeFile].
    split; [now apply lookup_get_same|]. repeat split; auto.
  - unfold s3, origin. clearbody s2 s1. cbn [SrcMainJs.step]. unfold SrcMainJs.timerFires.
    rewrite Ht2, nth_error_app2, Nat.sub_diag by lia. cbn [nth_error].
    destruct (N.leb_spec (clock (SrcMainJs.plugin s) + 200) (clock (SrcMainJs.plugin s2)))
      as [_|Hlt]; [|lia].
    rewrite without_last.
    rewrite (SrcMainJs_restore_at_origin _ k v Hk) by exact Hl2.
    unfold SrcMainJs.assign_initialFileRestoreFn.
    cbn [SrcMainJs.onPlugin SrcMainJs.set_timers SrcMainJs.initialFileRestoreFn].
    rewrite Hf2. cbn.
    repeat split; try reflexivity.
    now apply lookup_get_same.
Qed.

Lemma SrcMainJs_origin_after_restore_not_recorded_witness :
  let s := SrcMainJs.mkState
             (set_activeFile (Active "a.md" false) jsReadyCached) None [] 0 in
  let origin := Some (View (Some "a.md") (Pos 0 0)) in
  let s1 := SrcMainJs.step (SrcMainJs.SelectionSet origin) s in
  let s2 := SrcMainJs.step (SrcMainJs.Elapse 250) s1 in
  let s3 := SrcMainJs.step (SrcMainJs.TimerFires (length (SrcMainJs.timers s)) origin) s2 in
  (QuickLRU.lookup "a.md" (QuickLRU.entries (lru (SrcMainJs.plugin s1))) = Some (Pos 5 10) /\
   effects (SrcMainJs.plugin s1) = effects (SrcMainJs.plugin s) /\
   settings (SrcMainJs.plugin s1) = settings (SrcMainJs.plugin s) /\
   debounceSaveFn (SrcMainJs.plugin s1) = debounceSaveFn (SrcMainJs.plugin s) /\
   SrcMainJs.initialZeroZeroReceived s1 = false /\
   SrcMainJs.timers s1
   = SrcMainJs.timers s ++ [(clock (SrcMainJs.plugin s) + 200)%N]) /\
  (effects (SrcMainJs.plugin s3)
   = ScrollIntoView (Pos 5 10) :: SetCursor (Pos 5 10) :: effects (SrcMainJs.plugin s2) /\
   QuickLRU.lookup "a.md" (QuickLRU.entries (lru (SrcMainJs.plugin s3))) = Some (Pos 5 10) /\
   SrcMainJs.timers s3 = SrcMainJs.timers s).
Proof.
  apply (SrcMainJs_origin_after_restore_not_recorded
           (SrcMainJs.mkState
              (set_activeFile (Active "a.md" false) jsReadyCached) None [] 0)
           "a.md" (Pos 5 10) 250%N).
  - reflexivity.
  - reflexivity.
  - discriminate.
  - reflexivity.
  - reflexivity.
  - reflexivity.
  - vm_compute. discriminate.
Defined.

(** X16. [src/main.js], the restoration timer fires while there is no
    Markdown view, or the view has no file: the plugin's fields are as
    before and [initialFileRestoreFn] still holds the debouncer, with no
    timer pending; so the next move notification for the active document
    is again not recorded, and it starts the debouncer's timer anew, for
    its timeout from then. *)
Theorem SrcMainJs_restore_without_view_stays_pending
    (s : SrcMainJs.State) (d : Debouncer.t) (view : option MarkdownView)
    (k : string) (pos : EditorPosition) :
  SrcMainJs.initialFileRestoreFn s = Some d ->
  Debouncer.due (clock (SrcMainJs.plugin s)) d = true ->
  (forall v, view = Some v -> view_file v = None) ->
  layoutReady (SrcMainJs.plugin s) = true ->
  path (activeFile (SrcMainJs.plugin s)) = k ->
  let s1 := SrcMainJs.step (SrcMainJs.RestoreTimer view) s in
  let s2 := SrcMainJs.step (SrcMainJs.SelectionSet (Some (View (Some k) pos))) s1 in
  (SrcMainJs.plugin s1 = SrcMainJs.plugin s /\
   SrcMainJs.timers s1 = SrcMainJs.timers s /\
   SrcMainJs.initialFileRestoreFn s1 = Some (SrcMainJs.fired d)) /\
  (lru (SrcMainJs.plugin s2) = lru (SrcMainJs.plugin s) /\
   effects (SrcMainJs.plugin s2) = effects (SrcMainJs.plugin s) /\
   settings (SrcMainJs.plugin s2) = settings (SrcMainJs.plugin s) /\
   debounceSaveFn (SrcMainJs.plugin s2) = debounceSaveFn (SrcMainJs.plugin s) /\
   SrcMainJs.timers s2 = SrcMainJs.timers s /\
   SrcMainJs.initialFileRestoreFn s2
   = Some (Debouncer.mk (Debouncer.timeout d) (Debouncer.resetTimer d)
             (Some (clock (SrcMainJs.plugin s) + Debouncer.timeout d)%N))).
Proof.
  intros Hfn Hdue Hview Hready Hpath s1 s2.
  assert (Hs1 : s1 = SrcMainJs.set_initialFileRestoreFn (Some (SrcMainJs.fired d)) s).
  { unfold s1. cbn [SrcMainJs.step]. unfold SrcMainJs.restoreTimer.
    rewrite Hfn, Hdue. unfold SrcMainJs.restoreCursorPosition.
    destruct view as [v|]; [|reflexivity].
    now rewrite (Hview v eq_refl). }
  split; [rewrite Hs1; repeat split; reflexivity|].
  unfold s2. rewrite Hs1. clear s1 s2 Hs1.
  cbn [SrcMainJs.step]. unfold SrcMainJs.updateCursorPosition.
  cbn [SrcMainJs.set_initialFileRestoreFn SrcMainJs.plugin SrcMainJs.initialFileRestoreFn
       view_file].
  rewrite Hready, Hpath, String.eqb_refl. cbn. repeat split; reflexivity.
Qed.

Lemma SrcMainJs_restore_without_view_stays_pending_witness :
  let s := SrcMainJs.step (SrcMainJs.Elapse 100)
             (SrcMainJs.fileOpen (Some "a.md") false None
                (SrcMainJs.mkState jsReadyCached None [] 0)) in
  let d := Debouncer.mk 100 true (Some 100%N) in
  let s1 := SrcMainJs.step (SrcMainJs.RestoreTimer None) s in
  let s2 := SrcMainJs.step (SrcMainJs.SelectionSet (Some (View (Some "a.md") (Pos 3 1)))) s1 in
  (SrcMainJs.plugin s1 = SrcMainJs.plugin s /\
   SrcMainJs.timers s1 = SrcMainJs.timers s /\
   SrcMainJs.initialFileRestoreFn s1 = Some (SrcMainJs.fired d)) /\
  (lru (SrcMainJs.plugin s2) = lru (SrcMainJs.plugin s) /\
   effects (SrcMainJs.plugin s2) = effects (SrcMainJs.plugin s) /\
   settings (SrcMainJs.plugin s2) = settings (SrcMainJs.plugin s) /\
   debounceSaveFn (SrcMainJs.plugin s2) = debounceSaveFn (SrcMainJs.plugin s) /\
   SrcMainJs.timers s2 = SrcMainJs.timers s /\
   SrcMainJs.initialFileRestoreFn s2
   = Some (Debouncer.mk (Debouncer.timeout d) (Debouncer.resetTimer d)
             (Some (clock (SrcMainJs.plugin s) + Debouncer.timeout d)%N))).
Proof.
  apply (SrcMainJs_restore_without_view_stays_pending
           (SrcMainJs.step (SrcMainJs.Elapse 100)
              (SrcMainJs.fileOpen (Some "a.md") false None
                 (SrcMainJs.mkState jsReadyCached None [] 0)))
           (Debouncer.mk 100 true (Some 100%N)) None "a.md" (Pos 3 1)).
  - reflexivity.
  - reflexivity.
  - intros v H. discriminate H.
  - reflexivity.
  - reflexivity.
Defined.

(** X17. [src/main.js], the plugin is loaded after the application: no
    'file-open' has set the active path when the layout becomes ready, and
    a Markdown view shows a file.  The callback takes that file as the
    active document with the zero-zero received, so that the next move
    notification for it is recorded: the cache then holds the reported
    position, and a save is requested when the cache held another or
    none. *)
Theorem SrcMainJs_layout_ready_adopts_view
    (s : SrcMainJs.State) (f : string) (c pos : EditorPosition) :
  path (activeFile (SrcMainJs.plugin s)) = "" ->
  SrcMainJs.initialFileRestoreFn s = None ->
  QuickLRU.maxSize (lru (SrcMainJs.plugin s)) = 50 ->
  let s1 := SrcMainJs.step (SrcMainJs.LayoutReady (Some (View (Some f) c))) s in
  let s2 := SrcMainJs.step (SrcMainJs.SelectionSet (Some (View (Some f) pos))) s1 in
  (layoutReady (SrcMainJs.plugin s1) = true /\
   activeFile (SrcMainJs.plugin s1) = Active f true /\
   lru (SrcMainJs.plugin s1) = lru (SrcMainJs.plugin s) /\
   effects (SrcMainJs.plugin s1) = effects (SrcMainJs.plugin s)) /\
  QuickLRU.lookup f (QuickLRU.entries (lru (SrcMainJs.plugin s2))) = Some pos /\
  (QuickLRU.lookup f (QuickLRU.entries (lru (SrcMainJs.plugin s))) <> Some pos ->
   effects (SrcMainJs.plugin s2) = SaveSettings :: effects (SrcMainJs.plugin s) /\
   exists d, debounceSaveFn (SrcMainJs.plugin s2) = Some d /\ Debouncer.pending d = true).
Proof.
  intros Hpath Hfn Hmax s1 s2.
  assert (Hs1 : s1 = SrcMainJs.onPlugin
                       (fun p => set_activeFile (Active f true) (set_layoutReady true p)) s).
  { unfold s1. cbn [SrcMainJs.step]. unfold SrcMainJs.onLayoutReady.
    cbn [SrcMainJs.onPlugin SrcMainJs.plugin set_layoutReady activeFile view_file].
    rewrite Hpath. reflexivity. }
  split; [rewrite Hs1; repeat split; reflexivity|].
  unfold s2. rewrite Hs1. clear s1 s2 Hs1. cbn [SrcMainJs.step].
  rewrite SrcMainJs_update_settled; [|reflexivity|reflexivity|exact Hfn|now left].
  cbn [SrcMainJs.onPlugin SrcMainJs.plugin].
  match goal with |- context [Part000.updateCursorPosition _ ?q] =>
    destruct (Part000_move_recorded_iff_changed q f pos eq_refl eq_refl eq_refl Hmax)
      as (H1 & H2 & _)
  end.
  split; [exact H1 | exact H2].
Qed.

Lemma SrcMainJs_layout_ready_adopts_view_witness :
  let s := SrcMainJs.loadSettings (Some [Info "a.md" (Pos 5 10)]) SrcMainJs.init in
  let s1 := SrcMainJs.step (SrcMainJs.LayoutReady (Some (View (Some "a.md") (Pos 5 10)))) s in
  let s2 := SrcMainJs.step (SrcMainJs.SelectionSet (Some (View (Some "a.md") (Pos 6 2)))) s1 in
  (layoutReady (SrcMainJs.plugin s1) = true /\
   activeFile (SrcMainJs.plugin s1) = Active "a.md" true /\
   lru (SrcMainJs.plugin s1) = lru (SrcMainJs.plugin s) /\
   effects (SrcMainJs.plugin s1) = effects (SrcMainJs.plugin s)) /\
  QuickLRU.lookup "a.md" (QuickLRU.entries (lru (SrcMainJs.plugin s2))) = Some (Pos 6 2) /\
  (QuickLRU.lookup "a.md" (QuickLRU.entries (lru (SrcMainJs.plugin s))) <> Some (Pos 6 2) ->
   effects (SrcMainJs.plugin s2) = SaveSettings :: effects (SrcMainJs.plugin s) /\
   exists d, debounceSaveFn (SrcMainJs.plugin s2) = Some d /\ Debouncer.pending d = true).
Proof.
  apply (SrcMainJs_layout_ready_adopts_view
           (SrcMainJs.loadSettings (Some [Info "a.md" (Pos 5 10)]) SrcMainJs.init)
           "a.md" (Pos 5 10) (Pos 6 2)); reflexivity.
Defined.

(** ** The variant [src/main.js]: no change of the cache goes unsaved *)

Lemma SrcMainJs_restore_nothingLost (view : option MarkdownView) (s : SrcMainJs.State) :
  nothingLost (SrcMainJs.plugin s) ->
  nothingLost (SrcMainJs.plugin (SrcMainJs.restoreCursorPosition view s)).
Proof.
  intros HJ. destruct (SrcMainJs_restore_plugin view s) as [-> | ->];
    [exact HJ | now apply Part000_onOpen_nothingLost].
Qed.

Lemma SrcMainJs_update_nothingLost (view : option MarkdownView) (s : SrcMainJs.State) :
  nothingLost (SrcMainJs.plugin s) ->
  nothingLost (SrcMainJs.plugin (SrcMainJs.updateCursorPosition view s)).
Proof.
  intros HJ. pose proof HJ as (Hwf & _). unfold SrcMainJs.updateCursorPosition.
  destruct (layoutReady (SrcMainJs.plugin s)); cbn [negb].
  2:{ eapply nothingLost_same; [reflexivity..|exact HJ]. }
  destruct view as [[[f|] c]|]; cbn [view_file view_cursor]; try exact HJ.
  destruct (String.eqb f (path (activeFile (SrcMainJs.plugin s)))); cbn [negb]; [|exact HJ].
  destruct (SrcMainJs.initialFileRestoreFn s) as [d|] eqn:Hfn.
  { destruct (SrcMainJs_call_frame (SrcMainJs.set_initialZeroZeroReceived true s))
      as (-> & _).
    eapply nothingLost_same; [reflexivity..|exact HJ]. }
  assert (Hpromoted : forall old c',
            (if QuickLRU.has f (lru (SrcMainJs.plugin s))
             then QuickLRU.get f (lru (SrcMainJs.plugin s))
             else (None, lru (SrcMainJs.plugin s))) = (old, c') ->
            nothingLost (set_lru c' (SrcMainJs.plugin s)) /\ QuickLRU.wf c').
  { intros old c' E. destruct (QuickLRU.has f (lru (SrcMainJs.plugin s))).
    - assert (Hc' : c' = snd (QuickLRU.get f (lru (SrcMainJs.plugin s)))) by now rewrite E.
      split; [|subst c'; now apply wf_get].
      apply (nothingLost_promoted (SrcMainJs.plugin s) _ f);
        [reflexivity|exact Hc'|reflexivity|exact HJ].
    - injection E as _ <-. split; [|exact Hwf].
      eapply nothingLost_same; [reflexivity..|exact HJ]. }
  destruct (if QuickLRU.has f (lru (SrcMainJs.plugin s))
            then QuickLRU.get f (lru (SrcMainJs.plugin s))
            else (None, lru (SrcMainJs.plugin s))) as [old c'] eqn:E.
  destruct (Hpromoted old c' eq_refl) as (HJ' & Hwf').
  destruct (negb (SrcMainJs.initialZeroZeroReceived (SrcMainJs.onPlugin (set_lru c') s))
            && atOrigin c).
  - exact HJ'.
  - destruct (match old with None => true | Some o => differentPosition c o end).
    + cbn [SrcMainJs.onPlugin SrcMainJs.set_initialZeroZeroReceived SrcMainJs.plugin].
      apply nothingLost_requested. cbn [set_lru set_activeFile lru].
      now apply wf_set.
    + eapply nothingLost_same; [reflexivity..|exact HJ'].
Qed.

Lemma SrcMainJs_step_nothingLost (e : SrcMainJs.Event) (s : SrcMainJs.State) :
  nothingLost (SrcMainJs.plugin s) -> nothingLost (SrcMainJs.plugin (SrcMainJs.step e s)).
Proof.
  intros HJ.
  destruct e as [file m h|view|n o|d|view| |t|view|n view]; cbn [SrcMainJs.step].
  - destruct (SrcMainJs_fileOpen_arms file m h s) as (_ & ->).
    eapply nothingLost_same; [reflexivity..|exact HJ].
  - now apply SrcMainJs_update_nothingLost.
  - now apply renameFile_nothingLost.
  - now apply deleteFile_nothingLost.
  - unfold SrcMainJs.onLayoutReady.
    destruct (negb _); [eapply nothingLost_same; [reflexivity..|exact HJ]|].
    destruct view as [[[f|] c]|]; cbn [view_file];
      eapply nothingLost_same; try reflexivity; exact HJ.
  - now apply quit_nothingLost.
  - now apply elapse_nothingLost.
  - unfold SrcMainJs.restoreTimer.
    destruct (SrcMainJs.initialFileRestoreFn s) as [d|]; [|exact HJ].
    destruct (Debouncer.due _ d); [|exact HJ].
    now apply SrcMainJs_restore_nothingLost.
  - unfold SrcMainJs.timerFires.
    destruct (nth_error _ n) as [f|]; [|exact HJ].
    destruct (f <=? _)%N; [|exact HJ].
    now apply SrcMainJs_restore_nothingLost.
Qed.

(** X18. [src/main.js], any trace of events (opens, move notifications,
    renames, deletions, the layout becoming ready, quit, time passing,
    timers of the restoration firing in any order): from a state where the
    cache is well formed, a held save debouncer has its timer running
    and, with none held, the snapshot has the records of the cache, every
    state reached is such a state again.  So a change of the cache is
    either already in the snapshot that was last written, or a timer is
    pending that will write it. *)
Theorem SrcMainJs_nothing_lost (es : list SrcMainJs.Event) (s0 : SrcMainJs.State) :
  QuickLRU.wf (lru (SrcMainJs.plugin s0)) ->
  (forall d, debounceSaveFn (SrcMainJs.plugin s0) = Some d -> Debouncer.pending d = true) ->
  (debounceSaveFn (SrcMainJs.plugin s0) = None ->
   Permutation (settings (SrcMainJs.plugin s0)) (serialize (SrcMainJs.plugin s0))) ->
  let p := SrcMainJs.plugin (SrcMainJs.steps es s0) in
  QuickLRU.wf (lru p) /\
  (forall d, debounceSaveFn p = Some d -> Debouncer.pending d = true) /\
  (debounceSaveFn p = None -> Permutation (settings p) (serialize p)).
Proof.
  intros H1 H2 H3.
  assert (HJ : nothingLost (SrcMainJs.plugin s0)) by exact (conj H1 (conj H2 H3)).
  clear H1 H2 H3. revert s0 HJ. unfold SrcMainJs.steps.
  induction es as [|e es IH]; intros s0 HJ; cbn [fold_left]; [exact HJ|].
  apply IH. now apply SrcMainJs_step_nothingLost.
Qed.

Lemma SrcMainJs_nothing_lost_witness :
  let s0 := SrcMainJs.loadSettings (Some [Info "a.md" (Pos 5 10)]) SrcMainJs.init in
  let p := SrcMainJs.plugin
             (SrcMainJs.steps
                [SrcMainJs.LayoutReady None;
                 SrcMainJs.FileOpen (Some "a.md") false None;
                 SrcMainJs.Elapse 100;
                 SrcMainJs.RestoreTimer (Some (View (Some "a.md") (Pos 0 0)));
                 SrcMainJs.SelectionSet (Some (View (Some "a.md") (Pos 5 10)));
                 SrcMainJs.SelectionSet (Some (View (Some "a.md") (Pos 6 0)));
                 SrcMainJs.Elapse 20000] s0) in
  QuickLRU.wf (lru p) /\
  (forall d, debounceSaveFn p = Some d -> Debouncer.pending d = true) /\
  (debounceSaveFn p = None -> Permutation (settings p) (serialize p)).
Proof.
  apply (SrcMainJs_nothing_lost
           [SrcMainJs.LayoutReady None;
            SrcMainJs.FileOpen (Some "a.md") false None;
            SrcMainJs.Elapse 100;
            SrcMainJs.RestoreTimer (Some (View (Some "a.md") (Pos 0 0)));
            SrcMainJs.SelectionSet (Some (View (Some "a.md") (Pos 5 10)));
            SrcMainJs.SelectionSet (Some (View (Some "a.md") (Pos 6 0)));
            SrcMainJs.Elapse 20000]
           (SrcMainJs.loadSettings (Some [Info "a.md" (Pos 5 10)]) SrcMainJs.init)).
  - split; [apply distinctb_sound; reflexivity | vm_compute; lia].
  - intros d H. discriminate H.
  - intros _. apply Permutation_refl.
Defined.

(** ** The variant [src/main.js]: settings changed from outside *)

Lemma lookup_set_other (k k' : string) (v : EditorPosition) (c : QuickLRU.t EditorPosition) :
  k <> k' ->
  length (QuickLRU.entries c) < QuickLRU.maxSize c ->
  QuickLRU.lookup k (QuickLRU.entries (QuickLRU.set k' v c))
  = QuickLRU.lookup k (QuickLRU.entries c).
Proof.
  intros Hne Hlen. cbn [QuickLRU.set QuickLRU.entries].
  rewrite evict_keep.
  - rewrite lookup_app, lookup_remove_other, lookup_cons by exact Hne.
    destruct (QuickLRU.lookup k (QuickLRU.entries c)); [reflexivity|].
    destruct (String.eqb_spec k' k); [congruence | reflexivity].
  - rewrite length_app. cbn [length].
    pose proof (length_remove k' (QuickLRU.entries c)). lia.
Qed.

Lemma length_set_le (k : string) (v : EditorPosition) (c : QuickLRU.t EditorPosition) :
  length (QuickLRU.entries (QuickLRU.set k v c)) <= S (length (QuickLRU.entries c)).
Proof.
  cbn [QuickLRU.set QuickLRU.entries]. unfold QuickLRU.evict.
  pose proof (length_remove k (QuickLRU.entries c)) as Hr.
  destruct (_ <? _).
  - destruct (QuickLRU.remove k (QuickLRU.entries c) ++ [(k, v)]) as [|e l] eqn:E;
      [cbn; lia|].
    apply (f_equal (@length _)) in E. rewrite length_app in E. cbn [length tl] in *. lia.
  - rewrite length_app. cbn [length]. lia.
Qed.

Lemma setAll_lookup (kvs : list (string * EditorPosition)) :
  forall c : QuickLRU.t EditorPosition,
    NoDup (map fst kvs) ->
    length (QuickLRU.entries c) + length kvs <= QuickLRU.maxSize c ->
    (forall k v, In (k, v) kvs ->
       QuickLRU.lookup k (QuickLRU.entries (QuickLRU.setAll kvs c)) = Some v) /\
    (forall k, ~ In k (map fst kvs) ->
       QuickLRU.lookup k (QuickLRU.entries (QuickLRU.setAll kvs c))
       = QuickLRU.lookup k (QuickLRU.entries c)).
Proof.
  induction kvs as [|[k0 v0] kvs IH]; intros c Hnd Hlen.
  - split; [intros k v []| reflexivity].
  - rewrite setAll_cons. cbn [map fst length] in *.
    apply NoDup_cons_iff in Hnd. destruct Hnd as [Hk0 Hnd].
    destruct (IH (QuickLRU.set k0 v0 c) Hnd) as [Hin Hout].
    { rewrite maxSize_set. pose proof (length_set_le k0 v0 c). lia. }
    split.
    + intros k v [E|Hkv].
      * injection E as <- <-. rewrite (Hout k0 Hk0).
        apply lookup_set_same. lia.
      * now apply Hin.
    + intros k Hnot. rewrite Hout by (intros H; apply Hnot; now right).
      apply lookup_set_other; [intros ->; apply Hnot; now left | lia].
Qed.

(** X19. [src/main.js], [onExternalSettingsChange] while the plugin runs,
    with data whose files are pairwise distinct and fit into the cache
    beside what it holds: the snapshot becomes the data read, every record
    read is then in the cache under its file, and every position the cache
    held for a file that the data does not name is still there; no save is
    requested and nothing is written.  When no data is stored the snapshot
    is kept. *)
Theorem SrcMainJs_external_change_merges
    (s : SrcMainJs.State) (data : list CursorInfo) :
  NoDup (map file data) ->
  length (QuickLRU.entries (lru (SrcMainJs.plugin s))) + length data
    <= QuickLRU.maxSize (lru (SrcMainJs.plugin s)) ->
  let s' := SrcMainJs.onExternalSettingsChange (Some data) s in
  let p := SrcMainJs.plugin s in
  let p' := SrcMainJs.plugin s' in
  settings p' = data /\
  (forall ci, In ci data ->
     QuickLRU.lookup (file ci) (QuickLRU.entries (lru p')) = Some (cursor ci)) /\
  (forall k, ~ In k (map file data) ->
     QuickLRU.lookup k (QuickLRU.entries (lru p'))
     = QuickLRU.lookup k (QuickLRU.entries (lru p))) /\
  effects p' = effects p /\ debounceSaveFn p' = debounceSaveFn p /\
  settings (SrcMainJs.plugin (SrcMainJs.onExternalSettingsChange None s))
  = settings p.
Proof.
  intros Hnd Hlen s' p p'. subst s' p p'.
  unfold SrcMainJs.onExternalSettingsChange, SrcMainJs.loadSettings, Part000.loadSettings,
    fillCache.
  cbn [SrcMainJs.onPlugin SrcMainJs.plugin set_settings set_lru settings lru effects
       debounceSaveFn].
  fold (asEntries data).
  destruct (setAll_lookup (asEntries data) (lru (SrcMainJs.plugin s))) as [Hin Hout].
  - now rewrite map_fst_asEntries.
  - unfold asEntries. now rewrite length_map.
  - split; [reflexivity|]. split.
    + intros ci Hci. apply Hin. unfold asEntries. apply in_map_iff. now exists ci.
    + split; [|repeat split; reflexivity].
      intros k Hk. apply Hout. now rewrite map_fst_asEntries.
Qed.

Lemma SrcMainJs_external_change_merges_witness :
  let s := SrcMainJs.mkState readyOnY None [] 0 in
  let data := [Info "a.md" (Pos 5 10); Info "x.md" (Pos 0 3)] in
  let s' := SrcMainJs.onExternalSettingsChange (Some data) s in
  let p := SrcMainJs.plugin s in
  let p' := SrcMainJs.plugin s' in
  settings p' = data /\
  (forall ci, In ci data ->
     QuickLRU.lookup (file ci) (QuickLRU.entries (lru p')) = Some (cursor ci)) /\
  (forall k, ~ In k (map file data) ->
     QuickLRU.lookup k (QuickLRU.entries (lru p'))
     = QuickLRU.lookup k (QuickLRU.entries (lru p))) /\
  effects p' = effects p /\ debounceSaveFn p' = debounceSaveFn p /\
  settings (SrcMainJs.plugin (SrcMainJs.onExternalSettingsChange None s))
  = settings p.
Proof.
  apply (SrcMainJs_external_change_merges
           (SrcMainJs.mkState readyOnY None [] 0)
           [Info "a.md" (Pos 5 10); Info "x.md" (Pos 0 3)]).
  - apply distinctb_sound. reflexivity.
  - vm_compute. lia.
Defined.
